(** * Dominion Energy API client: a verification development

    A shallow embedding of [custom_components/dominion_energy/api.py]
    (with the constants of [const.py]) and the properties of its login
    sequence, request construction and data normalisation, followed by
    the callers of the client in [coordinator.py], [config_flow.py] and
    [sensor.py].

    Conventions of the embedding.
    - A Python value obtained from a decoded JSON body is a [json]; [JNull]
      is Python's [None].  A number is carried by its exact rational value
      (every Python int and every finite float is a rational); the
      operations on numbers that round ([/] and [round]) belong to the
      [runtime] and are not assumed exact, and the [runtime] says when
      [/] raises [OverflowError].
    - A Python exception is an [exn]; a computation either returns or
      raises, and it threads the mutable objects it touches ([self], the
      list of requests put on the wire, the [DominionEnergyData] under
      construction) through a state monad, so that a mutation done before an
      exception is raised is still there when the exception is caught.
    - The remote side is a [world]: a function from the requests sent so
      far and the next request to what the transport does with it, and the
      reading of the wall clock. *)

From Stdlib Require Import ZArith QArith Qabs String Ascii List Lia.
From stdpp Require Import base gmap strings pretty.
Import ListNotations.

Set Warnings "-register-all".
Local Open Scope string_scope.
Local Open Scope Z_scope.

(** ** Python values *)

Inductive json : Type :=
| JNull
| JBool (b : bool)
| JNum (q : Q)
| JStr (s : string)
| JArr (items : list json)
| JObj (members : list (string * json)).

(** Truth value of a Python object: [None], [False], zero, the empty
    string and the empty containers are false. *)
Definition truthy (v : json) : bool :=
  match v with
  | JNull => false
  | JBool b => b
  | JNum q => negb (Qnum q =? 0)
  | JStr s => negb (String.eqb s "")
  | JArr items => match items with [] => false | _ => true end
  | JObj members => match members with [] => false | _ => true end
  end.

Definition is_None (v : json) : bool :=
  match v with JNull => true | _ => false end.

(** ** Exceptions *)

Inductive exn : Type :=
| DominionEnergyApiError (msg : string)
| DominionEnergyAuthError (msg : string)
| ClientError (msg : string)
| ValueError
| TypeError
| AttributeError
| KeyError
| IndexError
| ZeroDivisionError
| OverflowError.

(** [class DominionEnergyAuthError(DominionEnergyApiError)]: a handler for
    the base class catches both. *)
Definition isinstance_ApiError (e : exn) : bool :=
  match e with
  | DominionEnergyApiError _ | DominionEnergyAuthError _ => true
  | _ => false
  end.

Definition isinstance_AuthError (e : exn) : bool :=
  match e with DominionEnergyAuthError _ => true | _ => false end.

Definition isinstance_ClientError (e : exn) : bool :=
  match e with ClientError _ => true | _ => false end.

Definition isinstance_ValueError (e : exn) : bool :=
  match e with ValueError => true | _ => false end.

Definition str_of_exn (e : exn) : string :=
  match e with
  | DominionEnergyApiError m | DominionEnergyAuthError m | ClientError m => m
  | ValueError | TypeError | AttributeError | KeyError | IndexError
  | ZeroDivisionError | OverflowError => ""
  end.

Inductive outcome (A : Type) : Type :=
| Return (a : A)
| Raise (e : exn).
Arguments Return {A} a.
Arguments Raise {A} e.

(** ** The state-and-exception monad *)

Module Py.
Section Monad.
Context {S : Type}.

Definition M (A : Type) : Type := S -> outcome A * S.

Definition ret {A} (a : A) : M A := fun s => (Return a, s).
Definition raise {A} (e : exn) : M A := fun s => (Raise e, s).
Definition bind {A B} (c : M A) (k : A -> M B) : M B :=
  fun s => match c s with
           | (Return a, s') => k a s'
           | (Raise e, s') => (Raise e, s')
           end.
Definition get : M S := fun s => (Return s, s).
Definition put (s : S) : M unit := fun _ => (Return tt, s).
Definition modify (f : S -> S) : M unit := fun s => (Return tt, f s).

(** [try: body except C1 as err: h1(err) except C2 as err: h2(err) ...]:
    the first clause whose class test accepts the exception handles it;
    with none, the exception goes on. *)
Fixpoint dispatch {A} (clauses : list ((exn -> bool) * (exn -> M A)))
         (e : exn) : M A :=
  match clauses with
  | [] => raise e
  | (catches, handler) :: rest =>
      if catches e then handler e else dispatch rest e
  end.

Definition try_except {A} (body : M A)
           (clauses : list ((exn -> bool) * (exn -> M A))) : M A :=
  fun s => match body s with
           | (Return a, s') => (Return a, s')
           | (Raise e, s') => dispatch clauses e s'
           end.

(** A pure computation that may raise. *)
Definition lift_outcome {A} (o : outcome A) : M A := fun s => (o, s).
End Monad.
Arguments M : clear implicits.
End Py.

Import Py.

Declare Scope py_scope.
Delimit Scope py_scope with py.
Notation "'do' x <- c ; k" := (bind c (fun x => k))
  (at level 10, x name, c at level 100, k at level 200) : py_scope.
Notation "'do_' c ; k" := (bind c (fun _ => k))
  (at level 10, c at level 100, k at level 200) : py_scope.
Local Open Scope py_scope.

(** ** Built-in operations on Python values *)

Fixpoint assoc (key : string) (members : list (string * json)) : option json :=
  match members with
  | [] => None
  | (k, v) :: rest => if String.eqb k key then Some v else assoc key rest
  end.

(** [d.get(key, default)]; only a dict has the method. *)
Definition py_get (d : json) (key : string) (default : json) : outcome json :=
  match d with
  | JObj members =>
      Return (match assoc key members with Some v => v | None => default end)
  | _ => Raise AttributeError
  end.

(** The number a value stands for in arithmetic; [bool] is a subclass of
    [int]. *)
Definition as_number (v : json) : option Q :=
  match v with
  | JNum q => Some q
  | JBool b => Some (if b then 1%Q else 0%Q)
  | _ => None
  end.

(** [v > 0] *)
Definition py_gt0 (v : json) : outcome bool :=
  match as_number v with
  | Some q => Return (0 <? Qnum q)
  | None => Raise TypeError
  end.

(** [str.replace("Z", "+00:00")] *)
Fixpoint replace_Z (s : string) : string :=
  match s with
  | EmptyString => EmptyString
  | String c rest =>
      if Ascii.eqb c "Z" then "+00:00" ++ replace_Z rest
      else String c (replace_Z rest)
  end.

Definition py_replace_Z (v : json) : outcome string :=
  match v with
  | JStr s => Return (replace_Z s)
  | _ => Raise AttributeError
  end.

(** [seq[0]] *)
Definition py_item0 (v : json) : outcome json :=
  match v with
  | JArr (x :: _) => Return x
  | JArr [] => Raise IndexError
  | JStr (String c _) => Return (JStr (String c EmptyString))
  | JStr EmptyString => Raise IndexError
  | JObj _ => Raise KeyError
  | _ => Raise TypeError
  end.

(** *** [int(x)]

    For a string: surrounding white space is dropped, one sign is allowed,
    and the rest is decimal digits, single underscores allowed between
    digits.  Only ASCII digits and white space are recognised. *)

Definition is_space (c : ascii) : bool :=
  let n := Z.of_nat (nat_of_ascii c) in
  ((9 <=? n) && (n <=? 13)) || ((28 <=? n) && (n <=? 32)).

Definition digit_of (c : ascii) : option Z :=
  let n := Z.of_nat (nat_of_ascii c) in
  if (48 <=? n) && (n <=? 57) then Some (n - 48) else None.

Fixpoint lstrip (l : list ascii) : list ascii :=
  match l with
  | c :: rest => if is_space c then lstrip rest else l
  | [] => []
  end.

Definition strip (l : list ascii) : list ascii :=
  rev (lstrip (rev (lstrip l))).

Fixpoint parse_digits (acc : Z) (after_digit : bool) (l : list ascii) : option Z :=
  match l with
  | [] => if after_digit then Some acc else None
  | c :: rest =>
      match digit_of c with
      | Some d => parse_digits (acc * 10 + d) true rest
      | None =>
          if Ascii.eqb c "_" && after_digit then parse_digits acc false rest
          else None
      end
  end.

Definition int_of_string (s : string) : option Z :=
  match strip (list_ascii_of_string s) with
  | c :: rest =>
      if Ascii.eqb c "-" then option_map Z.opp (parse_digits 0 false rest)
      else if Ascii.eqb c "+" then parse_digits 0 false rest
      else parse_digits 0 false (c :: rest)
  | [] => None
  end.

Definition py_int (v : json) : outcome Z :=
  match v with
  | JNum q => Return (Z.quot (Qnum q) (Zpos (Qden q)))
  | JBool b => Return (if b then 1 else 0)
  | JStr s =>
      match int_of_string s with
      | Some z => Return z
      | None => Raise ValueError
      end
  | JNull | JArr _ | JObj _ => Raise TypeError
  end.

(** ** [datetime] *)

Record datetime : Type := mk_datetime {
  year : Z; month : Z; day : Z;
  hour : Z; minute : Z; second : Z; microsecond : Z;
  tzinfo : option Z  (* UTC offset in seconds; [None] for a naive value *)
}.

Definition is_leap (y : Z) : bool :=
  (y mod 4 =? 0) && (negb (y mod 100 =? 0) || (y mod 400 =? 0)).

Definition days_before_year (y : Z) : Z :=
  let p := y - 1 in p * 365 + p / 4 - p / 100 + p / 400.

Definition days_in_month (y m : Z) : Z :=
  if m =? 2 then (if is_leap y then 29 else 28)
  else if (m =? 4) || (m =? 6) || (m =? 9) || (m =? 11) then 30 else 31.

Definition days_before_month (y m : Z) : Z :=
  nth (Z.to_nat m) [0; 0; 31; 59; 90; 120; 151; 181; 212; 243; 273; 304; 334] 0
  + (if (2 <? m) && is_leap y then 1 else 0).

Definition toordinal (d : datetime) : Z :=
  days_before_year (year d) + days_before_month (year d) (month d) + day d.

(** [dt.replace(tzinfo=None)]: the wall-clock fields are kept. *)
Definition replace_tzinfo_None (d : datetime) : datetime :=
  mk_datetime (year d) (month d) (day d)
              (hour d) (minute d) (second d) (microsecond d) None.

(** Microseconds since midnight of ordinal day 0, for a naive value. *)
Definition wall_microseconds (d : datetime) : Z :=
  ((toordinal d * 86400 + hour d * 3600 + minute d * 60 + second d) * 1000000)
  + microsecond d.

(** [(a - b).days] for two naive values: a [timedelta] is normalised so
    that its seconds and microseconds are non-negative, hence the floor. *)
Definition sub_days (a b : datetime) : Z :=
  (wall_microseconds a - wall_microseconds b) / 86400000000.

(** ** The Python runtime

    Library operations whose exact behaviour the client does not fix. *)

Record runtime : Type := {
  (** [datetime.fromisoformat]; [None] when it raises [ValueError] *)
  fromisoformat : string -> option datetime;
  (** [str(x)] of an object that is not already a string *)
  str_of : json -> string;
  (** [x / y] on numbers, [y] not zero *)
  truediv : Q -> Q -> Q;
  (** whether [x / y] raises [OverflowError]: the quotient of two [int]s
      outside the range of [float], or an [int] operand too large to
      convert to [float] *)
  truediv_overflows : Q -> Q -> bool;
  (** [round(x, ndigits)] *)
  round_ndigits : Q -> Z -> Q
}.

Section Arithmetic.
Variable rt : runtime.

(** [a / b]: [OverflowError] where the runtime says so, else
    [ZeroDivisionError] for a zero divisor. *)
Definition py_truediv (a b : json) : outcome json :=
  match as_number a, as_number b with
  | Some x, Some y =>
      if truediv_overflows rt x y then Raise OverflowError
      else if Qnum y =? 0 then Raise ZeroDivisionError
      else Return (JNum (truediv rt x y))
  | _, _ => Raise TypeError
  end.

(** [round(v, ndigits)] *)
Definition py_round (v : json) (ndigits : Z) : outcome json :=
  match as_number v with
  | Some q => Return (JNum (round_ndigits rt q ndigits))
  | None => Raise TypeError
  end.

(** The text an f-string or a [%s] puts for a value. *)
Definition format (v : json) : string :=
  match v with
  | JStr s => s
  | _ => str_of rt v
  end.

Definition py_fromisoformat (s : string) : outcome datetime :=
  match fromisoformat rt s with
  | Some d => Return d
  | None => Raise ValueError
  end.
End Arithmetic.

(** ** Constants ([const.py]) *)

Definition LOGIN_URL := "https://login.dominionenergy.com/CommonLogin".
Definition API_BASE_URL :=
  "https://prodsvc-dominioncip.smartcmobile.com/Service/api/1".
Definition BILL_FORECAST_ENDPOINT := "/bill/billForecast".
Definition USAGE_HISTORY_ENDPOINT := "/usage/usageHistory".
Definition BILL_HISTORY_ENDPOINT := "/bill/billHistory".
Definition ACTION_CODE := "4".
Definition USER_AGENT :=
  "Mozilla/5.0 (Windows NT 10.0; Win64; x64) AppleWebKit/537.36 (KHTML, like Gecko) Chrome/120.0.0.0 Safari/537.36".

Definition DEFAULT_HEADERS : gmap string json :=
  list_to_map
    [ ("uid", JStr "1"); ("pt", JStr "1"); ("channel", JStr "WEB");
      ("Origin", JStr "https://myaccount.dominionenergy.com");
      ("Accept", JStr "application/json");
      ("User-Agent", JStr USER_AGENT) ].

(** ** HTTP as the client sees it *)

Inductive http_method : Type := GET | POST.

Inductive req_payload : Type :=
| NoPayload
| FormData (fields : gmap string string)   (* [data=...] *)
| JsonData (fields : gmap string string).  (* [json=...] *)

Record request : Type := mk_request {
  req_method : http_method;
  req_url : string;
  req_params : gmap string string;
  req_headers : gmap string json;
  req_payload_of : req_payload
}.

(** What reading the body of a response can do. *)
Inductive payload : Type :=
| Json (j : json)  (* a JSON document served as JSON *)
| NotJson          (* readable, but not served as JSON: [json()] raises
                      [ContentTypeError], a [ClientError] *)
| Malformed        (* served as JSON but not a JSON document: [json()]
                      raises [JSONDecodeError], a [ValueError] *)
| Broken.          (* the body cannot be read: [ClientPayloadError], a
                      [ClientError] *)

Record response : Type := mk_response { status : Z; body : payload }.

Inductive transport : Type :=
| Responded (r : response)
| Failed (msg : string).  (* the request raises [aiohttp.ClientError] *)

Definition response_json (r : response) : outcome json :=
  match body r with
  | Json j => Return j
  | NotJson => Raise (ClientError "unexpected mimetype")
  | Malformed => Raise ValueError
  | Broken => Raise (ClientError "payload is not completed")
  end.

Definition response_text (r : response) : outcome unit :=
  match body r with
  | Broken => Raise (ClientError "payload is not completed")
  | _ => Return tt
  end.

Record world : Type := {
  (** the transport's answer to a request, given the requests sent before
      it (most recent first) *)
  server : list request -> request -> transport;
  (** [datetime.now()], a naive local time *)
  now : datetime
}.

(** ** The client object and the process state *)

Inductive ClientSession : Type :=
| SuppliedSession  (* the session passed to the constructor *)
| NewSession.      (* [aiohttp.ClientSession()] *)

Record DominionEnergyApi : Type := mk_api {
  _username : string;
  _password : string;
  _account_number : string;
  _session : option ClientSession;
  _token : json;
  _own_session : bool
}.

(** [DominionEnergyApi(username, password, account_number, session)] *)
Definition new_api (username password account_number : string)
           (session : option ClientSession) : DominionEnergyApi :=
  mk_api username password account_number session JNull false.

Definition with_token (t : json) (a : DominionEnergyApi) : DominionEnergyApi :=
  mk_api (_username a) (_password a) (_account_number a) (_session a) t
         (_own_session a).

Definition with_session (s : option ClientSession) (own : bool)
           (a : DominionEnergyApi) : DominionEnergyApi :=
  mk_api (_username a) (_password a) (_account_number a) s (_token a) own.

Inductive log_level : Type := DEBUG | INFO | WARNING | ERROR.

Record process : Type := mk_process {
  self : DominionEnergyApi;
  wire : list request;                 (* requests sent, most recent first *)
  logged : list (log_level * string)   (* log records, most recent first *)
}.

Definition boot (a : DominionEnergyApi) : process := mk_process a [] [].

(** ** The requests of the login sequence *)

Definition token_url := "https://login.dominionenergy.com/oauth2/token".
Definition login_submit_url := "https://login.dominionenergy.com/api/v1/authn".

Definition login_page_request : request :=
  let login_params : gmap string string := {[ "SelectedAppName" := "Electric" ]} in
  mk_request GET LOGIN_URL login_params ∅ NoPayload.

Definition token_request (a : DominionEnergyApi) : request :=
  let auth_data : gmap string string :=
    list_to_map
      [ ("username", _username a); ("password", _password a);
        ("client_id", "CustomerPortal"); ("grant_type", "password");
        ("scope", "openid profile email") ] in
  let headers : gmap string json :=
    list_to_map
      [ ("Content-Type", JStr "application/x-www-form-urlencoded");
        ("Accept", JStr "application/json");
        ("User-Agent", JStr USER_AGENT) ] in
  mk_request POST token_url ∅ headers (FormData auth_data).

Definition login_submit_request (a : DominionEnergyApi) : request :=
  let login_data : gmap string string :=
    list_to_map [ ("Email", _username a); ("Password", _password a) ] in
  let headers : gmap string json :=
    list_to_map
      [ ("Content-Type", JStr "application/json");
        ("Accept", JStr "application/json") ] in
  mk_request POST login_submit_url ∅ headers (JsonData login_data).

(** ** The client's methods *)

Section Client.
Variable rt : runtime.
Variable w : world.

Definition log (level : log_level) (msg : string) : M process unit :=
  modify (fun p => mk_process (self p) (wire p) ((level, msg) :: logged p)).

Definition set_self (f : DominionEnergyApi -> DominionEnergyApi)
  : M process unit :=
  modify (fun p => mk_process (f (self p)) (wire p) (logged p)).

Definition get_self : M process DominionEnergyApi :=
  do p <- get; ret (self p).

(** [session.get(...)] / [session.post(...)]: the request goes on the
    wire and the transport answers or fails. *)
Definition send (req : request) : M process response :=
  fun p =>
    let p' := mk_process (self p) (req :: wire p) (logged p) in
    match server w (wire p) req with
    | Responded r => (Return r, p')
    | Failed msg => (Raise (ClientError msg), p')
    end.

Definition _get_session : M process ClientSession :=
  do a <- get_self;
  match _session a with
  | None =>
      do_ set_self (with_session (Some NewSession) true);
      ret NewSession
  | Some s => ret s
  end.

Definition authenticate : M process bool :=
  do session <- _get_session;
  try_except
    (do response <- send login_page_request;
     do_ (if negb (status response =? 200) then
            raise (DominionEnergyAuthError
                     ("Failed to access login page: " ++ pretty (status response)))
          else
            do_ lift_outcome (response_text response);
            log DEBUG "Got login page");
     (* the token endpoint, directly *)
     do a <- get_self;
     do response <- send (token_request a);
     do returned <-
       (if status response =? 200 then
          do token_data <- lift_outcome (response_json response);
          do access_token <- lift_outcome (py_get token_data "access_token" JNull);
          do_ set_self (with_token access_token);
          do a <- get_self;
          if truthy (_token a) then
            do_ log INFO "Successfully authenticated with Dominion Energy";
            ret (Some true)
          else ret None
        else ret None);
     match returned with
     | Some b => ret b
     | None =>
         (* form-based login, the fallback *)
         do a <- get_self;
         do response <- send (login_submit_request a);
         do returned <-
           (if status response =? 200 then
              do auth_response <- lift_outcome (response_json response);
              do session_token <-
                lift_outcome (py_get auth_response "sessionToken" JNull);
              if truthy session_token then
                do_ set_self (with_token (JStr ("Bearer " ++ format rt session_token)));
                do_ log INFO "Successfully authenticated via session token";
                ret (Some true)
              else ret None
            else ret None);
         match returned with
         | Some b => ret b
         | None =>
             raise (DominionEnergyAuthError
                      "Failed to authenticate - please check your credentials")
         end
     end)
    [ (isinstance_ClientError,
       fun err =>
         raise (DominionEnergyAuthError
                  ("Network error during authentication: " ++ str_of_exn err))) ].

Definition set_token (token : string) : M process unit :=
  let token :=
    if String.prefix "Bearer " token then token else "Bearer " ++ token in
  set_self (with_token (JStr token)).

Definition _get_headers : M process (gmap string json) :=
  do a <- get_self;
  let headers := DEFAULT_HEADERS in
  if truthy (_token a) then ret (<["Authorization" := _token a]> headers)
  else ret headers.

(** The query of [_api_request]: the fixed pair, updated with the
    caller's parameters when there are any. *)
Definition merge_params (a : DominionEnergyApi)
           (params : option (gmap string string)) : gmap string string :=
  let default_params : gmap string string :=
    <["accountNumber" := _account_number a]>
      (<["actionCode" := ACTION_CODE]> ∅) in
  match params with
  | Some p => if decide (p = ∅) then default_params else p ∪ default_params
  | None => default_params
  end.

Definition _api_request (endpoint : string)
           (params : option (gmap string string)) : M process json :=
  do a <- get_self;
  if negb (truthy (_token a)) then
    raise (DominionEnergyApiError "Not authenticated - call authenticate() first")
  else
    do session <- _get_session;
    let url := API_BASE_URL ++ endpoint in
    do a <- get_self;
    let default_params := merge_params a params in
    try_except
      (do headers <- _get_headers;
       do response <- send (mk_request GET url default_params headers NoPayload);
       if status response =? 401 then
         raise (DominionEnergyAuthError "Token expired or invalid")
       else if negb (status response =? 200) then
         raise (DominionEnergyApiError
                  ("API request failed with status " ++ pretty (status response)))
       else
         do data <- lift_outcome (response_json response);
         do status <- lift_outcome (py_get data "status" (JObj []));
         do status_code <- lift_outcome (py_get status "code" JNull);
         do is_error <-
           (if truthy status_code then
              do n <- lift_outcome (py_int status_code);
              ret (negb (n =? 200))
            else ret false);
         if (is_error : bool) then
           do message <-
             lift_outcome (py_get status "message" (JStr "Unknown error"));
           raise (DominionEnergyApiError ("API error: " ++ format rt message))
         else ret data)
      [ (isinstance_ClientError,
         fun err =>
           raise (DominionEnergyApiError ("Network error: " ++ str_of_exn err))) ].

Definition get_bill_forecast : M process json :=
  _api_request BILL_FORECAST_ENDPOINT None.

Definition get_usage_history (start_date end_date : option string)
  : M process json :=
  let params : gmap string string := ∅ in
  let params :=
    match start_date with
    | Some s => if negb (String.eqb s "") then <["startDate" := s]> params else params
    | None => params
    end in
  let params :=
    match end_date with
    | Some s => if negb (String.eqb s "") then <["endDate" := s]> params else params
    | None => params
    end in
  _api_request USAGE_HISTORY_ENDPOINT (Some params).

Definition get_bill_history : M process json :=
  _api_request BILL_HISTORY_ENDPOINT None.

End Client.

(** ** The reading *)

Record DominionEnergyData : Type := mk_data {
  grid_consumption : json;
  grid_return : json;
  monthly_usage : json;
  current_bill : json;
  billing_period_start : option datetime;
  billing_period_end : option datetime;
  current_rate : json;
  daily_cost : json;
  daily_usage : json;
  daily_return : json
}.

(** [DominionEnergyData()]: every field [None]. *)
Definition new_data : DominionEnergyData :=
  mk_data JNull JNull JNull JNull None None JNull JNull JNull JNull.

Definition set_grid_consumption v d :=
  let '(mk_data _ gr mu cb bs be cr dc du dr) := d in
  mk_data v gr mu cb bs be cr dc du dr.
Definition set_grid_return v d :=
  let '(mk_data gc _ mu cb bs be cr dc du dr) := d in
  mk_data gc v mu cb bs be cr dc du dr.
Definition set_monthly_usage v d :=
  let '(mk_data gc gr _ cb bs be cr dc du dr) := d in
  mk_data gc gr v cb bs be cr dc du dr.
Definition set_current_bill v d :=
  let '(mk_data gc gr mu _ bs be cr dc du dr) := d in
  mk_data gc gr mu v bs be cr dc du dr.
Definition set_billing_period_start v d :=
  let '(mk_data gc gr mu cb _ be cr dc du dr) := d in
  mk_data gc gr mu cb v be cr dc du dr.
Definition set_billing_period_end v d :=
  let '(mk_data gc gr mu cb bs _ cr dc du dr) := d in
  mk_data gc gr mu cb bs v cr dc du dr.
Definition set_current_rate v d :=
  let '(mk_data gc gr mu cb bs be _ dc du dr) := d in
  mk_data gc gr mu cb bs be v dc du dr.
Definition set_daily_cost v d :=
  let '(mk_data gc gr mu cb bs be cr _ du dr) := d in
  mk_data gc gr mu cb bs be cr v du dr.
Definition set_daily_usage v d :=
  let '(mk_data gc gr mu cb bs be cr dc _ dr) := d in
  mk_data gc gr mu cb bs be cr dc v dr.
Definition set_daily_return v d :=
  let '(mk_data gc gr mu cb bs be cr dc du _) := d in
  mk_data gc gr mu cb bs be cr dc du v.

(** ** [get_all_data] and [validate_credentials]

    The body of [get_all_data] runs on the process state together with
    its local [data] object. *)

Definition frame : Type := (process * DominionEnergyData)%type.

Section Orchestration.
Variable rt : runtime.
Variable w : world.

(** A method call on [self] from inside [get_all_data]. *)
Definition call {A} (c : M process A) : M frame A :=
  fun '(p, d) => let '(o, p') := c p in (o, (p', d)).

Definition data : M frame DominionEnergyData :=
  fun '(p, d) => (Return d, (p, d)).

Definition assign (f : DominionEnergyData -> DominionEnergyData)
  : M frame unit :=
  fun '(p, d) => (Return tt, (p, f d)).

Definition pass : M frame unit := ret tt.

(** [a and b] used as a condition, [b] evaluated only when [a] holds. *)
Definition and_then (a : bool) (b : M frame bool) : M frame bool :=
  if a then b else ret false.

Definition parse_date (raw : json) (label : string)
           (store : option datetime -> DominionEnergyData -> DominionEnergyData)
  : M frame unit :=
  if truthy raw then
    try_except
      (do text <- lift_outcome (py_replace_Z raw);
       do parsed <- lift_outcome (py_fromisoformat rt text);
       assign (store (Some parsed)))
      [ (isinstance_ValueError,
         fun _ => call (log WARNING (label ++ format rt raw))) ]
  else pass.

(** The sections of the bill-forecast block, in source order. *)

Definition current_usage_step (forecast_data : json) : M frame unit :=
  do v <- lift_outcome (py_get forecast_data "currentUsageKwh" JNull);
  do_ assign (set_monthly_usage v);
  do d <- data;
  assign (set_grid_consumption (monthly_usage d)).

Definition current_bill_step (forecast_data : json) : M frame unit :=
  do v <- lift_outcome (py_get forecast_data "currentBillAmount" JNull);
  do_ assign (set_current_bill v);
  do d <- data;
  if is_None (current_bill d) then
    do v <- lift_outcome (py_get forecast_data "projectedBillAmount" JNull);
    assign (set_current_bill v)
  else pass.

Definition billing_dates_step (forecast_data : json) : M frame unit :=
  do billing_start <-
    lift_outcome (py_get forecast_data "billingPeriodStartDate" JNull);
  do billing_end <-
    lift_outcome (py_get forecast_data "billingPeriodEndDate" JNull);
  do_ parse_date billing_start "Could not parse billing start date: "
        set_billing_period_start;
  parse_date billing_end "Could not parse billing end date: "
    set_billing_period_end.

Definition rate_step : M frame unit :=
  do d <- data;
  do has_rate <-
    and_then (truthy (current_bill d))
      (and_then (truthy (monthly_usage d))
         (lift_outcome (py_gt0 (monthly_usage d))));
  if (has_rate : bool) then
    do q <- lift_outcome (py_truediv rt (current_bill d) (monthly_usage d));
    do r <- lift_outcome (py_round rt q 4);
    assign (set_current_rate r)
  else pass.

Definition daily_cost_step : M frame unit :=
  do d <- data;
  match billing_period_start d with
  | Some start =>
      if truthy (current_bill d) then
        let days_elapsed := sub_days (now w) (replace_tzinfo_None start) in
        if 0 <? days_elapsed then
          do q <- lift_outcome
                    (py_truediv rt (current_bill d)
                                (JNum (inject_Z days_elapsed)));
          do r <- lift_outcome (py_round rt q 2);
          assign (set_daily_cost r)
        else pass
      else pass
  | None => pass
  end.

Definition grid_return_step (forecast_data : json) : M frame unit :=
  do v <- lift_outcome (py_get forecast_data "netMeteringExportKwh" (JNum 0));
  do_ assign (set_grid_return v);
  do d <- data;
  if is_None (grid_return d) then
    do v <- lift_outcome (py_get forecast_data "gridReturnKwh" (JNum 0));
    assign (set_grid_return v)
  else pass.

Definition forecast_steps (forecast_data : json) : M frame unit :=
  do_ current_usage_step forecast_data;
  do_ current_bill_step forecast_data;
  do_ billing_dates_step forecast_data;
  do_ rate_step;
  do_ daily_cost_step;
  grid_return_step forecast_data.

Definition forecast_block : M frame unit :=
  do bill_forecast <- call (get_bill_forecast rt w);
  do forecast_data <- lift_outcome (py_get bill_forecast "data" (JObj []));
  forecast_steps forecast_data.

Definition usage_block : M frame unit :=
  do usage_history <- call (get_usage_history rt w None None);
  do history_data <- lift_outcome (py_get usage_history "data" (JObj []));
  do daily_usage <- lift_outcome (py_get history_data "dailyUsage" (JArr []));
  do_ (if truthy daily_usage then assign (set_daily_usage daily_usage) else pass);
  do daily_return <- lift_outcome (py_get history_data "dailyReturn" (JArr []));
  if truthy daily_return then assign (set_daily_return daily_return) else pass.

Definition bills_block : M frame unit :=
  do bill_history <- call (get_bill_history rt w);
  do history_data <- lift_outcome (py_get bill_history "data" (JObj []));
  do bills <- lift_outcome (py_get history_data "bills" (JArr []));
  if truthy bills then
    do latest_bill <- lift_outcome (py_item0 bills);
    do d <- data;
    if truthy latest_bill && negb (truthy (current_rate d)) then
      do bill_amount <- lift_outcome (py_get latest_bill "totalAmount" JNull);
      do bill_usage <- lift_outcome (py_get latest_bill "totalUsageKwh" JNull);
      do ok <-
        and_then (truthy bill_amount)
          (and_then (truthy bill_usage) (lift_outcome (py_gt0 bill_usage)));
      if (ok : bool) then
        do q <- lift_outcome (py_truediv rt bill_amount bill_usage);
        do r <- lift_outcome (py_round rt q 4);
        assign (set_current_rate r)
      else pass
    else pass
  else pass.

(** [except DominionEnergyApiError as err: _LOGGER....(msg, err)] *)
Definition logged_and_ignored (level : log_level) (msg : string)
  : list ((exn -> bool) * (exn -> M frame unit)) :=
  [ (isinstance_ApiError, fun err => call (log level (msg ++ str_of_exn err))) ].

Definition get_all_data_body : M frame DominionEnergyData :=
  do_ try_except forecast_block
        (logged_and_ignored ERROR "Error fetching bill forecast: ");
  do_ try_except usage_block
        (logged_and_ignored DEBUG "Error fetching usage history: ");
  do_ try_except bills_block
        (logged_and_ignored DEBUG "Error fetching bill history: ");
  data.

Definition get_all_data : M process DominionEnergyData :=
  fun p => let '(o, (p', _)) := get_all_data_body (p, new_data) in (o, p').

Definition validate_credentials : M process bool :=
  try_except
    (do_ authenticate rt w;
     do_ get_bill_forecast rt w;
     ret true)
    [ (isinstance_AuthError, fun _ => ret false);
      (isinstance_ApiError, fun _ => ret true) ].

End Orchestration.

(** ** A runtime to compute with

    Exact arithmetic (round-half-even at the requested decimal), and
    [fromisoformat] on the forms [YYYY-MM-DD] and
    [YYYY-MM-DD(T| )HH:MM:SS] with an optional [+HH:MM] or [-HH:MM]
    offset; this instance rejects every other string. *)

Module Exact.

Definition two_digits (l : list ascii) : option (Z * list ascii) :=
  match l with
  | a :: b :: rest =>
      match digit_of a, digit_of b with
      | Some x, Some y => Some (10 * x + y, rest)
      | _, _ => None
      end
  | _ => None
  end.

Definition expect (c : ascii) (l : list ascii) : option (list ascii) :=
  match l with
  | x :: rest => if Ascii.eqb x c then Some rest else None
  | [] => None
  end.

Definition in_range (lo v hi : Z) : bool := (lo <=? v) && (v <=? hi).

Definition parse_ymd (l : list ascii) : option (Z * Z * Z * list ascii) :=
  '(c, l) ← two_digits l;
  '(y, l) ← two_digits l;
  l ← expect "-" l;
  '(m, l) ← two_digits l;
  l ← expect "-" l;
  '(d, l) ← two_digits l;
  let y := 100 * c + y in
  if in_range 1 y 9999 && in_range 1 m 12 && in_range 1 d (days_in_month y m)
  then Some (y, m, d, l) else None.

Definition parse_hms (l : list ascii) : option (Z * Z * Z * list ascii) :=
  '(h, l) ← two_digits l;
  l ← expect ":" l;
  '(m, l) ← two_digits l;
  l ← expect ":" l;
  '(s, l) ← two_digits l;
  if in_range 0 h 23 && in_range 0 m 59 && in_range 0 s 59
  then Some (h, m, s, l) else None.

Definition parse_offset (l : list ascii) : option (option Z) :=
  match l with
  | [] => Some None
  | sign :: l =>
      '(h, l) ← two_digits l;
      l ← expect ":" l;
      '(m, l) ← two_digits l;
      match l with
      | [] =>
          if negb (in_range 0 h 23 && in_range 0 m 59) then None
          else if Ascii.eqb sign "+" then Some (Some (h * 3600 + m * 60))
          else if Ascii.eqb sign "-" then Some (Some (- (h * 3600 + m * 60)))
          else None
      | _ => None
      end
  end.

Definition fromisoformat (s : string) : option datetime :=
  '(y, m, d, l) ← parse_ymd (list_ascii_of_string s);
  match l with
  | [] => Some (mk_datetime y m d 0 0 0 0 None)
  | sep :: l =>
      if Ascii.eqb sep "T" || Ascii.eqb sep " " then
        '(h, mi, sec, l) ← parse_hms l;
        tz ← parse_offset l;
        Some (mk_datetime y m d h mi sec 0 tz)
      else None
  end.

Definition truediv (x y : Q) : Q := Qred (x / y).

(** The quotient of two [int]s leaves the range of [float] when its
    magnitude reaches [2^1024 - 2^970], which rounds to [2^1024]. *)
Definition truediv_overflows (x y : Q) : bool :=
  Qle_bool (inject_Z (2 ^ 1024 - 2 ^ 970)) (Qabs (x / y)).

(** The integer nearest to [q], ties to the even one. *)
Definition round_half_even (q : Q) : Z :=
  let den := Zpos (Qden q) in
  let f := Qnum q / den in
  let twice_rest := 2 * (Qnum q - f * den) in
  if twice_rest <? den then f
  else if den <? twice_rest then f + 1
  else if Z.even f then f else f + 1.

Definition round_ndigits (q : Q) (ndigits : Z) : Q :=
  let scale := inject_Z (10 ^ Z.abs ndigits) in
  if 0 <=? ndigits
  then Qred (inject_Z (round_half_even (q * scale)) / scale)
  else Qred (inject_Z (round_half_even (q / scale)) * scale).

(** [str] of [None], of a bool and of an int; [repr] of a float or of a
    container is not modelled and left empty. *)
Definition str_of (v : json) : string :=
  match v with
  | JNull => "None"
  | JBool true => "True"
  | JBool false => "False"
  | JStr s => s
  | JNum q => if Zpos (Qden q) =? 1 then pretty (Qnum q) else ""
  | JArr _ | JObj _ => ""
  end.

Definition runtime : runtime :=
  Build_runtime fromisoformat str_of truediv truediv_overflows round_ndigits.

End Exact.

(** ** Scripted worlds

    A server that answers by URL, whatever was sent before. *)

Module Scenario.

Definition answers (j : json) : transport :=
  Responded (mk_response 200 (Json j)).

Definition fails_with (code : Z) : transport :=
  Responded (mk_response code NotJson).

(** The login page: HTML, status 200. *)
Definition page : transport := Responded (mk_response 200 NotJson).

Fixpoint route (table : list (string * transport)) (url : string) : transport :=
  match table with
  | [] => Failed "Cannot connect to host"
  | (u, t) :: rest => if String.eqb u url then t else route rest url
  end.

Definition served (table : list (string * transport)) (clock : datetime) : world :=
  {| server := fun _ req => route table (req_url req); now := clock |}.

Definition forecast_url := API_BASE_URL ++ BILL_FORECAST_ENDPOINT.
Definition usage_url := API_BASE_URL ++ USAGE_HISTORY_ENDPOINT.
Definition bills_url := API_BASE_URL ++ BILL_HISTORY_ENDPOINT.

Definition noon : datetime := mk_datetime 2024 1 3 12 0 0 0 None.

(** A client that already holds a token. *)
Definition logged_in (token : string) : process :=
  boot (with_token (JStr token) (new_api "user" "secret" "1234567890" (Some SuppliedSession))).

Definition fresh : process :=
  boot (new_api "user" "secret" "1234567890" (Some SuppliedSession)).

Definition envelope (fields : list (string * json)) : json :=
  JObj [ ("status", JObj [ ("code", JNum 200); ("message", JStr "OK") ]);
         ("data", JObj fields) ].

End Scenario.

(** ** [close]

    [close] runs on the process together with the record of the sessions
    that were closed. *)

Definition host : Type := (process * list ClientSession)%type.

Definition close : M host unit :=
  fun '(p, closed) =>
    let a := self p in
    match _own_session a, _session a with
    | true, Some s =>
        (Return tt,
         (mk_process (with_session None (_own_session a) a) (wire p) (logged p),
          s :: closed))
    | _, _ => (Return tt, (p, closed))
    end.

(** A method of the client run from the host. *)
Definition on_client {A} (c : M process A) : M host A :=
  fun '(p, closed) => let '(o, p') := c p in (o, (p', closed)).

(** ** The coordinator ([coordinator.py]) *)

(** Exceptions of the platform, and a client exception that no handler
    of the caller takes. *)
Inductive ha_exn : Type :=
| ConfigEntryAuthFailed (msg : string)
| UpdateFailed (msg : string)
| InvalidAuth
| CannotConnect
| Uncaught (e : exn).

Inductive ha_outcome (A : Type) : Type :=
| Done (a : A)
| Fails (e : ha_exn).
Arguments Done {A} a.
Arguments Fails {A} e.

(** [entry.data] *)
Record ConfigEntry : Type := mk_entry {
  entry_username : string;
  entry_password : string;
  entry_account_number : string
}.

Record DominionEnergyCoordinator : Type := mk_coordinator {
  config_entry : ConfigEntry;
  coordinator_api : option DominionEnergyApi;   (* [self._api] *)
  coordinator_wire : list request;
  coordinator_logged : list (log_level * string)
}.

(** The [api] property: the client is created on first use, on the
    platform's shared session. *)
Definition api (c : DominionEnergyCoordinator)
  : DominionEnergyApi * DominionEnergyCoordinator :=
  match coordinator_api c with
  | Some a => (a, c)
  | None =>
      let a := new_api (entry_username (config_entry c))
                       (entry_password (config_entry c))
                       (entry_account_number (config_entry c))
                       (Some SuppliedSession) in
      (a, mk_coordinator (config_entry c) (Some a)
                         (coordinator_wire c) (coordinator_logged c))
  end.

Section Coordinator.
Variable rt : runtime.
Variable w : world.

Definition _async_update_data (c : DominionEnergyCoordinator)
  : ha_outcome DominionEnergyData * DominionEnergyCoordinator :=
  let '(a, c) := api c in
  let body : M process DominionEnergyData :=
    do_ authenticate rt w;
    do data <- get_all_data rt w;
    do_ log DEBUG
          ("Fetched Dominion Energy data: consumption="
             ++ format rt (grid_consumption data) ++ " kWh, return="
             ++ format rt (grid_return data) ++ " kWh, bill=$"
             ++ format rt (current_bill data));
    ret data in
  let '(o, p) := body (mk_process a (coordinator_wire c) (coordinator_logged c)) in
  let c' := mk_coordinator (config_entry c) (Some (self p)) (wire p) (logged p) in
  match o with
  | Return data => (Done data, c')
  | Raise err =>
      if isinstance_AuthError err then
        (Fails (ConfigEntryAuthFailed ("Authentication failed: " ++ str_of_exn err)), c')
      else if isinstance_ApiError err then
        (Fails (UpdateFailed
                  ("Error communicating with Dominion Energy: " ++ str_of_exn err)),
         c')
      else (Fails (Uncaught err), c')
  end.

(** ** [validate_input] ([config_flow.py]) *)

Definition validate_input (data : ConfigEntry) (sent : list request)
           (records : list (log_level * string))
  : ha_outcome (gmap string string) * process :=
  let api := new_api (entry_username data) (entry_password data)
                     (entry_account_number data) (Some SuppliedSession) in
  match validate_credentials rt w (mk_process api sent records) with
  | (Return valid, p) =>
      if negb valid then (Fails InvalidAuth, p)
      else
        (Done {[ "title" := "Dominion Energy (" ++ entry_account_number data ++ ")" ]},
         p)
  | (Raise err, p) =>
      if isinstance_AuthError err then
        (Fails InvalidAuth,
         mk_process (self p) (wire p)
                    ((ERROR, "Authentication failed: " ++ str_of_exn err) :: logged p))
      else if isinstance_ClientError err then
        (Fails CannotConnect,
         mk_process (self p) (wire p)
                    ((ERROR, "Connection error: " ++ str_of_exn err) :: logged p))
      else (Fails (Uncaught err), p)
  end.

End Coordinator.

(** ** The sensors ([sensor.py]) *)

Inductive SensorDeviceClass : Type := ENERGY | MONETARY | DATE.
Inductive SensorStateClass : Type := TOTAL_INCREASING | TOTAL | MEASUREMENT.
Inductive unit_of_measurement : Type := KILO_WATT_HOUR | USD | USD_per_kWh.

(** What a [value_fn] gives: a field of the reading as it is, or the
    [date()] of a datetime. *)
Inductive native : Type :=
| Plain (v : json)
| Date (y m d : Z).

Definition native_is_None (v : native) : bool :=
  match v with Plain JNull => true | _ => false end.

Record DominionEnergySensorEntityDescription : Type := mk_description {
  key : string;
  translation_key : string;
  native_unit_of_measurement : option unit_of_measurement;
  device_class : option SensorDeviceClass;
  state_class : option SensorStateClass;
  suggested_display_precision : option Z;
  value_fn : DominionEnergyData -> native
}.

Definition SENSOR_GRID_CONSUMPTION := "grid_consumption".
Definition SENSOR_GRID_RETURN := "grid_return".
Definition SENSOR_CURRENT_BILL := "current_bill".
Definition SENSOR_BILLING_PERIOD_START := "billing_period_start".
Definition SENSOR_BILLING_PERIOD_END := "billing_period_end".
Definition SENSOR_CURRENT_RATE := "current_rate".
Definition SENSOR_DAILY_COST := "daily_cost".
Definition SENSOR_MONTHLY_USAGE := "monthly_usage".

(** [dt.date() if dt else None] *)
Definition date_or_None (dt : option datetime) : native :=
  match dt with
  | Some d => Date (year d) (month d) (day d)
  | None => Plain JNull
  end.

Definition SENSOR_DESCRIPTIONS : list DominionEnergySensorEntityDescription :=
  [ mk_description SENSOR_GRID_CONSUMPTION "grid_consumption"
      (Some KILO_WATT_HOUR) (Some ENERGY) (Some TOTAL_INCREASING) (Some 1)
      (fun data => Plain (grid_consumption data));
    mk_description SENSOR_GRID_RETURN "grid_return"
      (Some KILO_WATT_HOUR) (Some ENERGY) (Some TOTAL_INCREASING) (Some 1)
      (fun data => Plain (grid_return data));
    mk_description SENSOR_MONTHLY_USAGE "monthly_usage"
      (Some KILO_WATT_HOUR) (Some ENERGY) (Some TOTAL) (Some 1)
      (fun data => Plain (monthly_usage data));
    mk_description SENSOR_CURRENT_BILL "current_bill"
      (Some USD) (Some MONETARY) (Some TOTAL) (Some 2)
      (fun data => Plain (current_bill data));
    mk_description SENSOR_DAILY_COST "daily_cost"
      (Some USD) (Some MONETARY) (Some MEASUREMENT) (Some 2)
      (fun data => Plain (daily_cost data));
    mk_description SENSOR_CURRENT_RATE "current_rate"
      (Some USD_per_kWh) None (Some MEASUREMENT) (Some 4)
      (fun data => Plain (current_rate data));
    mk_description SENSOR_BILLING_PERIOD_START "billing_period_start"
      None (Some DATE) None None
      (fun data => date_or_None (billing_period_start data));
    mk_description SENSOR_BILLING_PERIOD_END "billing_period_end"
      None (Some DATE) None None
      (fun data => date_or_None (billing_period_end data)) ].

(** [DominionEnergySensor]: the description and the unique id built from
    the entry's account number. *)
Record DominionEnergySensor : Type := mk_sensor {
  entity_description : DominionEnergySensorEntityDescription;
  _attr_unique_id : string
}.

Definition new_sensor (description : DominionEnergySensorEntityDescription)
           (entry : ConfigEntry) : DominionEnergySensor :=
  mk_sensor description (entry_account_number entry ++ "_" ++ key description).

(** [async_setup_entry]: one sensor per description. *)
Definition async_setup_entry (entry : ConfigEntry) : list DominionEnergySensor :=
  map (fun description => new_sensor description entry) SENSOR_DESCRIPTIONS.

(** [native_value], given [coordinator.data]. *)
Definition native_value (s : DominionEnergySensor)
           (coordinator_data : option DominionEnergyData) : native :=
  match coordinator_data with
  | None => Plain JNull
  | Some data => value_fn (entity_description s) data
  end.

(** [available], given what the coordinator entity reports and
    [coordinator.data]. *)
Definition available (s : DominionEnergySensor) (super_available : bool)
           (coordinator_data : option DominionEnergyData) : bool :=
  if negb super_available then false
  else
    match coordinator_data with
    | None => false
    | Some data => negb (native_is_None (value_fn (entity_description s) data))
    end.

(** * Definitions used to state and prove the properties *)

(** ** Proof tools

    Running a method symbolically: unfold the monad and the small methods,
    then split on the innermost scrutinee that blocks evaluation. *)

Ltac py_unfold :=
  repeat (progress (
    unfold bind, ret, raise, get, put, modify, lift_outcome, try_except,
           call, data, assign, pass, and_then, log, set_self, get_self,
           send, _get_session, _get_headers in *;
    cbn [dispatch fst snd wire self logged negb
         _token _session _account_number _username _password _own_session
         with_session with_token status body response_json response_text
         isinstance_ClientError isinstance_ApiError isinstance_AuthError
         isinstance_ValueError] in *)).

Ltac case_innermost x :=
  lazymatch x with
  | context [match ?y with _ => _ end] => case_innermost y
  | _ => destruct x eqn:?
  end.

Ltac py_case :=
  match goal with
  | |- context [match ?x with _ => _ end] => case_innermost x
  end.

(** Run to the end when every path closes by computation. *)
Ltac py_run := repeat (py_case; py_unfold; try reflexivity; try discriminate).

(** The fixed pair of query parameters. *)
Definition fixed_params (a : DominionEnergyApi) : gmap string string :=
  <["accountNumber" := _account_number a]> (<["actionCode" := ACTION_CODE]> ∅).

(** The request [_api_request] puts on the wire for a client that holds a
    token. *)
Definition api_request_of (a : DominionEnergyApi) (endpoint : string)
           (params : option (gmap string string)) : request :=
  mk_request GET (API_BASE_URL ++ endpoint) (merge_params a params)
             (<["Authorization" := _token a]> DEFAULT_HEADERS) NoPayload.

(** The reading [get_all_data] returns when only the bill-forecast endpoint
    answers, with the given [data] members. *)
Definition reading_of_forecast (fields : list (string * json))
  : outcome DominionEnergyData :=
  fst (get_all_data Exact.runtime
         (Scenario.served
            [ (Scenario.forecast_url, Scenario.answers (Scenario.envelope fields)) ]
            Scenario.noon)
         (Scenario.logged_in "Bearer t")).

(** A field of a returned reading. *)
Definition field_of {A} (f : DominionEnergyData -> A)
           (o : outcome DominionEnergyData) : option A :=
  match o with Return d => Some (f d) | Raise _ => None end.

(** An outcome that is not an exception of the client's own classes. *)
Definition no_api {A} (o : outcome A) : Prop :=
  match o with
  | Raise e => isinstance_ApiError e = false
  | Return _ => True
  end.

(** [c] run from any state relates its outcome, the reading before and the
    reading after by [R]. *)
Definition ensures {A} (c : M frame A)
           (R : outcome A -> DominionEnergyData -> DominionEnergyData -> Prop)
  : Prop :=
  forall p d o p' d', c (p, d) = (o, (p', d')) -> R o d d'.

(** What the forecast block's rate section leaves in [current_rate]. *)
Definition rate_rel (rt : runtime) (d d' : DominionEnergyData) : Prop :=
  match as_number (monthly_usage d) with
  | Some u =>
      if truthy (current_bill d) && (0 <? Qnum u) then
        exists b, as_number (current_bill d) = Some b /\
                  current_rate d' = JNum (round_ndigits rt (truediv rt b u) 4)
      else current_rate d' = current_rate d
  | None => current_rate d' = current_rate d
  end.

(** What the daily-cost section leaves in [daily_cost]; [days] is
    [(datetime.now() - start.replace(tzinfo=None)).days]. *)
Definition cost_rel (rt : runtime) (w : world) (d d' : DominionEnergyData) : Prop :=
  match billing_period_start d with
  | Some start =>
      let days := sub_days (now w) (replace_tzinfo_None start) in
      if truthy (current_bill d) && (0 <? days) then
        exists b, as_number (current_bill d) = Some b /\
                  daily_cost d' = JNum (round_ndigits rt (truediv rt b (inject_Z days)) 2)
      else daily_cost d' = daily_cost d
  | None => daily_cost d' = daily_cost d
  end.

(** The end of a path: the state equation is substituted and the fields
    of the readings are computed. *)
Ltac py_leaf :=
  let H := fresh in
  intros H; injection H as <- <- <-;
  cbn [no_api isinstance_ApiError grid_consumption grid_return monthly_usage
       current_bill billing_period_start billing_period_end current_rate
       daily_cost daily_usage daily_return
       set_grid_consumption set_grid_return set_monthly_usage set_current_bill
       set_billing_period_start set_billing_period_end set_current_rate
       set_daily_cost set_daily_usage set_daily_return].

(** Run [c] by cases; at each end the state equation is substituted. *)
Ltac py_cases := repeat (py_case; py_unfold); py_leaf.

(** Compute the fields of readings built by the setters. *)
Ltac data_fields :=
  cbn [grid_consumption grid_return monthly_usage
       current_bill billing_period_start billing_period_end current_rate
       daily_cost daily_usage daily_return
       set_grid_consumption set_grid_return set_monthly_usage set_current_bill
       set_billing_period_start set_billing_period_end set_current_rate
       set_daily_cost set_daily_usage set_daily_return] in *.

(** Equations between readings, read field by field. *)
Ltac data_eq :=
  repeat match goal with d : DominionEnergyData |- _ => destruct d end;
  data_fields;
  repeat match goal with
         | H : mk_data _ _ _ _ _ _ _ _ _ _ = mk_data _ _ _ _ _ _ _ _ _ _ |- _ =>
             injection H; clear H; intros; subst
         end.

(** The daily series are not touched, and no exception of the client's own
    classes is raised. *)
Definition framed {A} (c : M frame A) : Prop :=
  ensures c (fun o d d' =>
               no_api o /\
               daily_usage d' = daily_usage d /\
               daily_return d' = daily_return d).

(** The first entry of the bill list of a bill-history answer. *)
Definition latest_bill_of (bill_history : json) : outcome json :=
  match py_get bill_history "data" (JObj []) with
  | Return history_data =>
      match py_get history_data "bills" (JArr []) with
      | Return bills => py_item0 bills
      | Raise e => Raise e
      end
  | Raise e => Raise e
  end.

(** The record a handler of [logged_and_ignored] leaves in the log. *)
Definition with_record (level : log_level) (msg : string) (p : process) : process :=
  mk_process (self p) (wire p) ((level, msg) :: logged p).

(** A path on which the reading is left as it was. *)
Ltac unchanged :=
  py_leaf; split; [reflexivity|];
  split; [intros ? [= <-]; intros; reflexivity | left; reflexivity].

(** The back-fill of the rate from the most recent bill. *)
Definition backfilled (rt : runtime) (w : world) (p : process)
           (d' : DominionEnergyData) : Prop :=
  exists bill_history latest_bill bill_amount bill_usage a u,
    fst (get_bill_history rt w p) = Return bill_history /\
    latest_bill_of bill_history = Return latest_bill /\
    py_get latest_bill "totalAmount" JNull = Return bill_amount /\
    py_get latest_bill "totalUsageKwh" JNull = Return bill_usage /\
    as_number bill_amount = Some a /\ as_number bill_usage = Some u /\
    truthy bill_amount = true /\ 0 < Qnum u /\
    current_rate d' = JNum (round_ndigits rt (truediv rt a u) 4).

(** The body of the [try] of [validate_credentials]. *)
Definition credential_check (rt : runtime) (w : world) : M process bool :=
  do_ authenticate rt w;
  do_ get_bill_forecast rt w;
  ret true.

(** Credentials accepted by the token endpoint, bill forecast answering
    500. *)
Definition valid_but_unavailable : world :=
  Scenario.served
    [ (LOGIN_URL, Scenario.page);
      (token_url, Scenario.answers (JObj [ ("access_token", JStr "abc") ]));
      (Scenario.forecast_url, Scenario.fails_with 500) ]
    Scenario.noon.

(** Both login strategies refused. *)
Definition rejected : world :=
  Scenario.served
    [ (LOGIN_URL, Scenario.page);
      (token_url, Scenario.fails_with 400);
      (login_submit_url, Scenario.fails_with 401) ]
    Scenario.noon.

(** The days elapsed as the specification words them: from the date
    portion of the start, time of day and zone discarded. *)
Definition date_portion (d : datetime) : datetime :=
  mk_datetime (year d) (month d) (day d) 0 0 0 0 None.

(** Whole days from that midnight to [now]. *)
Definition spec_days_elapsed (now start : datetime) : Z :=
  sub_days now (date_portion start).

(** The daily cost as the specification words it: computed when the
    start and the bill are both known and the days elapsed are positive. *)
Definition spec_daily_cost (rt : runtime) (w : world) (r : DominionEnergyData)
  : json :=
  match billing_period_start r, as_number (current_bill r) with
  | Some start, Some b =>
      let d := spec_days_elapsed (now w) start in
      if 0 <? d then JNum (round_ndigits rt (truediv rt b (inject_Z d)) 2)
      else JNull
  | _, _ => JNull
  end.

(** At noon of 2024-01-03, a period that started at 18:00 on 2024-01-01. *)
Definition evening_start : world :=
  Scenario.served
    [ (Scenario.forecast_url,
       Scenario.answers
         (Scenario.envelope
            [ ("currentBillAmount", JNum 60);
              ("billingPeriodStartDate", JStr "2024-01-01T18:00:00Z") ])) ]
    Scenario.noon.

(** A bill of zero, the period started on 2024-01-01. *)
Definition zero_bill : world :=
  Scenario.served
    [ (Scenario.forecast_url,
       Scenario.answers
         (Scenario.envelope
            [ ("currentBillAmount", JNum 0);
              ("billingPeriodStartDate", JStr "2024-01-01") ])) ]
    Scenario.noon.

(** 500 kWh used, 75.00 billed. *)
Definition typical_forecast : world :=
  Scenario.served
    [ (Scenario.forecast_url,
       Scenario.answers
         (Scenario.envelope
            [ ("currentUsageKwh", JNum 500); ("currentBillAmount", JNum 75) ])) ]
    Scenario.noon.

(** The rate as the specification words it: derived when the bill and the
    usage are both present and the usage is positive. *)
Definition spec_forecast_rate (rt : runtime) (r : DominionEnergyData)
  : option json :=
  match as_number (current_bill r), as_number (monthly_usage r) with
  | Some b, Some u =>
      if 0 <? Qnum u then Some (JNum (round_ndigits rt (truediv rt b u) 4))
      else None
  | _, _ => None
  end.

(** A bill of one cent on 1000 kWh, and a bill history. *)
Definition tiny_rate : world :=
  Scenario.served
    [ (Scenario.forecast_url,
       Scenario.answers
         (Scenario.envelope
            [ ("currentUsageKwh", JNum 1000);
              ("currentBillAmount", JNum (1 # 100)) ]));
      (Scenario.bills_url,
       Scenario.answers
         (Scenario.envelope
            [ ("bills",
               JArr [ JObj [ ("totalAmount", JNum 100);
                             ("totalUsageKwh", JNum 1000) ] ]) ])) ]
    Scenario.noon.



(** ** Definitions for the further properties *)

(** The client once [_get_session] has run: a missing session is created
    and owned, a present one is kept. *)
Definition ensure_session (a : DominionEnergyApi) : DominionEnergyApi :=
  match _session a with
  | None => with_session (Some NewSession) true a
  | Some _ => a
  end.

(** An optional argument that counts: present and not the empty string. *)
Definition given (arg : option string) : option string :=
  match arg with
  | Some s => if String.eqb s "" then None else Some s
  | None => None
  end.

(** [m] with [key] bound when there is a value for it. *)
Definition with_optional (key : string) (value : option string)
           (m : gmap string string) : gmap string string :=
  match value with
  | Some v => <[key := v]> m
  | None => m
  end.

(** Runs [_api_request] with a known answer of the server, on both
    branches of the session test. *)
Ltac api_request_answer Htok Hsrv :=
  unfold _api_request, api_request_of, merge_params in *;
  py_unfold; rewrite Htok; py_unfold;
  match goal with
  | |- context [_session (self ?p)] => destruct (_session (self p))
  end; py_unfold;
  rewrite ?Htok; py_unfold;
  rewrite Hsrv; py_unfold.

(** [c] leaves the client and the wire as they are (it may log). *)
Definition quiet {A} (c : M frame A) : Prop :=
  forall p d o p' d',
    c (p, d) = (o, (p', d')) -> self p' = self p /\ wire p' = wire p.
(** The client after a call is the client before it, with the session
    ensured or not. *)
Definition client_step (a a' : DominionEnergyApi) : Prop :=
  a' = a \/ a' = ensure_session a.

(** Closes a goal [quiet c] for a step written out in the monad. *)
Ltac quiet_cases :=
  intros p d o p' d'; py_unfold;
  repeat (py_case; py_unfold);
  let H := fresh in
  intros H; injection H as <- <- <-; split; reflexivity.

(** [members.get(key)] and [members.get(key, default)] on a dict. *)
Definition member (members : list (string * json)) (key : string) (default : json)
  : json :=
  match assoc key members with
  | Some v => v
  | None => default
  end.

(** The fields the forecast block reads straight off the [data] object. *)
Definition forecast_usage (members : list (string * json)) : json :=
  member members "currentUsageKwh" JNull.

Definition forecast_bill (members : list (string * json)) : json :=
  if is_None (member members "currentBillAmount" JNull)
  then member members "projectedBillAmount" JNull
  else member members "currentBillAmount" JNull.

Definition forecast_grid_return (members : list (string * json)) : json :=
  if is_None (member members "netMeteringExportKwh" (JNum 0))
  then member members "gridReturnKwh" (JNum 0)
  else member members "netMeteringExportKwh" (JNum 0).

(** A daily series is stored only when it is not empty. *)
Definition series_stored (before after : json) : Prop :=
  after = before \/ truthy after = true.

(** The calls a user of the client can make. *)
Inductive operation : Type :=
| OpAuthenticate
| OpSetToken (token : string)
| OpGetBillForecast
| OpGetUsageHistory (start_date end_date : option string)
| OpGetBillHistory
| OpGetAllData
| OpValidateCredentials
| OpClose.

(** One call, its result dropped: what it leaves of the host. *)
Definition perform (rt : runtime) (w : world) (op : operation) (h : host) : host :=
  match op with
  | OpAuthenticate => snd (on_client (authenticate rt w) h)
  | OpSetToken token => snd (on_client (set_token token) h)
  | OpGetBillForecast => snd (on_client (get_bill_forecast rt w) h)
  | OpGetUsageHistory start_date end_date =>
      snd (on_client (get_usage_history rt w start_date end_date) h)
  | OpGetBillHistory => snd (on_client (get_bill_history rt w) h)
  | OpGetAllData => snd (on_client (get_all_data rt w) h)
  | OpValidateCredentials => snd (on_client (validate_credentials rt w) h)
  | OpClose => snd (close h)
  end.

(** A sequence of calls, each in the world of its moment. *)
Definition perform_all (rt : runtime) (script : list (world * operation))
           (h : host) : host :=
  fold_left (fun h step => perform rt (fst step) (snd step) h) script h.

(** The session and its ownership flag. *)
Definition session_part (a : DominionEnergyApi) : option ClientSession * bool :=
  (_session a, _own_session a).

(** A call leaves the session as it was or ensures it. *)
Definition session_step (a a' : DominionEnergyApi) : Prop :=
  session_part a' = session_part a \/
  session_part a' = session_part (ensure_session a).

(** ** Further scenarios *)

(** Nothing answers. *)
Definition offline : world := Scenario.served [] Scenario.noon.

(** The login page answers 503. *)
Definition login_page_down : world :=
  Scenario.served [ (LOGIN_URL, Scenario.fails_with 503) ] Scenario.noon.

(** The bill-forecast endpoint answers 200 with a page that is not JSON. *)
Definition html_answer : world :=
  Scenario.served [ (Scenario.forecast_url, Scenario.page) ] Scenario.noon.

(** The bill-forecast endpoint answers 200 with a failure of the service
    in the payload. *)
Definition refused_by_service : world :=
  Scenario.served
    [ (Scenario.forecast_url,
       Scenario.answers
         (JObj [ ("status", JObj [ ("code", JNum 500);
                                   ("message", JStr "Service unavailable") ]) ])) ]
    Scenario.noon.

(** The token endpoint refuses; the login form answers with a session
    token. *)
Definition session_login : world :=
  Scenario.served
    [ (LOGIN_URL, Scenario.page);
      (token_url, Scenario.fails_with 400);
      (login_submit_url,
       Scenario.answers (JObj [ ("sessionToken", JStr "s3ss10n") ])) ]
    Scenario.noon.

(** The three data endpoints answer. *)
Definition full_service : world :=
  Scenario.served
    [ (Scenario.forecast_url,
       Scenario.answers
         (Scenario.envelope
            [ ("currentUsageKwh", JNum 500); ("currentBillAmount", JNum 75) ]));
      (Scenario.usage_url,
       Scenario.answers
         (Scenario.envelope
            [ ("dailyUsage", JArr [ JNum 17; JNum 21 ]);
              ("dailyReturn", JArr []) ]));
      (Scenario.bills_url,
       Scenario.answers
         (Scenario.envelope
            [ ("bills",
               JArr [ JObj [ ("totalAmount", JNum 100);
                             ("totalUsageKwh", JNum 1000) ] ]) ])) ]
    Scenario.noon.

(** The most recent bill has an amount of [10^400], an [int] beyond the
    range of [float]. *)
Definition huge_bill : world :=
  Scenario.served
    [ (Scenario.bills_url,
       Scenario.answers
         (Scenario.envelope
            [ ("bills",
               JArr [ JObj [ ("totalAmount", JNum (inject_Z (10 ^ 400)));
                             ("totalUsageKwh", JNum 1000) ] ]) ])) ]
    Scenario.noon.

(** A coordinator that has not run yet. *)
Definition first_run : DominionEnergyCoordinator :=
  mk_coordinator (mk_entry "user" "secret" "1234567890") None [] [].

(** * Properties *)

(** ** Small checks of the embedding *)

Example int_of_string_samples :
  int_of_string "200" = Some 200 /\ int_of_string " -4_2 " = Some (-42) /\
  int_of_string "error" = None /\ int_of_string "200.0" = None /\
  int_of_string "1__0" = None /\ int_of_string "" = None.
Proof. vm_compute. repeat split; reflexivity. Qed.

Example fromisoformat_samples :
  Exact.fromisoformat (replace_Z "2024-01-01T18:00:00Z")
    = Some (mk_datetime 2024 1 1 18 0 0 0 (Some 0)) /\
  Exact.fromisoformat "2024-02-30" = None /\
  Exact.fromisoformat "not a date" = None.
Proof. vm_compute. repeat split; reflexivity. Qed.

Example toordinal_samples :
  toordinal (mk_datetime 1 1 1 0 0 0 0 None) = 1 /\
  toordinal (mk_datetime 2024 3 1 0 0 0 0 None) = 738946 /\
  sub_days (mk_datetime 2024 1 3 12 0 0 0 None)
           (mk_datetime 2024 1 1 18 0 0 0 None) = 1 /\
  sub_days (mk_datetime 2024 1 1 12 0 0 0 None)
           (mk_datetime 2024 1 1 18 0 0 0 None) = -1.
Proof. vm_compute. repeat split; reflexivity. Qed.

Example round_samples :
  Exact.round_ndigits (Exact.truediv 75 500) 4 = (3 # 20)%Q /\
  Exact.round_ndigits (Exact.truediv (1 # 100) 1000) 4 = 0%Q /\
  Exact.round_ndigits (5 # 2) 0 = 2%Q /\ Exact.round_ndigits (7 # 2) 0 = 4%Q /\
  Exact.round_ndigits (- (1 # 3)) 2 = (- (33 # 100))%Q.
Proof. vm_compute. repeat split; reflexivity. Qed.

(** [set_token] adds the scheme when it is missing. *)
Example set_token_samples :
  _token (self (snd (set_token "abc" Scenario.fresh))) = JStr "Bearer abc" /\
  _token (self (snd (set_token "Bearer abc" Scenario.fresh))) = JStr "Bearer abc".
Proof. vm_compute. split; reflexivity. Qed.

(** ** Requests of [_api_request] *)

Lemma merge_params_caller a (caller : gmap string string) k v :
  caller !! k = Some v -> merge_params a (Some caller) !! k = Some v.
Proof.
  intros Hk. unfold merge_params.
  destruct (decide (caller = ∅)) as [->|_].
  - rewrite lookup_empty in Hk. discriminate.
  - apply lookup_union_Some_l. exact Hk.
Qed.

Lemma merge_params_fixed a params k :
  (forall caller, params = Some caller -> caller !! k = None) ->
  merge_params a params !! k = fixed_params a !! k.
Proof.
  intros Hk. unfold merge_params, fixed_params.
  destruct params as [caller|]; [|reflexivity].
  destruct (decide (caller = ∅)); [reflexivity|].
  rewrite lookup_union_r; [reflexivity|]. apply Hk. reflexivity.
Qed.

Lemma merge_params_with_session s own a params :
  merge_params (with_session s own a) params = merge_params a params.
Proof. reflexivity. Qed.

(** With a token, [_api_request] sends exactly one request, the one of
    [api_request_of], whatever the answer is. *)
Lemma api_request_wire rt w endpoint params p :
  truthy (_token (self p)) = true ->
  wire (snd (_api_request rt w endpoint params p))
  = api_request_of (self p) endpoint params :: wire p.
Proof.
  intros Htok. unfold _api_request, api_request_of. py_unfold. rewrite Htok.
  py_unfold.
  destruct (_session (self p)); py_unfold;
    rewrite ?merge_params_with_session, ?Htok; py_run.
Qed.

(** Without a token nothing is sent. *)
Lemma api_request_unauthenticated rt w endpoint params p :
  truthy (_token (self p)) = false ->
  _api_request rt w endpoint params p
  = (Raise (DominionEnergyApiError "Not authenticated - call authenticate() first"), p).
Proof.
  intros Htok. unfold _api_request. py_unfold. rewrite Htok. reflexivity.
Qed.

(** C3, as amended: the query sent by [_api_request] holds every
    caller-supplied key with the caller's value, and [accountNumber] and
    [actionCode] hold the client's fixed values whenever the caller's map
    does not bind them (a caller key that collides with one of the fixed
    pair takes its place). *)
Theorem api_request_query_merge rt w endpoint params p :
  truthy (_token (self p)) = true ->
  exists req,
    wire (snd (_api_request rt w endpoint params p)) = req :: wire p /\
    (forall caller k v,
        params = Some caller -> caller !! k = Some v ->
        req_params req !! k = Some v) /\
    ((forall caller, params = Some caller -> caller !! "accountNumber" = None) ->
     req_params req !! "accountNumber" = Some (_account_number (self p))) /\
    ((forall caller, params = Some caller -> caller !! "actionCode" = None) ->
     req_params req !! "actionCode" = Some ACTION_CODE).
Proof.
  intros Htok. exists (api_request_of (self p) endpoint params).
  split; [apply api_request_wire; exact Htok|].
  cbn [api_request_of req_params]. repeat split.
  - intros caller k v -> Hk. apply merge_params_caller. exact Hk.
  - intros H. rewrite merge_params_fixed by exact H. reflexivity.
  - intros H. rewrite merge_params_fixed by exact H. reflexivity.
Qed.

Lemma api_request_query_merge_witness :
  exists req,
    wire (snd (_api_request Exact.runtime (Scenario.served [] Scenario.noon)
                 USAGE_HISTORY_ENDPOINT (Some {[ "startDate" := "2024-01-01" ]})
                 (Scenario.logged_in "Bearer t")))
    = req :: [] /\
    req_params req !! "startDate" = Some "2024-01-01" /\
    req_params req !! "accountNumber" = Some "1234567890" /\
    req_params req !! "actionCode" = Some "4".
Proof.
  destruct (api_request_query_merge Exact.runtime (Scenario.served [] Scenario.noon)
              USAGE_HISTORY_ENDPOINT (Some {[ "startDate" := "2024-01-01" ]})
              (Scenario.logged_in "Bearer t") eq_refl)
    as (req & Hwire & Hcaller & Hacct & Hcode).
  exists req. split; [exact Hwire|]. split; [|split].
  - apply (Hcaller {[ "startDate" := "2024-01-01" ]}); reflexivity.
  - apply Hacct. intros caller [= <-]. reflexivity.
  - apply Hcode. intros caller [= <-]. reflexivity.
Defined.

(** C3, as stated, fails: a caller map that binds [accountNumber] replaces
    the client's account number in the query. *)
Lemma api_request_caller_overrides_account_number :
  let p := Scenario.logged_in "Bearer t" in
  let sent :=
    wire (snd (_api_request Exact.runtime (Scenario.served [] Scenario.noon)
                 BILL_FORECAST_ENDPOINT (Some {[ "accountNumber" := "0000" ]}) p)) in
  _account_number (self p) = "1234567890" /\
  (req ← head sent; req_params req !! "accountNumber") = Some "0000".
Proof. vm_compute. split; reflexivity. Qed.

(** ** Exceptions outside the client's own classes *)

(** C10: an HTTP-200 answer whose embedded status carries a non-empty
    string [code] that [int()] cannot read makes [_api_request] raise
    [ValueError], which is neither [DominionEnergyApiError] nor
    [DominionEnergyAuthError]: the only handler around the request is the
    one for [aiohttp.ClientError]. *)
Theorem api_request_non_numeric_code_escapes
        rt w endpoint params p document smembers s :
  truthy (_token (self p)) = true ->
  server w (wire p) (api_request_of (self p) endpoint params)
  = Responded (mk_response 200 (Json document)) ->
  py_get document "status" (JObj []) = Return (JObj smembers) ->
  assoc "code" smembers = Some (JStr s) ->
  truthy (JStr s) = true ->
  int_of_string s = None ->
  fst (_api_request rt w endpoint params p) = Raise ValueError /\
  isinstance_ApiError ValueError = false /\
  isinstance_AuthError ValueError = false.
Proof.
  intros Htok Hsrv Hstatus Hcode Htruthy Hint.
  split; [|split; reflexivity].
  unfold api_request_of in Hsrv.
  unfold _api_request. py_unfold. rewrite Htok. py_unfold.
  destruct (_session (self p)); py_unfold;
    rewrite ?merge_params_with_session, ?Htok; py_unfold;
    rewrite Hsrv; py_unfold;
    rewrite Hstatus; cbn [py_get]; rewrite Hcode, Htruthy;
    cbn [py_int]; rewrite Hint; reflexivity.
Qed.

Lemma api_request_non_numeric_code_escapes_witness :
  fst (_api_request Exact.runtime
         (Scenario.served
            [ (Scenario.forecast_url,
               Scenario.answers
                 (JObj [ ("status", JObj [ ("code", JStr "error");
                                           ("message", JStr "Service unavailable") ]) ])) ]
            Scenario.noon)
         BILL_FORECAST_ENDPOINT None (Scenario.logged_in "Bearer t"))
  = Raise ValueError.
Proof.
  refine (proj1 (api_request_non_numeric_code_escapes
                   Exact.runtime _ BILL_FORECAST_ENDPOINT None
                   (Scenario.logged_in "Bearer t") _
                   [ ("code", JStr "error"); ("message", JStr "Service unavailable") ]
                   "error" _ _ _ _ _ _)); reflexivity.
Defined.

(** ** The login sequence *)

Lemma token_request_with_session s own a :
  token_request (with_session s own a) = token_request a.
Proof. reflexivity. Qed.

(** Strategy 2 in general: when the login page answers 200 with a readable
    body and the token endpoint answers 200 with a JSON object whose
    [access_token] is truthy, [authenticate] returns [True] after these two
    requests and the stored token is the [access_token] value as received. *)
Lemma authenticate_password_grant rt w p text token_data access_token :
  server w (wire p) login_page_request = Responded (mk_response 200 text) ->
  response_text (mk_response 200 text) = Return tt ->
  server w (login_page_request :: wire p) (token_request (self p))
  = Responded (mk_response 200 (Json token_data)) ->
  py_get token_data "access_token" JNull = Return access_token ->
  truthy access_token = true ->
  fst (authenticate rt w p) = Return true /\
  _token (self (snd (authenticate rt w p))) = access_token /\
  wire (snd (authenticate rt w p))
  = token_request (self p) :: login_page_request :: wire p.
Proof.
  intros Hpage Htext Htoken Hget Htruthy.
  unfold authenticate. py_unfold.
  destruct text; try discriminate Htext;
  destruct (_session (self p)); py_unfold;
    rewrite ?token_request_with_session, Hpage; py_unfold;
    change (200 =? 200) with true; py_unfold.
  all: rewrite ?token_request_with_session, Htoken; py_unfold;
    change (200 =? 200) with true; py_unfold;
    rewrite Hget; py_unfold; rewrite Htruthy; py_unfold;
    repeat split.
Qed.



(** After a call to [authenticate] that raises, the client holds either
    the token it held before or a falsy one (what a 200 answer of the token
    endpoint gave for [access_token]). *)
Lemma failed_authenticate_token rt w p e :
  fst (authenticate rt w p) = Raise e ->
  _token (self (snd (authenticate rt w p))) = _token (self p) \/
  truthy (_token (self (snd (authenticate rt w p)))) = false.
Proof.
  unfold authenticate. py_unfold.
  repeat (py_case; py_unfold);
    cbn [fst snd self _token with_token with_session];
    intros H; try discriminate H;
    first [left; reflexivity | right; assumption].
Qed.

(** C1, evaluated where it fails: the login page answers 200 and the token
    endpoint answers 200 with [access_token = "abc"].  [authenticate]
    returns [True] and the second request is the last one sent, but the
    stored token, and so the [Authorization] header of later requests, is
    ["abc"] itself and not ["Bearer abc"]. *)
Theorem authenticate_stores_access_token_unprefixed :
  let w := Scenario.served
             [ (LOGIN_URL, Scenario.page);
               (token_url, Scenario.answers (JObj [ ("access_token", JStr "abc") ])) ]
             Scenario.noon in
  let run := authenticate Exact.runtime w Scenario.fresh in
  fst run = Return true /\
  map req_url (wire (snd run)) = [ token_url; LOGIN_URL ] /\
  _token (self (snd run)) = JStr "abc" /\
  _token (self (snd run)) <> JStr "Bearer abc" /\
  (headers ← match fst (_get_headers (snd run)) with
             | Return h => Some h
             | Raise _ => None
             end;
   headers !! "Authorization") = Some (JStr "abc").
Proof.
  vm_compute. repeat split; try reflexivity. discriminate.
Qed.

(** C5, evaluated where it fails: a client that holds ["Bearer old"] calls
    [authenticate]; the token endpoint answers 200 without [access_token]
    and the session-token endpoint answers 401.  The call raises
    [DominionEnergyAuthError] and the stored token is gone. *)
Theorem failed_authenticate_clears_token :
  let w := Scenario.served
             [ (LOGIN_URL, Scenario.page);
               (token_url, Scenario.answers (JObj []));
               (login_submit_url, Scenario.fails_with 401) ]
             Scenario.noon in
  let before := Scenario.logged_in "Bearer old" in
  let run := authenticate Exact.runtime w before in
  _token (self before) = JStr "Bearer old" /\
  fst run = Raise (DominionEnergyAuthError
                     "Failed to authenticate - please check your credentials") /\
  _token (self (snd run)) = JNull.
Proof.
  vm_compute. repeat split; reflexivity.
Qed.

(** ** [get_all_data] on fixed answers *)

(** C2, evaluated where it fails: the bill-forecast endpoint answers 401,
    so [get_bill_forecast] raises [DominionEnergyAuthError]; inside
    [get_all_data] the handler for [DominionEnergyApiError] catches it and
    logs it, and the call returns an empty reading. *)
Theorem get_all_data_swallows_auth_error :
  let w := Scenario.served
             [ (Scenario.forecast_url, Scenario.fails_with 401);
               (Scenario.usage_url, Scenario.answers (Scenario.envelope []));
               (Scenario.bills_url, Scenario.answers (Scenario.envelope [])) ]
             Scenario.noon in
  let p := Scenario.logged_in "Bearer expired" in
  fst (get_bill_forecast Exact.runtime w p)
  = Raise (DominionEnergyAuthError "Token expired or invalid") /\
  fst (get_all_data Exact.runtime w p) = Return new_data /\
  logged (snd (get_all_data Exact.runtime w p))
  = [ (ERROR, "Error fetching bill forecast: Token expired or invalid") ].
Proof.
  vm_compute. repeat split; reflexivity.
Qed.

(** C4, evaluated where it fails: with [netMeteringExportKwh] absent and
    [gridReturnKwh = 12.5] the reading has [grid_return = 0.0], because the
    first lookup already defaults to 0.0 and only an explicit null sends the
    code to the second field.  The other cases of the claim hold: both
    absent gives 0.0, an explicit null falls through to [gridReturnKwh], and
    an explicit null with no [gridReturnKwh] gives 0.0. *)
Theorem grid_return_skips_generic_field_when_export_absent :
  field_of grid_return (reading_of_forecast [ ("gridReturnKwh", JNum (25 # 2)) ])
  = Some (JNum 0) /\
  field_of grid_return (reading_of_forecast []) = Some (JNum 0) /\
  field_of grid_return
    (reading_of_forecast [ ("netMeteringExportKwh", JNull);
                           ("gridReturnKwh", JNum (25 # 2)) ])
  = Some (JNum (25 # 2)) /\
  field_of grid_return (reading_of_forecast [ ("netMeteringExportKwh", JNull) ])
  = Some (JNum 0) /\
  field_of grid_return
    (reading_of_forecast [ ("netMeteringExportKwh", JNum 3);
                           ("gridReturnKwh", JNum (25 # 2)) ])
  = Some (JNum 3).
Proof.
  vm_compute. repeat split; reflexivity.
Qed.

(** ** Effects of the blocks of [get_all_data] on the reading *)

Lemma bind_inv {S A B} (c : M S A) (k : A -> M S B) s o s' :
  bind c k s = (o, s') ->
  (exists a s1, c s = (Return a, s1) /\ k a s1 = (o, s')) \/
  (exists e, c s = (Raise e, s') /\ o = Raise e).
Proof.
  unfold bind. destruct (c s) as [[a|e] s1]; intros H.
  - left. exists a, s1. split; [reflexivity|exact H].
  - right. exists e. injection H as <- <-. split; reflexivity.
Qed.

Lemma bind_returns {S A B} (c : M S A) (k : A -> M S B) s b s' :
  bind c k s = (Return b, s') ->
  exists a s1, c s = (Return a, s1) /\ k a s1 = (Return b, s').
Proof.
  intros H. destruct (bind_inv _ _ _ _ _ H) as [(a & s1 & H1 & H2)|(e & _ & He)].
  - exists a, s1. split; assumption.
  - discriminate He.
Qed.

Lemma truthy_as_number v q :
  as_number v = Some q -> truthy v = negb (Qnum q =? 0).
Proof.
  destruct v as [| [|] | | | |]; intros [= <-]; reflexivity.
Qed.

Section StepEffects.
Variable rt : runtime.
Variable w : world.

Lemma current_usage_step_effect forecast_data :
  ensures (current_usage_step forecast_data)
    (fun o d d' =>
       no_api o /\
       d' = set_grid_consumption (grid_consumption d')
              (set_monthly_usage (monthly_usage d') d)).
Proof.
  intros p [] o p' d'. unfold current_usage_step. py_unfold.
  destruct forecast_data; cbn [py_get]; py_cases; split; reflexivity.
Qed.

Lemma current_bill_step_effect forecast_data :
  ensures (current_bill_step forecast_data)
    (fun o d d' => no_api o /\ d' = set_current_bill (current_bill d') d).
Proof.
  intros p [] o p' d'. unfold current_bill_step. py_unfold.
  destruct forecast_data; cbn [py_get]; py_cases; split; reflexivity.
Qed.

Lemma parse_date_start_effect raw label :
  ensures (parse_date rt raw label set_billing_period_start)
    (fun o d d' =>
       no_api o /\ d' = set_billing_period_start (billing_period_start d') d).
Proof.
  intros p [] o p' d'. unfold parse_date, py_fromisoformat. py_unfold.
  destruct raw; cbn [py_replace_Z]; py_cases; split; reflexivity.
Qed.

Lemma parse_date_end_effect raw label :
  ensures (parse_date rt raw label set_billing_period_end)
    (fun o d d' =>
       no_api o /\ d' = set_billing_period_end (billing_period_end d') d).
Proof.
  intros p [] o p' d'. unfold parse_date, py_fromisoformat. py_unfold.
  destruct raw; cbn [py_replace_Z]; py_cases; split; reflexivity.
Qed.

Lemma grid_return_step_effect forecast_data :
  ensures (grid_return_step forecast_data)
    (fun o d d' => no_api o /\ d' = set_grid_return (grid_return d') d).
Proof.
  intros p [] o p' d'. unfold grid_return_step. py_unfold.
  destruct forecast_data; cbn [py_get]; py_cases; split; reflexivity.
Qed.

End StepEffects.

Section ForecastEffects.
Variable rt : runtime.
Variable w : world.

Lemma rate_step_effect :
  ensures (rate_step rt)
    (fun o d d' =>
       no_api o /\ d' = set_current_rate (current_rate d') d /\
       (o = Return tt -> rate_rel rt d d')).
Proof.
  intros p [gc gr mu cb bs be cr dc du dr] o p' d'.
  unfold rate_step, py_truediv, py_round, py_gt0, rate_rel.
  py_unfold. cbn [monthly_usage current_bill current_rate].
  destruct (as_number mu) as [u|] eqn:Hu;
    destruct (truthy cb) eqn:Hb;
    destruct (truthy mu) eqn:Hm; py_unfold; cbn [andb].
  all: try (py_leaf; repeat split; try reflexivity; discriminate).
  - rewrite (truthy_as_number _ _ Hu) in Hm.
    destruct (0 <? Qnum u) eqn:Hpos.
    + replace (Qnum u =? 0) with false by (symmetry; apply Z.eqb_neq; lia).
      destruct (as_number cb) as [b|]; cbn [as_number];
        [destruct (truediv_overflows rt b u)|]; py_leaf.
      * repeat split. discriminate.
      * repeat split. intros _. exists b. split; reflexivity.
      * repeat split. discriminate.
    + py_leaf. repeat split.
  - rewrite (truthy_as_number _ _ Hu) in Hm.
    replace (0 <? Qnum u) with false by (symmetry; apply Z.ltb_ge; lia).
    py_leaf. repeat split.
Qed.

Lemma daily_cost_step_effect :
  ensures (daily_cost_step rt w)
    (fun o d d' =>
       no_api o /\ d' = set_daily_cost (daily_cost d') d /\
       (o = Return tt -> cost_rel rt w d d')).
Proof.
  intros p [gc gr mu cb bs be cr dc du dr] o p' d'.
  unfold daily_cost_step, py_truediv, py_round, cost_rel.
  py_unfold. cbn [billing_period_start current_bill daily_cost].
  destruct bs as [start|]; [|py_leaf; repeat split].
  cbv zeta.
  destruct (truthy cb) eqn:Hb; cbn [andb]; [|py_leaf; repeat split].
  destruct (0 <? sub_days (now w) (replace_tzinfo_None start)) eqn:Hpos;
    [|py_leaf; repeat split].
  cbn [as_number inject_Z Qnum].
  replace (sub_days (now w) (replace_tzinfo_None start) =? 0) with false
    by (symmetry; apply Z.eqb_neq; lia).
  destruct (as_number cb) as [b|]; cbn [as_number];
    [destruct (truediv_overflows rt b _)|]; py_leaf.
  - repeat split. discriminate.
  - repeat split. intros _. exists b. split; reflexivity.
  - repeat split. discriminate.
Qed.

Lemma billing_dates_step_effect forecast_data :
  ensures (billing_dates_step rt forecast_data)
    (fun o d d' =>
       no_api o /\
       d' = set_billing_period_end (billing_period_end d')
              (set_billing_period_start (billing_period_start d') d)).
Proof.
  intros p d o p' d' H. unfold billing_dates_step in H.
  destruct forecast_data;
    try (revert H; destruct d; py_unfold; cbn [py_get]; py_leaf; split; reflexivity).
  cbn [py_get] in H. unfold lift_outcome at 1 2 in H.
  unfold bind at 1 2 in H.
  apply bind_inv in H.
  destruct H as [([] & [p1 d1] & H1 & H2)|(e & H1 & ->)].
  - apply parse_date_start_effect in H1. apply parse_date_end_effect in H2.
    destruct H1 as [_ E1], H2 as [Ho E2]. split; [exact Ho|].
    data_eq. reflexivity.
  - apply parse_date_start_effect in H1. destruct H1 as [Ho E1].
    split; [exact Ho|]. data_eq. reflexivity.
Qed.

Lemma framed_bind {A B} (c : M frame A) (k : A -> M frame B) :
  framed c -> (forall a, framed (k a)) -> framed (bind c k).
Proof.
  intros Hc Hk p d o p' d' H.
  destruct (bind_inv _ _ _ _ _ H) as [(a & [p1 d1] & H1 & H2)|(e & H1 & ->)].
  - destruct (Hc _ _ _ _ _ H1) as (_ & U1 & R1).
    destruct (Hk a _ _ _ _ _ H2) as (Ho & U2 & R2).
    repeat split; [exact Ho|congruence|congruence].
  - exact (Hc _ _ _ _ _ H1).
Qed.

Lemma forecast_steps_framed forecast_data :
  framed (forecast_steps rt w forecast_data).
Proof.
  unfold forecast_steps.
  repeat (apply framed_bind; [|intros _]).
  - intros p d o p' d' H. apply current_usage_step_effect in H.
    destruct H as [Ho E]. split; [exact Ho|]. rewrite E. destruct d; split; reflexivity.
  - intros p d o p' d' H. apply current_bill_step_effect in H.
    destruct H as [Ho E]. split; [exact Ho|]. rewrite E. destruct d; split; reflexivity.
  - intros p d o p' d' H. apply billing_dates_step_effect in H.
    destruct H as [Ho E]. split; [exact Ho|]. rewrite E. destruct d; split; reflexivity.
  - intros p d o p' d' H. apply rate_step_effect in H.
    destruct H as (Ho & E & _). split; [exact Ho|]. rewrite E. destruct d; split; reflexivity.
  - intros p d o p' d' H. apply daily_cost_step_effect in H.
    destruct H as (Ho & E & _). split; [exact Ho|]. rewrite E. destruct d; split; reflexivity.
  - intros p d o p' d' H. apply grid_return_step_effect in H.
    destruct H as [Ho E]. split; [exact Ho|]. rewrite E. destruct d; split; reflexivity.
Qed.

(** A forecast that is processed to the end leaves the rate and the daily
    cost determined by the bill, the usage and the period start it stored. *)
Lemma forecast_steps_returns forecast_data p d p' d' :
  forecast_steps rt w forecast_data (p, d) = (Return tt, (p', d')) ->
  rate_rel rt (set_current_rate (current_rate d) d') d' /\
  cost_rel rt w (set_daily_cost (daily_cost d) d') d'.
Proof.
  unfold forecast_steps. intros H.
  apply bind_returns in H. destruct H as ([] & [p1 d1] & H1 & H).
  apply bind_returns in H. destruct H as ([] & [p2 d2] & H2 & H).
  apply bind_returns in H. destruct H as ([] & [p3 d3] & H3 & H).
  apply bind_returns in H. destruct H as ([] & [p4 d4] & H4 & H).
  apply bind_returns in H. destruct H as ([] & [p5 d5] & H5 & H6).
  apply current_usage_step_effect in H1. destruct H1 as [_ E1].
  apply current_bill_step_effect in H2. destruct H2 as [_ E2].
  apply billing_dates_step_effect in H3. destruct H3 as [_ E3].
  apply rate_step_effect in H4. destruct H4 as (_ & E4 & R4).
  apply daily_cost_step_effect in H5. destruct H5 as (_ & E5 & R5).
  apply grid_return_step_effect in H6. destruct H6 as [_ E6].
  specialize (R4 eq_refl). specialize (R5 eq_refl).
  unfold rate_rel, cost_rel in *.
  data_eq. split; assumption.
Qed.

End ForecastEffects.

(** ** The three guarded blocks *)

Lemma py_get_raises d key default e :
  py_get d key default = Raise e -> e = AttributeError.
Proof. destruct d; cbn [py_get]; congruence. Qed.

Lemma py_item0_raises v e :
  py_item0 v = Raise e -> isinstance_ApiError e = false.
Proof.
  destruct v as [| | | [] | [] |]; cbn [py_item0]; intros [= <-]; reflexivity.
Qed.

Section Blocks.
Variable rt : runtime.
Variable w : world.

Lemma forecast_block_fetch_fails p d e p0 :
  get_bill_forecast rt w p = (Raise e, p0) ->
  forecast_block rt w (p, d) = (Raise e, (p0, d)).
Proof. intros H. unfold forecast_block, bind, call. rewrite H. reflexivity. Qed.

Lemma usage_block_fetch_fails p d e p0 :
  get_usage_history rt w None None p = (Raise e, p0) ->
  usage_block rt w (p, d) = (Raise e, (p0, d)).
Proof. intros H. unfold usage_block, bind, call. rewrite H. reflexivity. Qed.

Lemma bills_block_fetch_fails p d e p0 :
  get_bill_history rt w p = (Raise e, p0) ->
  bills_block rt w (p, d) = (Raise e, (p0, d)).
Proof. intros H. unfold bills_block, bind, call. rewrite H. reflexivity. Qed.

Lemma forecast_block_effect p d o p' d' :
  forecast_block rt w (p, d) = (o, (p', d')) ->
  daily_usage d' = daily_usage d /\ daily_return d' = daily_return d /\
  match o with
  | Return _ =>
      rate_rel rt (set_current_rate (current_rate d) d') d' /\
      cost_rel rt w (set_daily_cost (daily_cost d) d') d'
  | Raise e => isinstance_ApiError e = true -> d' = d
  end.
Proof.
  unfold forecast_block. intros H.
  apply bind_inv in H. destruct H as [(j & [p1 d1] & H1 & H)|(e & H1 & ->)].
  - assert (d1 = d) as ->.
    { unfold call in H1. destruct (get_bill_forecast rt w p) as [o1 q].
      injection H1 as _ _ <-. reflexivity. }
    unfold bind, lift_outcome in H.
    destruct (py_get j "data" (JObj [])) as [forecast_data|e] eqn:Hj.
    + pose proof (forecast_steps_framed rt w forecast_data _ _ _ _ _ H) as (Ho & U & R).
      split; [exact U|]. split; [exact R|].
      destruct o as [[]|e].
      * apply forecast_steps_returns in H. exact H.
      * cbn [no_api] in Ho. intros Habs. congruence.
    + injection H as <- <- <-. repeat split.
  - unfold call in H1. destruct (get_bill_forecast rt w p) as [o1 q].
    injection H1 as _ _ <-. repeat split.
Qed.

Lemma usage_block_effect p d o p' d' :
  usage_block rt w (p, d) = (o, (p', d')) ->
  d' = set_daily_return (daily_return d') (set_daily_usage (daily_usage d') d) /\
  (forall e, o = Raise e -> isinstance_ApiError e = true -> d' = d).
Proof.
  destruct d as [gc gr mu cb bs be cr dc du dr].
  unfold usage_block. py_unfold.
  destruct (get_usage_history rt w None None p) as [[j|e] p0]; py_unfold.
  - destruct j; cbn [py_get]; py_cases; split; try reflexivity.
    all: intros ? [= <-];
      repeat match goal with
             | H : py_get _ _ _ = Raise ?e |- _ =>
                 apply py_get_raises in H; subst e
             end;
      try discriminate; intros; reflexivity.
  - py_leaf. split; [reflexivity|]. intros; reflexivity.
Qed.

Lemma bills_block_effect p d o p' d' :
  bills_block rt w (p, d) = (o, (p', d')) ->
  d' = set_current_rate (current_rate d') d /\
  (forall e, o = Raise e -> isinstance_ApiError e = true -> d' = d) /\
  (d' = d \/ (truthy (current_rate d) = false /\ backfilled rt w p d')).
Proof.
  destruct d as [gc gr mu cb bs be cr dc du dr].
  unfold bills_block, backfilled, latest_bill_of. py_unfold.
  destruct (get_bill_history rt w p) as [[j|e] p0]; py_unfold; cbn [fst];
    [|unchanged].
  destruct (py_get j "data" (JObj [])) as [hd|e] eqn:Hj; [|unchanged].
  destruct (py_get hd "bills" (JArr [])) as [bills|e] eqn:Hb; [|unchanged].
  destruct (truthy bills); [|unchanged].
  destruct (py_item0 bills) as [latest|e] eqn:Hl; [|unchanged].
  cbn [current_rate].
  destruct (truthy latest); cbn [andb]; [|unchanged].
  destruct (truthy cr) eqn:Hcr; cbn [negb]; [unchanged|].
  destruct (py_get latest "totalAmount" JNull) as [amount|e] eqn:Ha; [|unchanged].
  destruct (py_get latest "totalUsageKwh" JNull) as [usage|e] eqn:Hu; [|unchanged].
  unfold py_gt0, py_truediv, py_round.
  destruct (truthy amount) eqn:Hta; [|unchanged].
  destruct (truthy usage) eqn:Htu; [|unchanged].
  destruct (as_number usage) as [u|] eqn:Hnu; [|unchanged].
  destruct (0 <? Qnum u) eqn:Hpos; [|unchanged].
  replace (Qnum u =? 0) with false by (symmetry; apply Z.eqb_neq; lia).
  destruct (as_number amount) as [a|] eqn:Hna; cbn [as_number]; [|unchanged].
  destruct (truediv_overflows rt a u); [unchanged|].
  py_leaf. split; [reflexivity|]. split; [discriminate|].
  right. split; [reflexivity|].
  exists j, latest, amount, usage, a, u.
  split; [reflexivity|]. split; [rewrite Hj, Hb; exact Hl|].
  repeat split; try assumption. lia.
Qed.

Lemma guarded_inv (block : M frame unit) level msg p d o p' d' :
  try_except block (logged_and_ignored level msg) (p, d) = (o, (p', d')) ->
  (o = Return tt /\ block (p, d) = (Return tt, (p', d'))) \/
  (exists e p0,
      o = Return tt /\ block (p, d) = (Raise e, (p0, d')) /\
      isinstance_ApiError e = true /\
      p' = with_record level (msg ++ str_of_exn e) p0) \/
  (exists e,
      o = Raise e /\ block (p, d) = (Raise e, (p', d')) /\
      isinstance_ApiError e = false).
Proof.
  unfold try_except, logged_and_ignored. cbn [dispatch].
  destruct (block (p, d)) as [[[]|e] [p0 d0]].
  - intros [= <- <- <-]. left. split; reflexivity.
  - destruct (isinstance_ApiError e) eqn:He.
    + unfold call, log, modify. intros [= <- <- <-]. right. left.
      exists e, p0. repeat split. exact He.
    + unfold raise. intros [= <- <- <-]. right. right.
      exists e. repeat split. exact He.
Qed.

Lemma guarded_fetch_fails (block : M frame unit) level msg p d e p0 :
  block (p, d) = (Raise e, (p0, d)) ->
  isinstance_ApiError e = true ->
  try_except block (logged_and_ignored level msg) (p, d)
  = (Return tt, (with_record level (msg ++ str_of_exn e) p0, d)).
Proof.
  intros H He. unfold try_except, logged_and_ignored. rewrite H.
  cbn [dispatch]. rewrite He. reflexivity.
Qed.

Lemma guarded_no_api (block : M frame unit) level msg s e s' :
  try_except block (logged_and_ignored level msg) s = (Raise e, s') ->
  isinstance_ApiError e = false.
Proof.
  destruct s as [p d], s' as [p' d']. intros H.
  destruct (guarded_inv _ _ _ _ _ _ _ _ H)
    as [[Ho _]|[(e0 & p0 & Ho & _)|(e0 & Ho & _ & He)]];
    try discriminate Ho.
  injection Ho as ->. exact He.
Qed.

(** No exception of the client's own classes leaves [get_all_data]. *)
Lemma get_all_data_no_api p e :
  fst (get_all_data rt w p) = Raise e -> isinstance_ApiError e = false.
Proof.
  unfold get_all_data.
  destruct (get_all_data_body rt w (p, new_data)) as [o [p' d']] eqn:H.
  cbn [fst]. intros ->. unfold get_all_data_body in H.
  apply bind_inv in H. destruct H as [([] & s1 & _ & H)|(e0 & H & [= <-])];
    [|exact (guarded_no_api _ _ _ _ _ _ H)].
  apply bind_inv in H. destruct H as [([] & s2 & _ & H)|(e0 & H & [= <-])];
    [|exact (guarded_no_api _ _ _ _ _ _ H)].
  apply bind_inv in H. destruct H as [([] & s3 & _ & H)|(e0 & H & [= <-])];
    [|exact (guarded_no_api _ _ _ _ _ _ H)].
  destruct s3. discriminate H.
Qed.

Lemma get_all_data_returns p r p' :
  get_all_data rt w p = (Return r, p') ->
  exists p1 d1 p2 d2,
    try_except (forecast_block rt w)
      (logged_and_ignored ERROR "Error fetching bill forecast: ") (p, new_data)
    = (Return tt, (p1, d1)) /\
    try_except (usage_block rt w)
      (logged_and_ignored DEBUG "Error fetching usage history: ") (p1, d1)
    = (Return tt, (p2, d2)) /\
    try_except (bills_block rt w)
      (logged_and_ignored DEBUG "Error fetching bill history: ") (p2, d2)
    = (Return tt, (p', r)).
Proof.
  unfold get_all_data.
  destruct (get_all_data_body rt w (p, new_data)) as [o [q d']] eqn:H.
  intros [= -> ->]. unfold get_all_data_body in H.
  apply bind_returns in H. destruct H as ([] & [p1 d1] & H1 & H).
  apply bind_returns in H. destruct H as ([] & [p2 d2] & H2 & H).
  apply bind_returns in H. destruct H as ([] & [p3 d3] & H3 & H).
  injection H as <- <-.
  exists p1, d1, p2, d2. repeat split; assumption.
Qed.

(** The reading of a call that returns, from the reading [d1] the forecast
    block left: the daily series and possibly the rate are all that differ,
    and [d1] has the rate and the daily cost of its own bill, usage and
    period start. *)
Lemma get_all_data_reading p r p' :
  get_all_data rt w p = (Return r, p') ->
  exists d1,
    rate_rel rt (set_current_rate JNull d1) d1 /\
    cost_rel rt w (set_daily_cost JNull d1) d1 /\
    daily_usage d1 = JNull /\ daily_return d1 = JNull /\
    r = set_current_rate (current_rate r)
          (set_daily_return (daily_return r) (set_daily_usage (daily_usage r) d1)) /\
    (current_rate r = current_rate d1 \/
     (truthy (current_rate d1) = false /\ exists p2, backfilled rt w p2 r)).
Proof.
  intros H. apply get_all_data_returns in H.
  destruct H as (p1 & d1 & p2 & d2 & HF & HU & HB).
  exists d1.
  assert (rate_rel rt (set_current_rate JNull d1) d1 /\
          cost_rel rt w (set_daily_cost JNull d1) d1 /\
          daily_usage d1 = JNull /\ daily_return d1 = JNull) as (R & C & U1 & U2).
  { apply guarded_inv in HF.
    destruct HF as [[_ HF]|[(e & p0 & _ & HF & He & _)|(e & Ho & _)]];
      [| |discriminate Ho].
    - apply forecast_block_effect in HF. destruct HF as (U1 & U2 & R & C).
      repeat split; assumption.
    - apply forecast_block_effect in HF. destruct HF as (_ & _ & HF).
      rewrite (HF He). repeat split. }
  assert (d2 = set_daily_return (daily_return d2)
                 (set_daily_usage (daily_usage d2) d1)) as E2.
  { apply guarded_inv in HU.
    destruct HU as [[_ HU]|[(e & p0 & _ & HU & _)|(e & Ho & _)]];
      [| |discriminate Ho];
      apply usage_block_effect in HU; exact (proj1 HU). }
  assert (r = set_current_rate (current_rate r) d2 /\
          (r = d2 \/ (truthy (current_rate d2) = false /\ backfilled rt w p2 r)))
    as (E3 & B).
  { apply guarded_inv in HB.
    destruct HB as [[_ HB]|[(e & p0 & _ & HB & He & _)|(e & Ho & _)]];
      [| |discriminate Ho];
      apply bills_block_effect in HB; destruct HB as (E & Hraise & B).
    - split; assumption.
    - split; [exact E|]. left. exact (Hraise e eq_refl He). }
  split; [exact R|]. split; [exact C|]. split; [exact U1|]. split; [exact U2|].
  split.
  - clear B R C. destruct d1, d2, r. data_eq. reflexivity.
  - destruct B as [->|[T B]].
    + left. rewrite E2. destruct d1; reflexivity.
    + right. split; [|exists p2; exact B].
      rewrite E2 in T. destruct d1; exact T.
Qed.

End Blocks.

(** ** Credential validation *)

(** C8: [validate_credentials] returns [False] exactly when the sequence
    [authenticate]; [get_bill_forecast] raises [DominionEnergyAuthError];
    it returns [True] when [authenticate] succeeds and the read raises
    another [DominionEnergyApiError], and when both succeed. *)
Theorem validate_credentials_contract rt w p :
  (fst (validate_credentials rt w p) = Return false <->
   exists e, fst (credential_check rt w p) = Raise e /\
             isinstance_AuthError e = true) /\
  (forall b p1 e,
      authenticate rt w p = (Return b, p1) ->
      fst (get_bill_forecast rt w p1) = Raise e ->
      isinstance_ApiError e = true -> isinstance_AuthError e = false ->
      fst (validate_credentials rt w p) = Return true) /\
  (forall b p1 j,
      authenticate rt w p = (Return b, p1) ->
      fst (get_bill_forecast rt w p1) = Return j ->
      fst (validate_credentials rt w p) = Return true).
Proof.
  unfold validate_credentials, credential_check, try_except, bind.
  destruct (authenticate rt w p) as [[b|e] p1] eqn:Ha.
  - destruct (get_bill_forecast rt w p1) as [[j|e] p2] eqn:Hf;
      cbn [fst dispatch ret].
    + split; [split|split].
      * discriminate.
      * intros (e & He & _). discriminate He.
      * intros ? ? ? [= <- <-]. rewrite Hf. discriminate.
      * reflexivity.
    + destruct (isinstance_AuthError e) eqn:Hauth; cbn [fst].
      * split; [split|split].
        -- intros _. exists e. split; [reflexivity|exact Hauth].
        -- reflexivity.
        -- intros ? ? ? [= <- <-]. rewrite Hf. intros [= <-] _ Hno. congruence.
        -- intros ? ? ? [= <- <-]. rewrite Hf. discriminate.
      * destruct (isinstance_ApiError e) eqn:Hapi; cbn [fst raise].
        -- split; [split|split].
           ++ discriminate.
           ++ intros (e' & [= <-] & He'). congruence.
           ++ reflexivity.
           ++ reflexivity.
        -- split; [split|split].
           ++ discriminate.
           ++ intros (e' & [= <-] & He'). congruence.
           ++ intros ? ? ? [= <- <-]. rewrite Hf. intros [= <-] Hyes. congruence.
           ++ intros ? ? ? [= <- <-]. rewrite Hf. discriminate.
  - cbn [fst dispatch].
    destruct (isinstance_AuthError e) eqn:Hauth; cbn [fst ret].
    + split; [split|split].
      * intros _. exists e. split; [reflexivity|exact Hauth].
      * reflexivity.
      * discriminate.
      * discriminate.
    + destruct (isinstance_ApiError e) eqn:Hapi; cbn [fst raise ret].
      * split; [split|split]; try discriminate.
        intros (e' & [= <-] & He'). congruence.
      * split; [split|split]; try discriminate.
        intros (e' & [= <-] & He'). congruence.
Qed.

Lemma validate_credentials_contract_witness :
  fst (validate_credentials Exact.runtime valid_but_unavailable Scenario.fresh)
  = Return true /\
  fst (validate_credentials Exact.runtime rejected Scenario.fresh) = Return false.
Proof.
  split.
  - refine (proj1 (proj2 (validate_credentials_contract
                            Exact.runtime valid_but_unavailable Scenario.fresh))
                  true (snd (authenticate Exact.runtime valid_but_unavailable
                                          Scenario.fresh))
                  (DominionEnergyApiError "API request failed with status 500")
                  _ _ _ _); reflexivity.
  - apply (proj2 (proj1 (validate_credentials_contract
                           Exact.runtime rejected Scenario.fresh))).
    exists (DominionEnergyAuthError
              "Failed to authenticate - please check your credentials").
    split; reflexivity.
Defined.

(** ** The daily cost *)

(** C9, as amended: in a reading that [get_all_data] returns, when the
    billing-period start was parsed, the current bill is non-zero and the
    whole days [d] elapsed are positive, [daily_cost] is
    [round(current_bill / d, 2)]; otherwise [daily_cost] is unset.  Here [d]
    counts the whole days from the start's wall-clock date and time of day
    (only its zone is dropped) to [datetime.now()]. *)
Theorem daily_cost_derivation rt w p r p' :
  get_all_data rt w p = (Return r, p') ->
  match billing_period_start r with
  | Some start =>
      let d := sub_days (now w) (replace_tzinfo_None start) in
      if truthy (current_bill r) && (0 <? d) then
        exists b, as_number (current_bill r) = Some b /\
                  daily_cost r = JNum (round_ndigits rt (truediv rt b (inject_Z d)) 2)
      else daily_cost r = JNull
  | None => daily_cost r = JNull
  end.
Proof.
  intros H. apply get_all_data_reading in H.
  destruct H as (d1 & _ & C & _ & _ & E & _).
  unfold cost_rel in C. destruct d1, r. data_eq. exact C.
Qed.

Lemma daily_cost_derivation_witness :
  exists b, as_number (JNum 60) = Some b /\
            JNum 60 = JNum (Exact.round_ndigits (Exact.truediv b (inject_Z 1)) 2).
Proof.
  pose (run := get_all_data Exact.runtime evening_start (Scenario.logged_in "Bearer t")).
  assert (H : run = (Return (mk_data JNull (JNum 0) JNull (JNum 60)
                               (Some (mk_datetime 2024 1 1 18 0 0 0 (Some 0)))
                               None JNull (JNum 60) JNull JNull), snd run))
    by (vm_compute; reflexivity).
  exact (daily_cost_derivation _ _ _ _ _ H).
Defined.

(** C9, as stated, fails: with a start at 18:00 the code counts one whole
    day where the date portion alone gives two, and a bill of zero is
    treated as no bill. *)
Lemma daily_cost_keeps_time_of_day :
  (let r := fst (get_all_data Exact.runtime evening_start
                   (Scenario.logged_in "Bearer t")) in
   field_of daily_cost r = Some (JNum 60) /\
   field_of (spec_daily_cost Exact.runtime evening_start) r = Some (JNum 30)) /\
  (let r := fst (get_all_data Exact.runtime zero_bill
                   (Scenario.logged_in "Bearer t")) in
   field_of daily_cost r = Some JNull /\
   field_of (spec_daily_cost Exact.runtime zero_bill) r = Some (JNum 0)).
Proof. vm_compute. repeat split; reflexivity. Qed.

(** ** The rate *)

Lemma rate_rel_derived rt d0 d b u :
  rate_rel rt d0 d ->
  as_number (current_bill d0) = Some b ->
  as_number (monthly_usage d0) = Some u ->
  Qnum b <> 0 -> 0 < Qnum u ->
  current_rate d = JNum (round_ndigits rt (truediv rt b u) 4).
Proof.
  unfold rate_rel. intros R Hb Hu Hb0 Hu0. rewrite Hu in R.
  rewrite (truthy_as_number _ _ Hb) in R.
  replace (Qnum b =? 0) with false in R by (symmetry; apply Z.eqb_neq; exact Hb0).
  replace (0 <? Qnum u) with true in R by (symmetry; apply Z.ltb_lt; exact Hu0).
  cbn [negb andb] in R. destruct R as (b' & Hb' & R).
  rewrite Hb in Hb'. injection Hb' as <-. exact R.
Qed.

(** C6, as amended: (1) when the forecast block runs to its end with a
    current bill and a monthly usage that are numbers, the bill non-zero
    and the usage positive, it leaves
    [current_rate = round(current_bill / monthly_usage, 4)]; (2) the
    bill-history block changes the reading only by assigning
    [round(totalAmount / totalUsageKwh, 4)] of the first bill entry, with
    a non-zero amount and a positive usage, and only when the rate it
    finds is unset or zero; (3) so a returned reading has the forecast's
    rate whenever that rate is not zero. *)
Theorem current_rate_derivation rt w :
  (forall p d p' d' b u,
      forecast_block rt w (p, d) = (Return tt, (p', d')) ->
      as_number (current_bill d') = Some b ->
      as_number (monthly_usage d') = Some u ->
      Qnum b <> 0 -> 0 < Qnum u ->
      current_rate d' = JNum (round_ndigits rt (truediv rt b u) 4)) /\
  (forall p d o p' d',
      bills_block rt w (p, d) = (o, (p', d')) ->
      d' = d \/ (truthy (current_rate d) = false /\ backfilled rt w p d')) /\
  (forall p r p' b u,
      get_all_data rt w p = (Return r, p') ->
      as_number (current_bill r) = Some b ->
      as_number (monthly_usage r) = Some u ->
      Qnum b <> 0 -> 0 < Qnum u ->
      truthy (JNum (round_ndigits rt (truediv rt b u) 4)) = true ->
      current_rate r = JNum (round_ndigits rt (truediv rt b u) 4)).
Proof.
  split; [|split].
  - intros p d p' d' b u H Hb Hu Hb0 Hu0.
    apply forecast_block_effect in H. destruct H as (_ & _ & R & _).
    apply (rate_rel_derived rt _ _ b u R); try assumption.
    + destruct d'; exact Hb.
    + destruct d'; exact Hu.
  - intros p d o p' d' H. apply bills_block_effect in H. exact (proj2 (proj2 H)).
  - intros p r p' b u H Hb Hu Hb0 Hu0 Hrate.
    apply get_all_data_reading in H.
    destruct H as (d1 & R & _ & _ & _ & E & B).
    assert (current_rate d1 = JNum (round_ndigits rt (truediv rt b u) 4)) as E1.
    { apply (rate_rel_derived rt _ _ b u R); try assumption.
      - rewrite E in Hb. destruct d1; exact Hb.
      - rewrite E in Hu. destruct d1; exact Hu. }
    destruct B as [->|[T _]]; [exact E1|].
    rewrite E1 in T. congruence.
Qed.

Lemma current_rate_derivation_witness :
  JNum (3 # 20)
  = JNum (Exact.round_ndigits (Exact.truediv 75 500) 4).
Proof.
  pose (run := get_all_data Exact.runtime typical_forecast
                 (Scenario.logged_in "Bearer t")).
  assert (H : run = (Return (mk_data (JNum 500) (JNum 0) (JNum 500) (JNum 75)
                               None None (JNum (3 # 20)) JNull JNull JNull),
                     snd run))
    by (vm_compute; reflexivity).
  refine (proj2 (proj2 (current_rate_derivation Exact.runtime typical_forecast))
            _ _ _ 75%Q 500%Q H _ _ _ _ _);
    try reflexivity; cbn; lia.
Defined.

(** C6, as stated, fails: a present bill of zero derives no rate, and a
    rate that step 1 derived as 0.0 is replaced by the bill history's. *)
Lemma current_rate_zero_bill_and_zero_rate :
  (let r := reading_of_forecast
              [ ("currentUsageKwh", JNum 500); ("currentBillAmount", JNum 0) ] in
   field_of current_bill r = Some (JNum 0) /\
   field_of monthly_usage r = Some (JNum 500) /\
   field_of current_rate r = Some JNull /\
   field_of (spec_forecast_rate Exact.runtime) r = Some (Some (JNum 0))) /\
  (let p := Scenario.logged_in "Bearer t" in
   current_rate (snd (snd (forecast_block Exact.runtime tiny_rate (p, new_data))))
   = JNum 0 /\
   field_of current_rate (fst (get_all_data Exact.runtime tiny_rate p))
   = Some (JNum (1 # 10))).
Proof. vm_compute. repeat split; reflexivity. Qed.

(** ** Isolation of endpoint failures *)




(** * Further properties of the client, the coordinator and the sensors *)

(** ** Error classes of the client's methods *)

Lemma authenticate_raises rt w p e :
  fst (authenticate rt w p) = Raise e ->
  isinstance_ClientError e = false /\
  (isinstance_ApiError e = true -> isinstance_AuthError e = true).
Proof.
  unfold authenticate. py_unfold.
  repeat (py_case; py_unfold); cbn [fst];
    intros H; try discriminate H; injection H as <-;
    repeat match goal with
           | H : py_get _ _ _ = Raise ?e |- _ => apply py_get_raises in H; subst e
           end;
    try (split; [reflexivity|]; try reflexivity; discriminate).
  all: split; [assumption|].
  all: match goal with
       | H : response_json ?r = Raise ?e |- _ =>
           unfold response_json in H; destruct (body r); try discriminate H;
           injection H as <-
       | H : response_text ?r = Raise ?e |- _ =>
           unfold response_text in H; destruct (body r); try discriminate H;
           injection H as <-
       end; discriminate.
Qed.

Lemma api_request_no_client_error rt w endpoint params p e :
  fst (_api_request rt w endpoint params p) = Raise e ->
  isinstance_ClientError e = false.
Proof.
  unfold _api_request. py_unfold.
  repeat (py_case; py_unfold); cbn [fst]; intros [= <-]; try reflexivity.
  all: try match goal with
           | H : py_get _ _ _ = Raise ?e |- _ => apply py_get_raises in H; subst e
           end; try reflexivity.
  all: try match goal with
           | H : py_int ?v = Raise _ |- _ =>
               destruct v; cbn [py_int] in H;
               repeat match type of H with
                      | context [match ?x with _ => _ end] => destruct x
                      end;
               try discriminate H; injection H as <-; reflexivity
           end.
  all: assumption.
Qed.

(** ** [set_token] *)

Lemma prefix_append (s t : string) : String.prefix s (s ++ t) = true.
Proof.
  induction s as [|c s IH]; simpl; [destruct t; reflexivity|].
  destruct (ascii_dec c c); [exact IH|contradiction].
Qed.

(** X1: [set_token] always returns, and the token it stores starts with
    [Bearer ]: the argument itself when it already does, the argument behind
    [Bearer ] otherwise.  The stored token is truthy, setting it again
    changes nothing, and nothing is sent or logged. *)
Theorem set_token_normalises token p :
  let p' := snd (set_token token p) in
  fst (set_token token p) = Return tt /\
  exists stored,
    _token (self p') = JStr stored /\
    String.prefix "Bearer " stored = true /\
    truthy (_token (self p')) = true /\
    (String.prefix "Bearer " token = true -> stored = token) /\
    (String.prefix "Bearer " token = false -> stored = "Bearer " ++ token) /\
    set_token stored p' = (Return tt, p') /\
    wire p' = wire p /\ logged p' = logged p.
Proof.
  unfold set_token. py_unfold. split; [reflexivity|].
  destruct (String.prefix "Bearer " token) eqn:Hp.
  - exists token. cbn [self _token with_token]. rewrite Hp.
    repeat split; try congruence.
    + destruct token; [discriminate Hp|reflexivity].
  - exists ("Bearer " ++ token). cbn [self _token with_token].
    rewrite (prefix_append "Bearer " token).
    repeat split; try congruence.
Qed.

(** ** [_api_request] *)

(** X2: with a token held, [_api_request] turns a failure of the
    transport into [DominionEnergyApiError] [Network error: ...], an HTTP
    401 into [DominionEnergyAuthError] [Token expired or invalid], and any
    other status than 200 into [DominionEnergyApiError]
    [API request failed with status <status>]. *)
Theorem api_request_http_errors rt w endpoint params p :
  truthy (_token (self p)) = true ->
  (forall msg,
      server w (wire p) (api_request_of (self p) endpoint params) = Failed msg ->
      fst (_api_request rt w endpoint params p)
      = Raise (DominionEnergyApiError ("Network error: " ++ msg))) /\
  (forall content,
      server w (wire p) (api_request_of (self p) endpoint params)
      = Responded (mk_response 401 content) ->
      fst (_api_request rt w endpoint params p)
      = Raise (DominionEnergyAuthError "Token expired or invalid")) /\
  (forall code content,
      server w (wire p) (api_request_of (self p) endpoint params)
      = Responded (mk_response code content) ->
      code <> 200 -> code <> 401 ->
      fst (_api_request rt w endpoint params p)
      = Raise (DominionEnergyApiError
                 ("API request failed with status " ++ pretty code))).
Proof.
  intros Htok. split; [|split].
  - intros msg Hsrv. api_request_answer Htok Hsrv; reflexivity.
  - intros content Hsrv. api_request_answer Htok Hsrv; reflexivity.
  - intros code content Hsrv H200 H401.
    api_request_answer Htok Hsrv;
      (replace (code =? 401) with false by (symmetry; apply Z.eqb_neq; exact H401));
      (replace (code =? 200) with false by (symmetry; apply Z.eqb_neq; exact H200));
      reflexivity.
Qed.

Lemma api_request_http_errors_witness :
  fst (_api_request Exact.runtime valid_but_unavailable BILL_FORECAST_ENDPOINT None
         (Scenario.logged_in "Bearer t"))
  = Raise (DominionEnergyApiError "API request failed with status 500") /\
  fst (_api_request Exact.runtime offline BILL_FORECAST_ENDPOINT None
         (Scenario.logged_in "Bearer t"))
  = Raise (DominionEnergyApiError "Network error: Cannot connect to host").
Proof.
  split.
  - refine (proj2 (proj2 (api_request_http_errors
                            Exact.runtime valid_but_unavailable
                            BILL_FORECAST_ENDPOINT None
                            (Scenario.logged_in "Bearer t") _))
                  500 NotJson _ _ _); [reflexivity|reflexivity|lia|lia].
  - refine (proj1 (api_request_http_errors
                     Exact.runtime offline BILL_FORECAST_ENDPOINT None
                     (Scenario.logged_in "Bearer t") _)
                  "Cannot connect to host" _); reflexivity.
Defined.

(** X3: no [aiohttp.ClientError] leaves [_api_request]; an HTTP-200
    answer whose body is not JSON, or that breaks off, comes out as a
    [DominionEnergyApiError] [Network error: ...]. *)
Theorem api_request_wraps_client_errors rt w endpoint params p :
  (forall e,
      fst (_api_request rt w endpoint params p) = Raise e ->
      isinstance_ClientError e = false) /\
  (truthy (_token (self p)) = true ->
   forall content,
     server w (wire p) (api_request_of (self p) endpoint params)
     = Responded (mk_response 200 content) ->
     content = NotJson \/ content = Broken ->
     exists msg,
       fst (_api_request rt w endpoint params p)
       = Raise (DominionEnergyApiError ("Network error: " ++ msg))).
Proof.
  split.
  - intros e. apply api_request_no_client_error.
  - intros Htok content Hsrv [-> | ->];
      api_request_answer Htok Hsrv; eexists; reflexivity.
Qed.

Lemma api_request_wraps_client_errors_witness :
  exists msg,
    fst (_api_request Exact.runtime html_answer BILL_FORECAST_ENDPOINT None
           (Scenario.logged_in "Bearer t"))
    = Raise (DominionEnergyApiError ("Network error: " ++ msg)).
Proof.
  refine (proj2 (api_request_wraps_client_errors
                   Exact.runtime html_answer BILL_FORECAST_ENDPOINT None
                   (Scenario.logged_in "Bearer t"))
                _ NotJson _ _); [reflexivity|reflexivity|left; reflexivity].
Defined.

(** X4: for an HTTP-200 JSON answer, [_api_request] returns the document
    when the embedded [status.code] is falsy (absent, [None], 0, empty) or
    reads as the integer 200; when it reads as another integer the call
    raises [DominionEnergyApiError] [API error: <status.message>]. *)
Theorem api_request_embedded_status rt w endpoint params p document st code :
  truthy (_token (self p)) = true ->
  server w (wire p) (api_request_of (self p) endpoint params)
  = Responded (mk_response 200 (Json document)) ->
  py_get document "status" (JObj []) = Return st ->
  py_get st "code" JNull = Return code ->
  (truthy code = false ->
   fst (_api_request rt w endpoint params p) = Return document) /\
  (forall n,
      truthy code = true -> py_int code = Return n ->
      (n = 200 -> fst (_api_request rt w endpoint params p) = Return document) /\
      (n <> 200 ->
       forall message,
         py_get st "message" (JStr "Unknown error") = Return message ->
         fst (_api_request rt w endpoint params p)
         = Raise (DominionEnergyApiError ("API error: " ++ format rt message)))).
Proof.
  intros Htok Hsrv Hst Hcode. split; [|intros n Ht Hint; split].
  - intros Hf. api_request_answer Htok Hsrv; rewrite Hst; py_unfold;
      rewrite Hcode; py_unfold; rewrite Hf; reflexivity.
  - intros ->. api_request_answer Htok Hsrv; rewrite Hst; py_unfold;
      rewrite Hcode; py_unfold; rewrite Ht; py_unfold; rewrite Hint; reflexivity.
  - intros Hn message Hm.
    api_request_answer Htok Hsrv; rewrite Hst; py_unfold;
      rewrite Hcode; py_unfold; rewrite Ht; py_unfold; rewrite Hint; py_unfold;
      (replace (n =? 200) with false by (symmetry; apply Z.eqb_neq; exact Hn));
      py_unfold; rewrite Hm; reflexivity.
Qed.

Lemma api_request_embedded_status_witness :
  fst (_api_request Exact.runtime refused_by_service BILL_FORECAST_ENDPOINT None
         (Scenario.logged_in "Bearer t"))
  = Raise (DominionEnergyApiError "API error: Service unavailable").
Proof.
  refine (proj2 (proj2 (api_request_embedded_status
                          Exact.runtime refused_by_service
                          BILL_FORECAST_ENDPOINT None
                          (Scenario.logged_in "Bearer t")
                          _ (JObj [ ("code", JNum 500);
                                    ("message", JStr "Service unavailable") ])
                          (JNum 500) _ _ _ _)
                       500 _ _)
                _ (JStr "Service unavailable") _);
    try reflexivity; lia.
Defined.

Lemma default_headers_no_authorization :
  DEFAULT_HEADERS !! "Authorization" = None.
Proof. vm_compute. reflexivity. Qed.

(** X5: with a token held, [_api_request] sends exactly one request: a
    GET to [API_BASE_URL] followed by the endpoint, without a body, whose
    [Authorization] header is the stored token as it is, and which carries
    every one of the [DEFAULT_HEADERS]. *)
Theorem api_request_headers rt w endpoint params p :
  truthy (_token (self p)) = true ->
  exists req,
    wire (snd (_api_request rt w endpoint params p)) = req :: wire p /\
    req_method req = GET /\
    req_url req = API_BASE_URL ++ endpoint /\
    req_payload_of req = NoPayload /\
    req_headers req !! "Authorization" = Some (_token (self p)) /\
    (forall k v, DEFAULT_HEADERS !! k = Some v -> req_headers req !! k = Some v).
Proof.
  intros Htok. exists (api_request_of (self p) endpoint params).
  split; [apply api_request_wire; exact Htok|].
  cbn [api_request_of req_method req_url req_payload_of req_headers].
  split; [reflexivity|]. split; [reflexivity|]. split; [reflexivity|]. split.
  - apply (lookup_insert_eq (M := gmap string)).
  - intros k v Hk. rewrite lookup_insert_ne; [exact Hk|].
    intros <-. rewrite default_headers_no_authorization in Hk. discriminate Hk.
Qed.

Lemma api_request_headers_witness :
  exists req,
    wire (snd (_api_request Exact.runtime typical_forecast BILL_FORECAST_ENDPOINT
                 None (Scenario.logged_in "Bearer t")))
    = [ req ] /\
    req_headers req !! "Authorization" = Some (JStr "Bearer t").
Proof.
  destruct (api_request_headers Exact.runtime typical_forecast
              BILL_FORECAST_ENDPOINT None (Scenario.logged_in "Bearer t")
              eq_refl) as (req & Hw & _ & _ & _ & Ha & _).
  exists req. split; [exact Hw|exact Ha].
Defined.

(** ** The read operations *)

Lemma merge_params_extends a (caller : gmap string string) :
  merge_params a (Some caller) = caller ∪ fixed_params a.
Proof.
  unfold merge_params, fixed_params.
  destruct (decide (caller = ∅)) as [->|_]; [|reflexivity].
  rewrite (left_id_L ∅ (∪)). reflexivity.
Qed.

(** X6: with a token held, [get_bill_forecast] and [get_bill_history]
    query their endpoint with the account number and the action code only;
    [get_usage_history] adds [startDate] and [endDate], each only when it
    is given and is not the empty string. *)
Theorem read_operations_queries rt w p start_date end_date :
  truthy (_token (self p)) = true ->
  (exists req,
      wire (snd (get_bill_forecast rt w p)) = req :: wire p /\
      req_url req = API_BASE_URL ++ BILL_FORECAST_ENDPOINT /\
      req_params req = fixed_params (self p)) /\
  (exists req,
      wire (snd (get_bill_history rt w p)) = req :: wire p /\
      req_url req = API_BASE_URL ++ BILL_HISTORY_ENDPOINT /\
      req_params req = fixed_params (self p)) /\
  (exists req,
      wire (snd (get_usage_history rt w start_date end_date p)) = req :: wire p /\
      req_url req = API_BASE_URL ++ USAGE_HISTORY_ENDPOINT /\
      req_params req
      = with_optional "endDate" (given end_date)
          (with_optional "startDate" (given start_date) (fixed_params (self p)))).
Proof.
  intros Htok. split; [|split].
  - eexists. split; [apply api_request_wire; exact Htok|]. split; reflexivity.
  - eexists. split; [apply api_request_wire; exact Htok|]. split; reflexivity.
  - eexists. split; [apply api_request_wire; exact Htok|]. split; [reflexivity|].
    cbn [api_request_of req_params]. rewrite merge_params_extends.
    unfold given, with_optional.
    destruct start_date as [s|], end_date as [e|];
      try destruct (String.eqb s ""); try destruct (String.eqb e "");
      cbn [negb];
      rewrite <- ?insert_union_l, ?(left_id_L ∅ (∪)); reflexivity.
Qed.

Lemma read_operations_queries_witness :
  exists req,
    wire (snd (get_usage_history Exact.runtime typical_forecast
                 (Some "2024-01-01") (Some "") (Scenario.logged_in "Bearer t")))
    = [ req ] /\
    req_params req
    = <["startDate" := "2024-01-01"]>
        (fixed_params (self (Scenario.logged_in "Bearer t"))).
Proof.
  destruct (proj2 (proj2 (read_operations_queries
                            Exact.runtime typical_forecast
                            (Scenario.logged_in "Bearer t")
                            (Some "2024-01-01") (Some "") eq_refl)))
    as (req & Hw & _ & Hp).
  exists req. split; [exact Hw|exact Hp].
Defined.

(** ** [authenticate] *)

Lemma authenticate_returns rt w p b :
  fst (authenticate rt w p) = Return b ->
  b = true /\ truthy (_token (self (snd (authenticate rt w p)))) = true.
Proof.
  unfold authenticate. py_unfold.
  repeat (py_case; py_unfold);
    cbn [fst snd self _token with_token with_session];
    intros H; try discriminate H; injection H as <-;
    (split; [reflexivity|]); try assumption.
  all: cbn [truthy]; destruct (format rt _); reflexivity.
Qed.

(** X7: when [authenticate] returns, it returns [True] and the client
    holds a truthy token; when it raises, the exception is never an
    [aiohttp.ClientError], and if it is one of the client's own classes it
    is a [DominionEnergyAuthError]. *)
Theorem authenticate_outcomes rt w p :
  (forall b,
      fst (authenticate rt w p) = Return b ->
      b = true /\ truthy (_token (self (snd (authenticate rt w p)))) = true) /\
  (forall e,
      fst (authenticate rt w p) = Raise e ->
      isinstance_ClientError e = false /\
      (isinstance_ApiError e = true -> isinstance_AuthError e = true)).
Proof.
  split.
  - apply authenticate_returns.
  - apply authenticate_raises.
Qed.

Lemma authenticate_outcomes_witness :
  truthy (_token (self (snd (authenticate Exact.runtime valid_but_unavailable
                               Scenario.fresh)))) = true /\
  isinstance_ClientError
    (DominionEnergyAuthError
       "Failed to authenticate - please check your credentials") = false.
Proof.
  split.
  - refine (proj2 (proj1 (authenticate_outcomes
                            Exact.runtime valid_but_unavailable Scenario.fresh)
                         true _)); reflexivity.
  - refine (proj1 (proj2 (authenticate_outcomes
                            Exact.runtime rejected Scenario.fresh)
                         _ _)); reflexivity.
Defined.

Lemma login_submit_request_with_session s own a :
  login_submit_request (with_session s own a) = login_submit_request a.
Proof. reflexivity. Qed.

(** X8: when the login page answers with a status other than 200, or the
    transport fails on it, [authenticate] raises [DominionEnergyAuthError]
    naming the status or the network error; the login page is the only
    request sent, and the token held before is kept. *)
Theorem authenticate_login_page_gate rt w p :
  (forall code content,
      server w (wire p) login_page_request = Responded (mk_response code content) ->
      code <> 200 ->
      fst (authenticate rt w p)
      = Raise (DominionEnergyAuthError
                 ("Failed to access login page: " ++ pretty code)) /\
      wire (snd (authenticate rt w p)) = login_page_request :: wire p /\
      _token (self (snd (authenticate rt w p))) = _token (self p)) /\
  (forall msg,
      server w (wire p) login_page_request = Failed msg ->
      fst (authenticate rt w p)
      = Raise (DominionEnergyAuthError
                 ("Network error during authentication: " ++ msg)) /\
      wire (snd (authenticate rt w p)) = login_page_request :: wire p /\
      _token (self (snd (authenticate rt w p))) = _token (self p)).
Proof.
  split.
  - intros code content Hsrv Hcode. unfold authenticate. py_unfold.
    destruct (_session (self p)); py_unfold; rewrite Hsrv; py_unfold;
      (replace (code =? 200) with false by (symmetry; apply Z.eqb_neq; exact Hcode));
      py_unfold; repeat split.
  - intros msg Hsrv. unfold authenticate. py_unfold.
    destruct (_session (self p)); py_unfold; rewrite Hsrv; py_unfold;
      repeat split.
Qed.

Lemma authenticate_login_page_gate_witness :
  fst (authenticate Exact.runtime login_page_down Scenario.fresh)
  = Raise (DominionEnergyAuthError "Failed to access login page: 503") /\
  fst (authenticate Exact.runtime offline Scenario.fresh)
  = Raise (DominionEnergyAuthError
             "Network error during authentication: Cannot connect to host").
Proof.
  split.
  - refine (proj1 (proj1 (authenticate_login_page_gate
                            Exact.runtime login_page_down Scenario.fresh)
                         503 NotJson _ _)); [reflexivity|lia].
  - refine (proj1 (proj2 (authenticate_login_page_gate
                            Exact.runtime offline Scenario.fresh)
                         "Cannot connect to host" _)); reflexivity.
Defined.

(** X9: [authenticate] sends the login page request, then the token
    request, then the login form, in this order and stopping anywhere
    along it; the login form is sent only when the token endpoint gave no
    usable access token. *)
Theorem authenticate_request_sequence rt w p :
  let sent := wire (snd (authenticate rt w p)) in
  sent = login_page_request :: wire p \/
  sent = token_request (self p) :: login_page_request :: wire p \/
  (sent = login_submit_request (self p) :: token_request (self p)
            :: login_page_request :: wire p /\
   forall token_data access_token,
     server w (login_page_request :: wire p) (token_request (self p))
     = Responded (mk_response 200 (Json token_data)) ->
     py_get token_data "access_token" JNull = Return access_token ->
     truthy access_token = false).
Proof.
  unfold authenticate. py_unfold.
  repeat (py_case; py_unfold);
    cbn [snd wire self _token with_token with_session] in *;
    rewrite ?token_request_with_session, ?login_submit_request_with_session in *;
    first [ left; reflexivity
          | right; left; reflexivity
          | right; right; split; [reflexivity|];
            intros token_data access_token Hsrv Hget ].
  all: try match goal with
           | H : server _ _ (token_request _) = _ |- _ =>
               tryif constr_eq H Hsrv then fail else rewrite H in Hsrv
           end.
  all: try discriminate Hsrv; injection Hsrv as ->; unfold response_json in *;
    cbn [status body] in *; try discriminate;
    repeat match goal with
           | H : Return _ = Return _ |- _ => injection H as ->
           | H : Return _ = Raise _ |- _ => discriminate H
           end;
    congruence.
Qed.

(** X10: the fallback login.  When the login page answers, the token
    endpoint answers without a usable access token (another status than
    200, or a falsy [access_token]) and the login form answers 200 with a
    truthy [sessionToken], [authenticate] returns [True] and stores
    [Bearer <sessionToken>]. *)
Theorem authenticate_session_token
        rt w p text r2 auth_response session_token :
  server w (wire p) login_page_request = Responded (mk_response 200 text) ->
  response_text (mk_response 200 text) = Return tt ->
  server w (login_page_request :: wire p) (token_request (self p))
  = Responded r2 ->
  (status r2 <> 200 \/
   exists token_data access_token,
     r2 = mk_response 200 (Json token_data) /\
     py_get token_data "access_token" JNull = Return access_token /\
     truthy access_token = false) ->
  server w (token_request (self p) :: login_page_request :: wire p)
         (login_submit_request (self p))
  = Responded (mk_response 200 (Json auth_response)) ->
  py_get auth_response "sessionToken" JNull = Return session_token ->
  truthy session_token = true ->
  fst (authenticate rt w p) = Return true /\
  _token (self (snd (authenticate rt w p)))
  = JStr ("Bearer " ++ format rt session_token).
Proof.
  intros Hpage Htext Htoken Hno Hauthn Hget Htruthy.
  unfold authenticate. py_unfold.
  destruct text; try discriminate Htext.
  all: destruct Hno as [Hcode|(token_data & access_token & -> & Hget2 & Hfalsy)].
  all: destruct (_session (self p)); py_unfold;
    rewrite ?token_request_with_session, Hpage; py_unfold;
    change (200 =? 200) with true; py_unfold;
    rewrite ?token_request_with_session, Htoken; py_unfold.
  all: try (replace (status r2 =? 200) with false
             by (symmetry; apply Z.eqb_neq; exact Hcode)).
  all: try (change (200 =? 200) with true; py_unfold; rewrite Hget2; py_unfold;
            rewrite Hfalsy).
  all: py_unfold;
    change (login_submit_request (with_token _ _))
      with (login_submit_request (self p));
    change (login_submit_request (with_session _ _ _))
      with (login_submit_request (self p));
    rewrite ?login_submit_request_with_session, Hauthn; py_unfold;
    change (200 =? 200) with true; py_unfold;
    rewrite Hget; py_unfold; rewrite Htruthy; py_unfold; split; reflexivity.
Qed.

Lemma authenticate_session_token_witness :
  fst (authenticate Exact.runtime session_login Scenario.fresh) = Return true /\
  _token (self (snd (authenticate Exact.runtime session_login Scenario.fresh)))
  = JStr "Bearer s3ss10n".
Proof.
  refine (authenticate_session_token
            Exact.runtime session_login Scenario.fresh NotJson
            (mk_response 400 NotJson)
            (JObj [ ("sessionToken", JStr "s3ss10n") ]) (JStr "s3ss10n")
            _ _ _ _ _ _ _); try reflexivity.
  left. cbn. lia.
Defined.

(** ** What [get_all_data] does to the client and the wire *)

Lemma quiet_bind {A B} (c : M frame A) (k : A -> M frame B) :
  quiet c -> (forall a, quiet (k a)) -> quiet (bind c k).
Proof.
  intros Hc Hk p d o p' d' H.
  destruct (bind_inv _ _ _ _ _ H) as [(a & [p1 d1] & H1 & H2)|(e & H1 & ->)].
  - destruct (Hc _ _ _ _ _ H1) as [S1 W1].
    destruct (Hk a _ _ _ _ _ H2) as [S2 W2]. split; congruence.
  - exact (Hc _ _ _ _ _ H1).
Qed.

Section Quiet.
Variable rt : runtime.
Variable w : world.

Lemma forecast_steps_quiet forecast_data : quiet (forecast_steps rt w forecast_data).
Proof.
  unfold forecast_steps.
  repeat (apply quiet_bind; [|intros _]).
  - unfold current_usage_step. quiet_cases.
  - unfold current_bill_step. quiet_cases.
  - unfold billing_dates_step.
    apply quiet_bind; [quiet_cases|intros billing_start].
    apply quiet_bind; [quiet_cases|intros billing_end].
    apply quiet_bind; [|intros _]; unfold parse_date, py_fromisoformat; quiet_cases.
  - unfold rate_step, py_gt0, py_truediv, py_round. quiet_cases.
  - unfold daily_cost_step, py_truediv, py_round. quiet_cases.
  - unfold grid_return_step. quiet_cases.
Qed.

(** A block: its fetch, then steps that leave the client and the wire. *)
Lemma forecast_block_process p d o p' d' :
  forecast_block rt w (p, d) = (o, (p', d')) ->
  self p' = self (snd (get_bill_forecast rt w p)) /\
  wire p' = wire (snd (get_bill_forecast rt w p)).
Proof.
  unfold forecast_block. intros H.
  apply bind_inv in H. destruct H as [(j & [p1 d1] & H1 & H)|(e & H1 & ->)].
  - unfold call in H1. destruct (get_bill_forecast rt w p) as [o1 q].
    injection H1 as _ <- <-. cbn [snd].
    apply bind_inv in H. destruct H as [(fd & [p2 d2] & H2 & H)|(e & H2 & ->)].
    + unfold lift_outcome in H2. injection H2 as _ <- <-.
      exact (forecast_steps_quiet _ _ _ _ _ _ H).
    + unfold lift_outcome in H2. injection H2 as _ <- <-. split; reflexivity.
  - unfold call in H1. destruct (get_bill_forecast rt w p) as [o1 q].
    injection H1 as _ <- <-. split; reflexivity.
Qed.

Lemma usage_block_process p d o p' d' :
  usage_block rt w (p, d) = (o, (p', d')) ->
  self p' = self (snd (get_usage_history rt w None None p)) /\
  wire p' = wire (snd (get_usage_history rt w None None p)).
Proof.
  unfold usage_block. py_unfold.
  destruct (get_usage_history rt w None None p) as [[j|e] q]; py_unfold; cbn [snd].
  - repeat (py_case; py_unfold); intros [= <- <- <-]; split; reflexivity.
  - intros [= <- <- <-]; split; reflexivity.
Qed.

Lemma bills_block_process p d o p' d' :
  bills_block rt w (p, d) = (o, (p', d')) ->
  self p' = self (snd (get_bill_history rt w p)) /\
  wire p' = wire (snd (get_bill_history rt w p)).
Proof.
  unfold bills_block, py_gt0, py_truediv, py_round. py_unfold.
  destruct (get_bill_history rt w p) as [[j|e] q]; py_unfold; cbn [snd].
  - repeat (py_case; py_unfold); intros [= <- <- <-]; split; reflexivity.
  - intros [= <- <- <-]; split; reflexivity.
Qed.

End Quiet.

Lemma ensure_session_idem a : ensure_session (ensure_session a) = ensure_session a.
Proof. unfold ensure_session. destruct (_session a) eqn:H; [rewrite H|]; reflexivity. Qed.

Lemma ensure_session_token a : _token (ensure_session a) = _token a.
Proof. unfold ensure_session. destruct (_session a); reflexivity. Qed.

Lemma api_request_of_ensure_session a endpoint params :
  api_request_of (ensure_session a) endpoint params = api_request_of a endpoint params.
Proof. unfold ensure_session. destruct (_session a); reflexivity. Qed.

(** What [_api_request] leaves of the client: with a token the session is
    ensured and nothing else changes; without one nothing changes at all.
    The log is never written. *)
Lemma api_request_client rt w endpoint params p :
  logged (snd (_api_request rt w endpoint params p)) = logged p /\
  (truthy (_token (self p)) = true ->
   self (snd (_api_request rt w endpoint params p)) = ensure_session (self p)) /\
  (truthy (_token (self p)) = false ->
   snd (_api_request rt w endpoint params p) = p).
Proof.
  unfold _api_request, ensure_session. py_unfold.
  destruct (truthy (_token (self p))) eqn:Htok; py_unfold.
  - destruct (_session (self p)) eqn:Hs; py_unfold;
      rewrite ?Htok; py_unfold;
      repeat (py_case; py_unfold); cbn [snd self logged];
      repeat split; try reflexivity; try discriminate.
  - cbn [snd]. repeat split; discriminate.
Qed.

Lemma client_step_trans a b c :
  client_step a b -> client_step b c -> client_step a c.
Proof.
  intros [->| ->] [->| ->]; unfold client_step; auto.
  right. apply ensure_session_idem.
Qed.

Lemma api_request_client_step rt w endpoint params p :
  client_step (self p) (self (snd (_api_request rt w endpoint params p))).
Proof.
  destruct (api_request_client rt w endpoint params p) as (_ & Ht & Hf).
  destruct (truthy (_token (self p))).
  - right. apply Ht. reflexivity.
  - left. rewrite Hf; reflexivity.
Qed.

Section Orchestrated.
Variable rt : runtime.
Variable w : world.

Lemma guarded_process (block : M frame unit) (fetch : M process json)
      level msg p d o p' d' :
  (forall p d o p' d',
      block (p, d) = (o, (p', d')) ->
      self p' = self (snd (fetch p)) /\ wire p' = wire (snd (fetch p))) ->
  try_except block (logged_and_ignored level msg) (p, d) = (o, (p', d')) ->
  self p' = self (snd (fetch p)) /\ wire p' = wire (snd (fetch p)).
Proof.
  intros Hb H. apply guarded_inv in H.
  destruct H as [[_ H]|[(e & p0 & _ & H & _ & ->)|(e & _ & H & _)]];
    apply Hb in H; exact H.
Qed.

Lemma get_all_data_body_inv s o s' :
  get_all_data_body rt w s = (o, s') ->
  exists s1 s2 s3 o1 o2 o3,
    try_except (forecast_block rt w)
      (logged_and_ignored ERROR "Error fetching bill forecast: ") s = (o1, s1) /\
    (o1 = Return tt ->
     try_except (usage_block rt w)
       (logged_and_ignored DEBUG "Error fetching usage history: ") s1 = (o2, s2)) /\
    (o1 = Return tt -> o2 = Return tt ->
     try_except (bills_block rt w)
       (logged_and_ignored DEBUG "Error fetching bill history: ") s2 = (o3, s3)) /\
    ((o1 = Return tt /\ o2 = Return tt /\ o3 = Return tt /\ s' = s3) \/
     (o1 = Return tt /\ o2 = Return tt /\ s' = s3 /\ exists e, o3 = Raise e) \/
     (o1 = Return tt /\ s' = s2 /\ exists e, o2 = Raise e) \/
     (s' = s1 /\ exists e, o1 = Raise e)).
Proof.
  unfold get_all_data_body. intros H.
  apply bind_inv in H. destruct H as [([] & s1 & H1 & H)|(e & H1 & ->)].
  - apply bind_inv in H. destruct H as [([] & s2 & H2 & H)|(e & H2 & ->)].
    + apply bind_inv in H. destruct H as [([] & s3 & H3 & H)|(e & H3 & ->)].
      * exists s1, s2, s3, (Return tt), (Return tt), (Return tt).
        split; [exact H1|]. split; [intros _; exact H2|].
        split; [intros _ _; exact H3|]. left.
        destruct s3. injection H as _ <-. repeat split.
      * exists s1, s2, s', (Return tt), (Return tt), (Raise e).
        split; [exact H1|]. split; [intros _; exact H2|].
        split; [intros _ _; exact H3|]. right. left.
        repeat split. exists e. reflexivity.
    + exists s1, s', s', (Return tt), (Raise e), (Raise e).
      split; [exact H1|]. split; [intros _; exact H2|].
      split; [intros _ [=]|]. right. right. left.
      repeat split. exists e. reflexivity.
  - exists s', s', s', (Raise e), (Raise e), (Raise e).
    split; [exact H1|]. split; [intros [=]|]. split; [intros [=]|].
    right. right. right. split; [reflexivity|]. exists e. reflexivity.
Qed.

Lemma guarded_client_step (block : M frame unit) (fetch : M process json)
      level msg p d o p' d' :
  (forall p d o p' d',
      block (p, d) = (o, (p', d')) ->
      self p' = self (snd (fetch p)) /\ wire p' = wire (snd (fetch p))) ->
  (forall p, client_step (self p) (self (snd (fetch p)))) ->
  try_except block (logged_and_ignored level msg) (p, d) = (o, (p', d')) ->
  client_step (self p) (self p').
Proof.
  intros Hb Hf H. apply (guarded_process _ fetch) in H; [|exact Hb].
  destruct H as [-> _]. apply Hf.
Qed.

(** Whatever its outcome, [get_all_data] leaves the client as it was, up
    to the creation of its session. *)
Lemma get_all_data_client_step p :
  client_step (self p) (self (snd (get_all_data rt w p))).
Proof.
  unfold get_all_data.
  destruct (get_all_data_body rt w (p, new_data)) as [o [p' d']] eqn:H.
  cbn [snd].
  apply get_all_data_body_inv in H.
  destruct H as ([p1 d1] & [p2 d2] & [p3 d3] & o1 & o2 & o3 & H1 & H2 & H3 & Hend).
  pose proof (guarded_client_step _ (get_bill_forecast rt w) _ _ _ _ _ _ _
                (forecast_block_process rt w)
                (fun p => api_request_client_step rt w _ _ p) H1) as S1.
  assert (o1 = Return tt ->
          client_step (self p1) (self p2)) as S2.
  { intros Ho. specialize (H2 Ho).
    exact (guarded_client_step _ (get_usage_history rt w None None) _ _ _ _ _ _ _
             (usage_block_process rt w)
             (fun p => api_request_client_step rt w _ _ p) H2). }
  assert (o1 = Return tt -> o2 = Return tt ->
          client_step (self p2) (self p3)) as S3.
  { intros Ho1 Ho2. specialize (H3 Ho1 Ho2).
    exact (guarded_client_step _ (get_bill_history rt w) _ _ _ _ _ _ _
             (bills_block_process rt w)
             (fun p => api_request_client_step rt w _ _ p) H3). }
  destruct Hend as [(-> & -> & -> & [= -> ->])
                   |[(-> & -> & [= -> ->] & _)
                    |[(-> & [= -> ->] & _)|([= -> ->] & _)]]].
  - eapply client_step_trans; [exact S1|].
    eapply client_step_trans; [apply S2; reflexivity|apply S3; reflexivity].
  - eapply client_step_trans; [exact S1|].
    eapply client_step_trans; [apply S2; reflexivity|apply S3; reflexivity].
  - eapply client_step_trans; [exact S1|apply S2; reflexivity].
  - exact S1.
Qed.

End Orchestrated.

(** ** The fields of the reading *)

Section Fields.
Variable rt : runtime.
Variable w : world.

Lemma current_usage_step_value members p d o p' d' :
  current_usage_step (JObj members) (p, d) = (o, (p', d')) ->
  o = Return tt /\
  d' = set_grid_consumption (forecast_usage members)
         (set_monthly_usage (forecast_usage members) d).
Proof.
  destruct d. unfold current_usage_step, forecast_usage, member. py_unfold.
  cbn [py_get]. data_fields.
  repeat (py_case; py_unfold; data_fields); py_leaf; split; reflexivity.
Qed.

Lemma current_bill_step_value members p d o p' d' :
  current_bill_step (JObj members) (p, d) = (o, (p', d')) ->
  o = Return tt /\ d' = set_current_bill (forecast_bill members) d.
Proof.
  destruct d. unfold current_bill_step, forecast_bill, member. py_unfold.
  cbn [py_get]. data_fields.
  repeat (py_case; py_unfold; data_fields); py_leaf; split; reflexivity.
Qed.

Lemma grid_return_step_value members p d o p' d' :
  grid_return_step (JObj members) (p, d) = (o, (p', d')) ->
  o = Return tt /\ d' = set_grid_return (forecast_grid_return members) d.
Proof.
  destruct d. unfold grid_return_step, forecast_grid_return, member. py_unfold.
  cbn [py_get]. data_fields.
  repeat (py_case; py_unfold; data_fields); py_leaf; split; reflexivity.
Qed.

(** A forecast block that runs to its end leaves the usage, the bill and
    the grid return read off the payload. *)
Lemma forecast_steps_fields members p d p' d' :
  forecast_steps rt w (JObj members) (p, d) = (Return tt, (p', d')) ->
  monthly_usage d' = forecast_usage members /\
  grid_consumption d' = forecast_usage members /\
  current_bill d' = forecast_bill members /\
  grid_return d' = forecast_grid_return members.
Proof.
  unfold forecast_steps. intros H.
  apply bind_returns in H. destruct H as ([] & [p1 d1] & H1 & H).
  apply bind_returns in H. destruct H as ([] & [p2 d2] & H2 & H).
  apply bind_returns in H. destruct H as ([] & [p3 d3] & H3 & H).
  apply bind_returns in H. destruct H as ([] & [p4 d4] & H4 & H).
  apply bind_returns in H. destruct H as ([] & [p5 d5] & H5 & H6).
  apply current_usage_step_value in H1. destruct H1 as [_ E1].
  apply current_bill_step_value in H2. destruct H2 as [_ E2].
  apply billing_dates_step_effect in H3. destruct H3 as [_ E3].
  apply rate_step_effect in H4. destruct H4 as (_ & E4 & _).
  apply daily_cost_step_effect in H5. destruct H5 as (_ & E5 & _).
  apply grid_return_step_value in H6. destruct H6 as [_ E6].
  generalize dependent (forecast_usage members).
  generalize dependent (forecast_bill members).
  generalize dependent (forecast_grid_return members).
  intros g E6 b E2 u E1.
  data_eq. repeat split.
Qed.

Lemma usage_block_series p d o p' d' :
  usage_block rt w (p, d) = (o, (p', d')) ->
  series_stored (daily_usage d) (daily_usage d') /\
  series_stored (daily_return d) (daily_return d').
Proof.
  destruct d as [gc gr mu cb bs be cr dc du dr].
  unfold usage_block, series_stored. py_unfold.
  destruct (get_usage_history rt w None None p) as [[j|e] q]; py_unfold.
  - repeat (py_case; py_unfold); py_leaf; split; auto.
  - py_leaf. split; left; reflexivity.
Qed.

End Fields.

Section Readings.
Variable rt : runtime.
Variable w : world.

Lemma forecast_steps_on_dict forecast_data p d p' d' :
  forecast_steps rt w forecast_data (p, d) = (Return tt, (p', d')) ->
  exists members, forecast_data = JObj members.
Proof.
  unfold forecast_steps. intros H.
  apply bind_returns in H. destruct H as ([] & s1 & H1 & _).
  destruct forecast_data; try (exists members; reflexivity);
    unfold current_usage_step in H1; py_unfold; cbn [py_get] in H1;
    discriminate H1.
Qed.

(** The reading the guarded forecast block leaves, from an empty one:
    empty still, or read off a payload. *)
Lemma guarded_forecast_fields p p1 d1 :
  try_except (forecast_block rt w)
    (logged_and_ignored ERROR "Error fetching bill forecast: ") (p, new_data)
  = (Return tt, (p1, d1)) ->
  d1 = new_data \/
  exists bill_forecast members,
    fst (get_bill_forecast rt w p) = Return bill_forecast /\
    py_get bill_forecast "data" (JObj []) = Return (JObj members) /\
    monthly_usage d1 = forecast_usage members /\
    grid_consumption d1 = forecast_usage members /\
    current_bill d1 = forecast_bill members /\
    grid_return d1 = forecast_grid_return members.
Proof.
  intros H. apply guarded_inv in H.
  destruct H as [[_ H]|[(e & p0 & _ & H & He & _)|(e & Ho & _)]];
    [| |discriminate Ho].
  - right. unfold forecast_block in H.
    apply bind_returns in H. destruct H as (j & [p2 d2] & H1 & H).
    apply bind_returns in H. destruct H as (fd & [p3 d3] & H2 & H).
    unfold call in H1. destruct (get_bill_forecast rt w p) as [o1 q] eqn:Hf.
    injection H1 as -> <- <-.
    unfold lift_outcome in H2. injection H2 as H2 <- <-.
    destruct (forecast_steps_on_dict _ _ _ _ _ H) as [members ->].
    exists j, members. split; [reflexivity|]. split; [exact H2|].
    exact (forecast_steps_fields rt w _ _ _ _ _ H).
  - left. apply forecast_block_effect in H. destruct H as (_ & _ & H).
    exact (H He).
Qed.

(** The reading returned, from the one the forecast block left and the
    one the usage block left. *)
Lemma get_all_data_stages p r p' :
  get_all_data rt w p = (Return r, p') ->
  exists p1 d1 d2,
    try_except (forecast_block rt w)
      (logged_and_ignored ERROR "Error fetching bill forecast: ") (p, new_data)
    = (Return tt, (p1, d1)) /\
    d2 = set_daily_return (daily_return d2) (set_daily_usage (daily_usage d2) d1) /\
    series_stored (daily_usage d1) (daily_usage d2) /\
    series_stored (daily_return d1) (daily_return d2) /\
    r = set_current_rate (current_rate r) d2.
Proof.
  intros H. apply get_all_data_returns in H.
  destruct H as (p1 & d1 & p2 & d2 & HF & HU & HB).
  exists p1, d1, d2. split; [exact HF|].
  apply guarded_inv in HU.
  apply guarded_inv in HB.
  assert (exists o q, usage_block rt w (p1, d1) = (o, (q, d2))) as (o & q & HU').
  { destruct HU as [[_ HU]|[(e & p0 & _ & HU & _)|(e & Ho & _)]];
      [| |discriminate Ho]; eauto. }
  assert (exists o q, bills_block rt w (p2, d2) = (o, (q, r))) as (o' & q' & HB').
  { destruct HB as [[_ HB]|[(e & p0 & _ & HB & _)|(e & Ho & _)]];
      [| |discriminate Ho]; eauto. }
  pose proof (usage_block_effect rt w _ _ _ _ _ HU') as [E2 _].
  pose proof (usage_block_series rt w _ _ _ _ _ HU') as [S1 S2].
  pose proof (bills_block_effect rt w _ _ _ _ _ HB') as [E3 _].
  repeat split; assumption.
Qed.

End Readings.

(** X11: in every reading that [get_all_data] returns,
    [grid_consumption] equals [monthly_usage]; so the grid-consumption
    sensor and the monthly-usage sensor of an entry report the same native
    value and are available together. *)
Theorem reading_consumption_is_usage rt w p r p' :
  get_all_data rt w p = (Return r, p') ->
  grid_consumption r = monthly_usage r /\
  forall entry s1 s2 super_available,
    In s1 (async_setup_entry entry) -> In s2 (async_setup_entry entry) ->
    key (entity_description s1) = SENSOR_GRID_CONSUMPTION ->
    key (entity_description s2) = SENSOR_MONTHLY_USAGE ->
    native_value s1 (Some r) = native_value s2 (Some r) /\
    available s1 super_available (Some r)
    = available s2 super_available (Some r).
Proof.
  intros H. apply get_all_data_stages in H.
  destruct H as (p1 & d1 & d2 & HF & E2 & _ & _ & E3).
  apply guarded_forecast_fields in HF.
  assert (grid_consumption d1 = monthly_usage d1) as A.
  { destruct HF as [->|(j & members & _ & _ & U & G & _)];
      [reflexivity|congruence]. }
  assert (grid_consumption r = monthly_usage r) as B.
  { rewrite E3, E2. destruct d1, d2, r. data_fields. exact A. }
  split; [exact B|].
  intros entry s1 s2 super_available H1 H2 K1 K2.
  unfold async_setup_entry in H1, H2. simpl in H1, H2.
  repeat (destruct H1 as [<-|H1]; [cbn in K1; try discriminate K1|]);
    [|contradiction].
  repeat (destruct H2 as [<-|H2]; [cbn in K2; try discriminate K2|]);
    [|contradiction].
  unfold available, native_value.
  cbn [entity_description new_sensor value_fn]. rewrite B.
  split; reflexivity.
Qed.

Lemma reading_consumption_is_usage_witness :
  let r := mk_data (JNum 500) (JNum 0) (JNum 500) (JNum 75) None None
                   (JNum (3 # 20)) JNull (JArr [ JNum 17; JNum 21 ]) JNull in
  let entry := mk_entry "user" "secret" "1234567890" in
  fst (get_all_data Exact.runtime full_service (Scenario.logged_in "Bearer t"))
  = Return r /\
  grid_consumption r = monthly_usage r /\
  forall s1 s2,
    nth_error (async_setup_entry entry) 0 = Some s1 ->
    nth_error (async_setup_entry entry) 2 = Some s2 ->
    native_value s1 (Some r) = native_value s2 (Some r).
Proof.
  cbv zeta.
  pose (run := get_all_data Exact.runtime full_service
                 (Scenario.logged_in "Bearer t")).
  assert (H : run = (Return (mk_data (JNum 500) (JNum 0) (JNum 500) (JNum 75)
                               None None (JNum (3 # 20)) JNull
                               (JArr [ JNum 17; JNum 21 ]) JNull),
                     snd run))
    by (vm_compute; reflexivity).
  pose proof (reading_consumption_is_usage
                Exact.runtime full_service _ _ _ H) as [A S].
  split; [exact (f_equal fst H)|]. split; [exact A|].
  intros s1 s2 H1 H2. injection H1 as <-. injection H2 as <-.
  refine (proj1 (S (mk_entry "user" "secret" "1234567890") _ _ true _ _ _ _));
    try reflexivity.
  - left. reflexivity.
  - right. right. left. reflexivity.
Defined.

(** X12: in every reading that [get_all_data] returns, [daily_usage] and
    [daily_return] are each unset or truthy: an empty series is never
    stored. *)
Theorem reading_series_not_empty rt w p r p' :
  get_all_data rt w p = (Return r, p') ->
  (daily_usage r = JNull \/ truthy (daily_usage r) = true) /\
  (daily_return r = JNull \/ truthy (daily_return r) = true).
Proof.
  intros H. apply get_all_data_stages in H.
  destruct H as (p1 & d1 & d2 & HF & E2 & S1 & S2 & E3).
  assert (daily_usage d1 = JNull /\ daily_return d1 = JNull) as [U1 U2].
  { apply guarded_inv in HF.
    destruct HF as [[_ HF]|[(e & p0 & _ & HF & _)|(e & Ho & _)]];
      [| |discriminate Ho];
      apply forecast_block_effect in HF; destruct HF as (U1 & U2 & _);
      split; assumption. }
  unfold series_stored in S1, S2. rewrite U1 in S1. rewrite U2 in S2.
  rewrite E3. destruct d2, r. data_fields. split; assumption.
Qed.

Lemma reading_series_not_empty_witness :
  let r := mk_data (JNum 500) (JNum 0) (JNum 500) (JNum 75) None None
                   (JNum (3 # 20)) JNull (JArr [ JNum 17; JNum 21 ]) JNull in
  fst (get_all_data Exact.runtime full_service (Scenario.logged_in "Bearer t"))
  = Return r /\
  (daily_usage r = JNull \/ truthy (daily_usage r) = true) /\
  (daily_return r = JNull \/ truthy (daily_return r) = true).
Proof.
  cbv zeta.
  pose (run := get_all_data Exact.runtime full_service
                 (Scenario.logged_in "Bearer t")).
  assert (H : run = (Return (mk_data (JNum 500) (JNum 0) (JNum 500) (JNum 75)
                               None None (JNum (3 # 20)) JNull
                               (JArr [ JNum 17; JNum 21 ]) JNull),
                     snd run))
    by (vm_compute; reflexivity).
  split; [exact (f_equal fst H)|].
  exact (reading_series_not_empty Exact.runtime full_service _ _ _ H).
Defined.

(** X13: when [get_all_data] returns and the bill forecast was fetched
    with a [data] object, the reading has [monthly_usage] and
    [grid_consumption] equal to [currentUsageKwh], [current_bill] equal to
    [currentBillAmount] or, when that is absent or [None], to
    [projectedBillAmount], and [grid_return] equal to
    [netMeteringExportKwh] (0.0 when absent) or, when that is [None], to
    [gridReturnKwh] (0.0 when absent). *)
Theorem reading_forecast_fields rt w p r p' bill_forecast members :
  get_all_data rt w p = (Return r, p') ->
  fst (get_bill_forecast rt w p) = Return bill_forecast ->
  py_get bill_forecast "data" (JObj []) = Return (JObj members) ->
  monthly_usage r = forecast_usage members /\
  grid_consumption r = forecast_usage members /\
  current_bill r = forecast_bill members /\
  grid_return r = forecast_grid_return members.
Proof.
  intros H Hf Hd. apply get_all_data_stages in H.
  destruct H as (p1 & d1 & d2 & HF & E2 & _ & _ & E3).
  assert (monthly_usage d1 = forecast_usage members /\
          grid_consumption d1 = forecast_usage members /\
          current_bill d1 = forecast_bill members /\
          grid_return d1 = forecast_grid_return members) as A.
  { apply guarded_inv in HF.
    destruct HF as [[_ HF]|[(e & p0 & _ & HF & He & _)|(e & Ho & _)]];
      [| |discriminate Ho].
    - unfold forecast_block in HF.
      apply bind_returns in HF. destruct HF as (j & [p2 d2'] & H1 & HF).
      apply bind_returns in HF. destruct HF as (fd & [p3 d3] & H2 & HF).
      unfold call in H1. destruct (get_bill_forecast rt w p) as [o1 q].
      injection H1 as -> <- <-. cbn [fst] in Hf. injection Hf as ->.
      unfold lift_outcome in H2. injection H2 as H2 <- <-.
      rewrite Hd in H2. injection H2 as <-.
      exact (forecast_steps_fields rt w _ _ _ _ _ HF).
    - exfalso. unfold forecast_block in HF.
      apply bind_inv in HF.
      destruct HF as [(j & [p2 d2'] & H1 & HF)|(e' & H1 & [= <-])].
      + unfold call in H1. destruct (get_bill_forecast rt w p) as [o1 q].
        injection H1 as -> <- <-. cbn [fst] in Hf. injection Hf as ->.
        unfold bind, lift_outcome in HF. rewrite Hd in HF.
        pose proof (forecast_steps_framed rt w _ _ _ _ _ _ HF) as (Ho & _).
        cbn [no_api] in Ho. congruence.
      + unfold call in H1. destruct (get_bill_forecast rt w p) as [o1 q].
        injection H1 as -> _ _. discriminate Hf. }
  destruct A as (A1 & A2 & A3 & A4).
  rewrite E3, E2. destruct d1, d2, r. data_fields.
  repeat split; assumption.
Qed.

Lemma reading_forecast_fields_witness :
  let r := mk_data (JNum 500) (JNum 0) (JNum 500) (JNum 75) None None
                   (JNum (3 # 20)) JNull (JArr [ JNum 17; JNum 21 ]) JNull in
  let members := [ ("currentUsageKwh", JNum 500); ("currentBillAmount", JNum 75) ] in
  fst (get_all_data Exact.runtime full_service (Scenario.logged_in "Bearer t"))
  = Return r /\
  monthly_usage r = forecast_usage members /\
  grid_consumption r = forecast_usage members /\
  current_bill r = forecast_bill members /\
  grid_return r = forecast_grid_return members.
Proof.
  cbv zeta.
  pose (run := get_all_data Exact.runtime full_service
                 (Scenario.logged_in "Bearer t")).
  assert (H : run = (Return (mk_data (JNum 500) (JNum 0) (JNum 500) (JNum 75)
                               None None (JNum (3 # 20)) JNull
                               (JArr [ JNum 17; JNum 21 ]) JNull),
                     snd run))
    by (vm_compute; reflexivity).
  split; [exact (f_equal fst H)|].
  refine (reading_forecast_fields
            Exact.runtime full_service _ _ _
            (Scenario.envelope
               [ ("currentUsageKwh", JNum 500); ("currentBillAmount", JNum 75) ])
            _ H _ _); reflexivity.
Defined.

(** X14: [_api_request] never changes the token, the credentials or the
    account number, and logs nothing.  Without a token it leaves the whole
    process as it is; with one it ensures the session and sends one
    request; a client that has a session is left as it is. *)
Theorem api_request_keeps_client rt w endpoint params p :
  let p' := snd (_api_request rt w endpoint params p) in
  _token (self p') = _token (self p) /\
  _username (self p') = _username (self p) /\
  _password (self p') = _password (self p) /\
  _account_number (self p') = _account_number (self p) /\
  logged p' = logged p /\
  (forall s, _session (self p) = Some s -> self p' = self p) /\
  (truthy (_token (self p)) = false -> p' = p) /\
  (truthy (_token (self p)) = true ->
   self p' = ensure_session (self p) /\
   wire p' = api_request_of (self p) endpoint params :: wire p).
Proof.
  cbv zeta.
  destruct (api_request_client rt w endpoint params p) as (L & Ht & Hf).
  pose proof (api_request_client_step rt w endpoint params p) as S.
  assert (forall a a', client_step a a' ->
            _token a' = _token a /\ _username a' = _username a /\
            _password a' = _password a /\
            _account_number a' = _account_number a /\
            (forall s, _session a = Some s -> a' = a)) as K.
  { intros a a' [->| ->]; unfold ensure_session;
      destruct (_session a) eqn:Hs; repeat split; try discriminate. }
  destruct (K _ _ S) as (K1 & K2 & K3 & K4 & K5).
  repeat split; try assumption.
  - apply Ht. assumption.
  - apply api_request_wire. assumption.
Qed.

(** X15: [get_all_data] never changes the token, the credentials or the
    account number, whatever the endpoints answer and whether it returns
    or raises; a client that has a session is left as it is. *)
Theorem get_all_data_keeps_client rt w p :
  let p' := snd (get_all_data rt w p) in
  _token (self p') = _token (self p) /\
  _username (self p') = _username (self p) /\
  _password (self p') = _password (self p) /\
  _account_number (self p') = _account_number (self p) /\
  (forall s, _session (self p) = Some s -> self p' = self p).
Proof.
  cbv zeta. pose proof (get_all_data_client_step rt w p) as S.
  destruct S as [->| ->]; unfold ensure_session;
    destruct (_session (self p)) eqn:Hs; repeat split; try discriminate.
Qed.

(** X16: with a token held, a [get_all_data] that returns has sent
    exactly three requests, in this order: bill forecast, usage history
    (without dates), bill history, each with the default query. *)
Theorem get_all_data_requests rt w p r p' :
  truthy (_token (self p)) = true ->
  get_all_data rt w p = (Return r, p') ->
  self p' = ensure_session (self p) /\
  wire p'
  = api_request_of (self p) BILL_HISTORY_ENDPOINT None
      :: api_request_of (self p) USAGE_HISTORY_ENDPOINT None
      :: api_request_of (self p) BILL_FORECAST_ENDPOINT None
      :: wire p.
Proof.
  intros Htok H. apply get_all_data_returns in H.
  destruct H as (p1 & d1 & p2 & d2 & HF & HU & HB).
  apply (guarded_process _ (get_bill_forecast rt w)) in HF;
    [|apply forecast_block_process].
  apply (guarded_process _ (get_usage_history rt w None None)) in HU;
    [|apply usage_block_process].
  apply (guarded_process _ (get_bill_history rt w)) in HB;
    [|apply bills_block_process].
  destruct HF as [S1 W1], HU as [S2 W2], HB as [S3 W3].
  unfold get_bill_forecast in *. unfold get_bill_history in *.
  change (get_usage_history rt w None None)
    with (_api_request rt w USAGE_HISTORY_ENDPOINT (Some ∅)) in *.
  destruct (api_request_client rt w BILL_FORECAST_ENDPOINT None p) as (_ & T1 & _).
  specialize (T1 Htok). rewrite T1 in S1.
  rewrite (api_request_wire rt w _ _ _ Htok) in W1.
  assert (truthy (_token (self p1)) = true) as Htok1
      by (rewrite S1, ensure_session_token; exact Htok).
  destruct (api_request_client rt w USAGE_HISTORY_ENDPOINT (Some ∅) p1) as (_ & T2 & _).
  specialize (T2 Htok1). rewrite T2 in S2.
  rewrite (api_request_wire rt w _ _ _ Htok1) in W2.
  assert (truthy (_token (self p2)) = true) as Htok2
      by (rewrite S2, ensure_session_token; exact Htok1).
  destruct (api_request_client rt w BILL_HISTORY_ENDPOINT None p2) as (_ & T3 & _).
  specialize (T3 Htok2). rewrite T3 in S3.
  rewrite (api_request_wire rt w _ _ _ Htok2) in W3.
  rewrite S1, ensure_session_idem in S2.
  rewrite S2, ensure_session_idem in S3.
  split; [exact S3|].
  rewrite W3, W2, W1, S2, S1.
  rewrite !api_request_of_ensure_session. reflexivity.
Qed.

Lemma get_all_data_requests_witness :
  let p := Scenario.logged_in "Bearer t" in
  wire (snd (get_all_data Exact.runtime full_service p))
  = [ api_request_of (self p) BILL_HISTORY_ENDPOINT None;
      api_request_of (self p) USAGE_HISTORY_ENDPOINT None;
      api_request_of (self p) BILL_FORECAST_ENDPOINT None ].
Proof.
  cbv zeta.
  pose (run := get_all_data Exact.runtime full_service
                 (Scenario.logged_in "Bearer t")).
  assert (H : run = (Return (mk_data (JNum 500) (JNum 0) (JNum 500) (JNum 75)
                               None None (JNum (3 # 20)) JNull
                               (JArr [ JNum 17; JNum 21 ]) JNull),
                     snd run))
    by (vm_compute; reflexivity).
  exact (proj2 (get_all_data_requests
                  Exact.runtime full_service (Scenario.logged_in "Bearer t")
                  _ _ eq_refl H)).
Defined.

(** X17: without a token, [get_all_data] sends nothing, returns the
    empty reading, and logs the three failures: the bill forecast's as an
    error, the two histories' at debug level. *)
Theorem get_all_data_unauthenticated rt w p :
  truthy (_token (self p)) = false ->
  let complaint := "Not authenticated - call authenticate() first" in
  get_all_data rt w p
  = (Return new_data,
     mk_process (self p) (wire p)
       ((DEBUG, "Error fetching bill history: " ++ complaint)
          :: (DEBUG, "Error fetching usage history: " ++ complaint)
          :: (ERROR, "Error fetching bill forecast: " ++ complaint)
          :: logged p)).
Proof.
  intros Htok. cbv zeta.
  set (complaint := "Not authenticated - call authenticate() first").
  set (err := DominionEnergyApiError complaint).
  assert (forall q, truthy (_token (self q)) = false ->
            get_bill_forecast rt w q = (Raise err, q) /\
            get_usage_history rt w None None q = (Raise err, q) /\
            get_bill_history rt w q = (Raise err, q)) as Hfetch.
  { intros q Hq. repeat split; apply api_request_unauthenticated; exact Hq. }
  destruct (Hfetch p Htok) as (F1 & _ & _).
  pose proof (guarded_fetch_fails _ ERROR "Error fetching bill forecast: "
                _ _ _ _ (forecast_block_fetch_fails rt w _ new_data _ _ F1) eq_refl)
    as G1.
  set (p1 := with_record ERROR ("Error fetching bill forecast: " ++ str_of_exn err) p)
    in *.
  destruct (Hfetch p1 Htok) as (_ & F2 & _).
  pose proof (guarded_fetch_fails _ DEBUG "Error fetching usage history: "
                _ _ _ _ (usage_block_fetch_fails rt w _ new_data _ _ F2) eq_refl)
    as G2.
  set (p2 := with_record DEBUG ("Error fetching usage history: " ++ str_of_exn err) p1)
    in *.
  destruct (Hfetch p2 Htok) as (_ & _ & F3).
  pose proof (guarded_fetch_fails _ DEBUG "Error fetching bill history: "
                _ _ _ _ (bills_block_fetch_fails rt w _ new_data _ _ F3) eq_refl)
    as G3.
  unfold get_all_data, get_all_data_body, bind.
  rewrite G1, G2, G3. reflexivity.
Qed.

Lemma get_all_data_unauthenticated_witness :
  fst (get_all_data Exact.runtime full_service Scenario.fresh) = Return new_data /\
  wire (snd (get_all_data Exact.runtime full_service Scenario.fresh)) = [].
Proof.
  pose proof (get_all_data_unauthenticated
                Exact.runtime full_service Scenario.fresh eq_refl) as H.
  cbv zeta in H. rewrite H. split; reflexivity.
Defined.

(** X18: reading a billing date given as a string never raises, sends
    nothing and leaves the client as it is.  An empty string changes
    nothing.  For a non-empty one the field is stored, and nothing else
    changes, when [fromisoformat] reads the string with [Z] replaced by
    [+00:00]; when it does not, the reading is left as it was and the
    string is logged as a warning. *)
Theorem parse_date_never_aborts rt s label store p d :
  let run := parse_date rt (JStr s) label store (p, d) in
  fst run = Return tt /\
  self (fst (snd run)) = self p /\ wire (fst (snd run)) = wire p /\
  (s = "" -> snd run = (p, d)) /\
  (s <> "" ->
   forall parsed,
     fromisoformat rt (replace_Z s) = Some parsed ->
     snd run = (p, store (Some parsed) d)) /\
  (s <> "" ->
   fromisoformat rt (replace_Z s) = None ->
   snd run = (with_record WARNING (label ++ s) p, d)).
Proof.
  cbv zeta. unfold parse_date, py_fromisoformat, with_record. py_unfold.
  cbn [truthy py_replace_Z].
  destruct (String.eqb_spec s "") as [->|Hs]; cbn [negb]; py_unfold.
  - repeat split; try reflexivity; intros []; reflexivity.
  - destruct (fromisoformat rt (replace_Z s)) as [parsed|]; py_unfold;
      cbn [self wire logged format];
      repeat split; try reflexivity; try contradiction; try discriminate.
    intros _ ? [= <-]. reflexivity.
Qed.

Lemma parse_date_never_aborts_witness :
  snd (parse_date Exact.runtime (JStr "2024-01-01T18:00:00Z")
         "Could not parse billing start date: " set_billing_period_start
         (Scenario.fresh, new_data))
  = (Scenario.fresh,
     set_billing_period_start
       (Some (mk_datetime 2024 1 1 18 0 0 0 (Some 0))) new_data) /\
  snd (parse_date Exact.runtime (JStr "yesterday")
         "Could not parse billing start date: " set_billing_period_start
         (Scenario.fresh, new_data))
  = (with_record WARNING "Could not parse billing start date: yesterday"
       Scenario.fresh,
     new_data).
Proof.
  split.
  - refine (proj1 (proj2 (proj2 (proj2 (proj2
              (parse_date_never_aborts
                 Exact.runtime "2024-01-01T18:00:00Z"
                 "Could not parse billing start date: "
                 set_billing_period_start Scenario.fresh new_data)))))
              _ _ _); [discriminate|vm_compute; reflexivity].
  - refine (proj2 (proj2 (proj2 (proj2 (proj2
              (parse_date_never_aborts
                 Exact.runtime "yesterday"
                 "Could not parse billing start date: "
                 set_billing_period_start Scenario.fresh new_data)))))
              _ _); [discriminate|vm_compute; reflexivity].
Defined.

(** X19: the back-fill of the rate.  When no rate is set, or the rate is
    zero, and the first entry of the bill history has a numeric non-zero
    [totalAmount] and a positive [totalUsageKwh]: if the division does not
    overflow, the bill-history block sets [current_rate] to
    [round(totalAmount / totalUsageKwh, 4)] and changes nothing else of
    the reading; if it does, the block raises [OverflowError] and leaves
    the reading as it was. *)
Theorem bills_block_backfills rt w p d bill_history latest_bill
        bill_amount bill_usage a u :
  truthy (current_rate d) = false ->
  fst (get_bill_history rt w p) = Return bill_history ->
  latest_bill_of bill_history = Return latest_bill ->
  py_get latest_bill "totalAmount" JNull = Return bill_amount ->
  py_get latest_bill "totalUsageKwh" JNull = Return bill_usage ->
  as_number bill_amount = Some a -> as_number bill_usage = Some u ->
  Qnum a <> 0 -> 0 < Qnum u ->
  (truediv_overflows rt a u = false ->
   fst (bills_block rt w (p, d)) = Return tt /\
   snd (snd (bills_block rt w (p, d)))
   = set_current_rate (JNum (round_ndigits rt (truediv rt a u) 4)) d) /\
  (truediv_overflows rt a u = true ->
   fst (bills_block rt w (p, d)) = Raise OverflowError /\
   snd (snd (bills_block rt w (p, d))) = d).
Proof.
  intros Hrate Hfetch Hlatest Hamount Husage Ha Hu Ha0 Hu0.
  unfold latest_bill_of in Hlatest.
  destruct (py_get bill_history "data" (JObj [])) as [hd|] eqn:Hd;
    [|discriminate Hlatest].
  destruct (py_get hd "bills" (JArr [])) as [bills|] eqn:Hb;
    [|discriminate Hlatest].
  assert (truthy bills = true) as Tb.
  { destruct bills as [| | | [] | [] |]; cbn in Hlatest; try discriminate Hlatest;
      reflexivity. }
  assert (truthy latest_bill = true) as Tl.
  { destruct latest_bill as [| | | | |[]]; cbn in Hamount; try discriminate Hamount.
    - injection Hamount as <-. discriminate Ha.
    - reflexivity. }
  assert (truthy bill_amount = true) as Ta.
  { rewrite (truthy_as_number _ _ Ha).
    apply negb_true_iff. apply Z.eqb_neq. exact Ha0. }
  assert (truthy bill_usage = true) as Tu.
  { rewrite (truthy_as_number _ _ Hu).
    apply negb_true_iff. apply Z.eqb_neq. lia. }
  unfold bills_block, py_gt0, py_truediv, py_round. py_unfold.
  destruct (get_bill_history rt w p) as [o q]. cbn [fst] in Hfetch. subst o.
  py_unfold. rewrite Hd. py_unfold. rewrite Hb. py_unfold. rewrite Tb.
  py_unfold. rewrite Hlatest. py_unfold. rewrite Tl, Hrate. cbn [andb negb].
  py_unfold. rewrite Hamount. py_unfold. rewrite Husage. py_unfold.
  rewrite Ta, Tu, Hu. py_unfold.
  replace (0 <? Qnum u) with true by (symmetry; apply Z.ltb_lt; exact Hu0).
  rewrite Ha.
  replace (Qnum u =? 0) with false by (symmetry; apply Z.eqb_neq; lia).
  split; intros ->; cbn [as_number]; py_unfold; split; reflexivity.
Qed.

Lemma bills_block_backfills_witness :
  snd (snd (bills_block Exact.runtime tiny_rate
              (Scenario.logged_in "Bearer t", new_data)))
  = set_current_rate (JNum (1 # 10)) new_data /\
  fst (bills_block Exact.runtime huge_bill
         (Scenario.logged_in "Bearer t", new_data))
  = Raise OverflowError.
Proof.
  split.
  - refine (proj2 (proj1 (bills_block_backfills
                     Exact.runtime tiny_rate (Scenario.logged_in "Bearer t")
                     new_data
                     (Scenario.envelope
                        [ ("bills",
                           JArr [ JObj [ ("totalAmount", JNum 100);
                                         ("totalUsageKwh", JNum 1000) ] ]) ])
                     (JObj [ ("totalAmount", JNum 100);
                             ("totalUsageKwh", JNum 1000) ])
                     (JNum 100) (JNum 1000) 100%Q 1000%Q
                     _ _ _ _ _ _ _ _ _) _));
      try reflexivity; cbn; lia.
  - refine (proj1 (proj2 (bills_block_backfills
                     Exact.runtime huge_bill (Scenario.logged_in "Bearer t")
                     new_data
                     (Scenario.envelope
                        [ ("bills",
                           JArr [ JObj [ ("totalAmount", JNum (inject_Z (10 ^ 400)));
                                         ("totalUsageKwh", JNum 1000) ] ]) ])
                     (JObj [ ("totalAmount", JNum (inject_Z (10 ^ 400)));
                             ("totalUsageKwh", JNum 1000) ])
                     (JNum (inject_Z (10 ^ 400))) (JNum 1000)
                     (inject_Z (10 ^ 400)) 1000%Q
                     _ _ _ _ _ _ _ _ _) _));
      try reflexivity; try (vm_compute; reflexivity).
    vm_compute. discriminate.
Defined.

(** ** Ownership of the session *)

Lemma client_step_session a a' : client_step a a' -> session_step a a'.
Proof. intros [->| ->]; [left|right]; reflexivity. Qed.

Lemma session_part_ensure a :
  session_part (ensure_session a)
  = match _session a with
    | None => (Some NewSession, true)
    | Some s => (Some s, _own_session a)
    end.
Proof. unfold ensure_session, session_part. destruct (_session a) eqn:H; [rewrite H|]; reflexivity. Qed.

Lemma session_step_trans a b c :
  session_step a b -> session_step b c -> session_step a c.
Proof.
  unfold session_step. rewrite !session_part_ensure. unfold session_part.
  destruct (_session a) as [sa|], (_session b) as [sb|];
    intros [H1|H1] [H2|H2]; first [left; congruence | right; congruence].
Qed.

Lemma authenticate_session rt w p :
  session_step (self p) (self (snd (authenticate rt w p))).
Proof.
  right. unfold authenticate, session_part, ensure_session. py_unfold.
  repeat (py_case; py_unfold);
    cbn [snd self _session _own_session with_token with_session];
    try reflexivity; try congruence.
Qed.

Lemma validate_credentials_session rt w p :
  session_step (self p) (self (snd (validate_credentials rt w p))).
Proof.
  pose proof (authenticate_session rt w p) as S1.
  unfold validate_credentials, try_except, bind.
  destruct (authenticate rt w p) as [[b|e] p1]; cbn [snd] in S1.
  - pose proof (client_step_session _ _
                  (api_request_client_step rt w BILL_FORECAST_ENDPOINT None p1)) as S2.
    unfold get_bill_forecast.
    destruct (_api_request rt w BILL_FORECAST_ENDPOINT None p1) as [[j|e] p2];
      cbn [snd] in S2; cbn [dispatch ret snd].
    + exact (session_step_trans _ _ _ S1 S2).
    + destruct (isinstance_AuthError e); [exact (session_step_trans _ _ _ S1 S2)|].
      destruct (isinstance_ApiError e);
        exact (session_step_trans _ _ _ S1 S2).
  - cbn [dispatch ret].
    destruct (isinstance_AuthError e); [exact S1|].
    destruct (isinstance_ApiError e); exact S1.
Qed.

Lemma close_effect p closed :
  snd (close (p, closed))
  = match session_part (self p) with
    | (Some s, true) =>
        (mk_process (with_session None true (self p)) (wire p) (logged p),
         s :: closed)
    | _ => (p, closed)
    end.
Proof.
  unfold close, session_part.
  destruct (_own_session (self p)), (_session (self p)); reflexivity.
Qed.

Lemma is_close op : op = OpClose \/ op <> OpClose.
Proof. destruct op; (left; reflexivity) || (right; discriminate). Qed.

(** Every call of the client moves the session by [session_step]. *)
Lemma perform_session rt w op p closed :
  op <> OpClose ->
  session_step (self p) (self (fst (perform rt w op (p, closed)))) /\
  snd (perform rt w op (p, closed)) = closed.
Proof.
  intros Hop. destruct op; try contradiction; unfold perform, on_client.
  - pose proof (authenticate_session rt w p) as S.
    destruct (authenticate rt w p) as [o q]. split; [exact S|reflexivity].
  - split; [left; reflexivity|reflexivity].
  - pose proof (client_step_session _ _
                  (api_request_client_step rt w BILL_FORECAST_ENDPOINT None p)) as S.
    unfold get_bill_forecast.
    destruct (_api_request rt w BILL_FORECAST_ENDPOINT None p) as [o q].
    split; [exact S|reflexivity].
  - unfold get_usage_history.
    match goal with
    | |- context [_api_request rt w ?e ?ps p] =>
        pose proof (client_step_session _ _
                      (api_request_client_step rt w e ps p)) as S;
        destruct (_api_request rt w e ps p) as [o q]
    end.
    split; [exact S|reflexivity].
  - pose proof (client_step_session _ _
                  (api_request_client_step rt w BILL_HISTORY_ENDPOINT None p)) as S.
    unfold get_bill_history.
    destruct (_api_request rt w BILL_HISTORY_ENDPOINT None p) as [o q].
    split; [exact S|reflexivity].
  - pose proof (client_step_session _ _ (get_all_data_client_step rt w p)) as S.
    destruct (get_all_data rt w p) as [o q]. split; [exact S|reflexivity].
  - pose proof (validate_credentials_session rt w p) as S.
    destruct (validate_credentials rt w p) as [o q]. split; [exact S|reflexivity].
Qed.

(** X20: a session given to the constructor is never closed and never
    replaced: after any sequence of calls of the client, [close] included,
    against any servers, the client holds the same session, does not own
    it, and no session has been closed. *)
Theorem supplied_session_is_never_closed rt script username password account s :
  let h := perform_all rt script
             (boot (new_api username password account (Some s)), []) in
  snd h = [] /\
  _session (self (fst h)) = Some s /\
  _own_session (self (fst h)) = false.
Proof.
  cbv zeta.
  assert (forall script h,
            snd h = [] /\ session_part (self (fst h)) = (Some s, false) ->
            let h' := perform_all rt script h in
            snd h' = [] /\ session_part (self (fst h')) = (Some s, false)) as Inv.
  { clear. induction script as [|[w op] script IH]; intros [p closed] [Hc Hs];
      cbn [fst snd] in *; [split; assumption|].
    unfold perform_all. cbn [fold_left fst snd]. apply IH.
    destruct (is_close op) as [->|Hop].
    - unfold perform. rewrite close_effect, Hs. cbn [fst snd].
      split; assumption.
    - destruct (perform_session rt w op p closed Hop) as [S C].
      split; [congruence|].
      unfold session_step, ensure_session in S.
      unfold session_part in Hs. injection Hs as Hs1 Hs2.
      rewrite Hs1 in S. destruct S as [S|S]; rewrite S;
        unfold session_part; congruence. }
  specialize (Inv script (boot (new_api username password account (Some s)), [])).
  destruct Inv as [C S]; [split; reflexivity|].
  unfold session_part in S. injection S as S1 S2. repeat split; assumption.
Qed.

(** X21: a client created without a session only ever holds a session it
    created and owns; [close] then closes that session and leaves the
    client without one, and a second [close] does nothing. *)
Theorem own_session_is_closed_by_close rt script username password account :
  let h := perform_all rt script
             (boot (new_api username password account None), []) in
  Forall (fun s => s = NewSession) (snd h) /\
  (_session (self (fst h)) = None \/
   session_part (self (fst h)) = (Some NewSession, true)) /\
  (forall w,
      _session (self (fst (perform rt w OpClose h))) = None /\
      (_session (self (fst h)) = Some NewSession ->
       snd (perform rt w OpClose h) = NewSession :: snd h) /\
      perform rt w OpClose (perform rt w OpClose h) = perform rt w OpClose h).
Proof.
  cbv zeta.
  assert (forall script h,
            Forall (fun s => s = NewSession) (snd h) /\
            (_session (self (fst h)) = None \/
             session_part (self (fst h)) = (Some NewSession, true)) ->
            let h' := perform_all rt script h in
            Forall (fun s => s = NewSession) (snd h') /\
            (_session (self (fst h')) = None \/
             session_part (self (fst h')) = (Some NewSession, true))) as Inv.
  { clear. induction script as [|[w op] script IH]; intros [p closed] [Hc Hs];
      cbn [fst snd] in *; [split; assumption|].
    unfold perform_all. cbn [fold_left fst snd]. apply IH.
    destruct (is_close op) as [->|Hop].
    - unfold perform. rewrite close_effect.
      destruct Hs as [Hs|Hs].
      + unfold session_part. rewrite Hs.
        destruct (_own_session (self p)); cbn [fst snd];
          (split; [exact Hc|left; exact Hs]).
      + rewrite Hs. cbn [fst snd self _session with_session].
        split; [constructor; [reflexivity|exact Hc]|left; reflexivity].
    - destruct (perform_session rt w op p closed Hop) as [S C].
      split; [rewrite C; exact Hc|].
      unfold session_step, session_part, ensure_session in S.
      destruct Hs as [Hs|Hs].
      + rewrite Hs in S. destruct S as [S|S]; injection S as S1 S2.
        * left. exact S1.
        * right. unfold session_part. cbn in S1, S2. congruence.
      + unfold session_part in Hs. injection Hs as Hs1 Hs2.
        rewrite Hs1 in S. right. unfold session_part.
        destruct S as [S|S]; injection S as S1 S2; congruence. }
  specialize (Inv script (boot (new_api username password account None), [])).
  destruct Inv as [C S]; [split; [constructor|left; reflexivity]|].
  split; [exact C|]. split; [exact S|].
  intros w.
  destruct (perform_all rt script _) as [p closed]. cbn [fst snd] in *.
  unfold perform. rewrite !close_effect.
  destruct S as [S|S].
  - unfold session_part. rewrite S.
    destruct (_own_session (self p)) eqn:Ho; cbn [fst snd];
      rewrite ?close_effect; unfold session_part; rewrite ?S, ?Ho;
      repeat split; try assumption; discriminate.
  - rewrite S. cbn [fst snd]. rewrite close_effect. unfold session_part.
    cbn [self _session _own_session with_session]. repeat split.
Qed.

Lemma validate_credentials_raises rt w p e :
  fst (validate_credentials rt w p) = Raise e ->
  isinstance_ApiError e = false /\ isinstance_ClientError e = false.
Proof.
  pose proof (authenticate_raises rt w p) as HA.
  unfold validate_credentials, try_except, bind.
  destruct (authenticate rt w p) as [[b|ea] p1]; cbn [fst] in HA.
  - pose proof (api_request_no_client_error rt w BILL_FORECAST_ENDPOINT None p1) as HF.
    unfold get_bill_forecast.
    destruct (_api_request rt w BILL_FORECAST_ENDPOINT None p1) as [[j|ef] p2];
      cbn [fst] in HF; cbn [dispatch ret fst].
    + discriminate.
    + destruct (isinstance_AuthError ef); [discriminate|].
      destruct (isinstance_ApiError ef) eqn:Hapi; [discriminate|].
      unfold raise. cbn [fst]. intros [= <-]. split; [exact Hapi|].
      apply HF. reflexivity.
  - cbn [dispatch ret].
    destruct (HA ea eq_refl) as [Hc Ha].
    destruct (isinstance_AuthError ea) eqn:Hauth; [discriminate|].
    destruct (isinstance_ApiError ea) eqn:Hapi; [discriminate|].
    unfold raise. cbn [fst]. intros [= <-]. split; assumption.
Qed.

Lemma get_all_data_then_log_no_api rt w p e (msg : DominionEnergyData -> string) :
  fst ((do data <- get_all_data rt w;
        do_ log DEBUG (msg data);
        ret data) p) = Raise e ->
  isinstance_ApiError e = false.
Proof.
  unfold bind. pose proof (get_all_data_no_api rt w p) as H.
  destruct (get_all_data rt w p) as [[r|e'] q]; cbn [fst] in *.
  - unfold log, modify, ret. discriminate.
  - intros [= <-]. apply H. reflexivity.
Qed.

(** ** The coordinator *)

Lemma api_keeps_wire c :
  coordinator_wire (snd (api c)) = coordinator_wire c /\
  coordinator_logged (snd (api c)) = coordinator_logged c /\
  config_entry (snd (api c)) = config_entry c.
Proof. unfold api. destruct (coordinator_api c); repeat split. Qed.

(** X22: [_async_update_data] never raises [UpdateFailed]:
    [authenticate] raises no [DominionEnergyApiError] other than
    [DominionEnergyAuthError], and [get_all_data] lets none out. *)
Theorem update_never_fails_with_update_failed rt w c msg :
  fst (_async_update_data rt w c) <> Fails (UpdateFailed msg).
Proof.
  unfold _async_update_data.
  destruct (api c) as [a c1].
  set (p0 := mk_process a (coordinator_wire c1) (coordinator_logged c1)).
  unfold bind at 1.
  pose proof (authenticate_raises rt w p0) as HA.
  destruct (authenticate rt w p0) as [[b|e] p1]; cbn [fst] in HA.
  - match goal with
    | |- context [?body p1] =>
        match body with
        | bind (get_all_data rt w) _ =>
            pose proof (get_all_data_then_log_no_api rt w p1) as HG;
            destruct (body p1) as [[r|e] p2] eqn:Hb
        end
    end.
    + cbn [fst]. discriminate.
    + specialize (HG e (fun data =>
          "Fetched Dominion Energy data: consumption="
            ++ format rt (grid_consumption data) ++ " kWh, return="
            ++ format rt (grid_return data) ++ " kWh, bill=$"
            ++ format rt (current_bill data))).
      cbv beta in HG. rewrite Hb in HG. specialize (HG eq_refl).
      destruct (isinstance_AuthError e) eqn:Hauth; cbn [fst]; [discriminate|].
      rewrite HG. cbn [fst]. discriminate.
  - destruct (HA e eq_refl) as [_ Ha].
    destruct (isinstance_AuthError e) eqn:Hauth; cbn [fst]; [discriminate|].
    destruct (isinstance_ApiError e) eqn:Hapi; cbn [fst]; [|discriminate].
    specialize (Ha eq_refl). discriminate Ha.
Qed.

(** X23: [_async_update_data] raises [ConfigEntryAuthFailed] exactly
    when [authenticate] raises a [DominionEnergyAuthError], with the
    message [Authentication failed: <error>]; once [authenticate] has
    returned, the update returns the reading exactly when [get_all_data]
    returns it, so an HTTP 401 from a data endpoint starts no
    re-authentication. *)
Theorem update_reauth_only_from_login rt w c :
  let p0 := mk_process (fst (api c)) (coordinator_wire c) (coordinator_logged c) in
  (forall msg,
      fst (_async_update_data rt w c) = Fails (ConfigEntryAuthFailed msg) <->
      exists e,
        fst (authenticate rt w p0) = Raise e /\
        isinstance_AuthError e = true /\
        msg = "Authentication failed: " ++ str_of_exn e) /\
  (forall b p1 r,
      authenticate rt w p0 = (Return b, p1) ->
      (fst (_async_update_data rt w c) = Done r <->
       fst (get_all_data rt w p1) = Return r)).
Proof.
  cbv zeta. pose proof (api_keeps_wire c) as (Hw & Hl & _).
  unfold _async_update_data.
  destruct (api c) as [a c1]. cbn [fst snd] in *. rewrite Hw, Hl.
  set (p0 := mk_process a (coordinator_wire c) (coordinator_logged c)).
  unfold bind.
  destruct (authenticate rt w p0) as [[b|e] p1] eqn:HA.
  -     pose proof (get_all_data_no_api rt w p1) as HG.
    destruct (get_all_data rt w p1) as [[r|e] p2] eqn:HGd; cbn [fst] in *.
    + unfold log, modify, ret. cbn [fst]. split.
      * intros msg. split; [discriminate|].
        intros (e & He & _). discriminate He.
      * intros b' p1' r' [= <- <-]. rewrite HGd. cbn [fst].
        split; congruence.
    + specialize (HG e eq_refl).
      assert (isinstance_AuthError e = false) as Hauth
          by (destruct e; try reflexivity; discriminate HG).
      rewrite Hauth, HG. cbn [fst]. split.
      * intros msg. split; [discriminate|].
        intros (e' & He & _). discriminate He.
      * intros b' p1' r' [= <- <-]. rewrite HGd. cbn [fst].
        split; discriminate.
  - cbn [fst]. split.
    + intros msg. destruct (isinstance_AuthError e) eqn:Hauth; cbn [fst].
      * split.
        -- intros [= <-]. exists e. repeat split. exact Hauth.
        -- intros (e' & [= <-] & _ & ->). reflexivity.
      * split.
        -- destruct (isinstance_ApiError e); discriminate.
        -- intros (e' & [= <-] & He & _). congruence.
    + intros b' p1' r' Habs. discriminate Habs.
Qed.

Lemma update_reauth_only_from_login_witness :
  fst (_async_update_data Exact.runtime rejected first_run)
  = Fails (ConfigEntryAuthFailed
             "Authentication failed: Failed to authenticate - please check your credentials").
Proof.
  apply (proj2 (proj1 (update_reauth_only_from_login
                         Exact.runtime rejected first_run) _)).
  exists (DominionEnergyAuthError
            "Failed to authenticate - please check your credentials").
  repeat split; reflexivity.
Defined.

(** ** [validate_input] *)

(** X24: [validate_input] returns the title
    [Dominion Energy (<account number>)] when [validate_credentials]
    returns [True], raises [InvalidAuth] when it returns [False], and lets
    through whatever it raises.  It never raises [CannotConnect], and its
    two handlers never run: it leaves the process as
    [validate_credentials] left it. *)
Theorem validate_input_outcomes rt w data sent records :
  let p0 := mk_process
              (new_api (entry_username data) (entry_password data)
                       (entry_account_number data) (Some SuppliedSession))
              sent records in
  let title : gmap string string :=
    {[ "title" := "Dominion Energy (" ++ entry_account_number data ++ ")" ]} in
  (fst (validate_credentials rt w p0) = Return true ->
   fst (validate_input rt w data sent records) = Done title) /\
  (fst (validate_credentials rt w p0) = Return false ->
   fst (validate_input rt w data sent records) = Fails InvalidAuth) /\
  (forall e,
      fst (validate_credentials rt w p0) = Raise e ->
      fst (validate_input rt w data sent records) = Fails (Uncaught e)) /\
  fst (validate_input rt w data sent records) <> Fails CannotConnect /\
  snd (validate_input rt w data sent records) = snd (validate_credentials rt w p0).
Proof.
  cbv zeta. unfold validate_input.
  match goal with
  | |- context [validate_credentials rt w ?p] =>
      pose proof (validate_credentials_raises rt w p) as HR;
      destruct (validate_credentials rt w p) as [[[|]|e] q]
  end; cbn [fst snd negb] in *.
  - repeat split; try discriminate.
  - repeat split; try discriminate.
  - destruct (HR e eq_refl) as [Hapi Hc].
    assert (isinstance_AuthError e = false) as Hauth
        by (destruct e; try reflexivity; discriminate Hapi).
    rewrite Hauth, Hc. cbn [fst snd].
    repeat split; try discriminate. intros e' [= <-]. reflexivity.
Qed.

Lemma validate_input_outcomes_witness :
  fst (validate_input Exact.runtime valid_but_unavailable
         (mk_entry "user" "secret" "1234567890") [] [])
  = Done {[ "title" := "Dominion Energy (1234567890)" ]} /\
  fst (validate_input Exact.runtime rejected
         (mk_entry "user" "secret" "1234567890") [] [])
  = Fails InvalidAuth.
Proof.
  split.
  - refine (proj1 (validate_input_outcomes
                     Exact.runtime valid_but_unavailable
                     (mk_entry "user" "secret" "1234567890") [] []) _).
    vm_compute. reflexivity.
  - refine (proj1 (proj2 (validate_input_outcomes
                            Exact.runtime rejected
                            (mk_entry "user" "secret" "1234567890") [] [])) _).
    vm_compute. reflexivity.
Defined.

(** X25: when the transport fails on the login page, [validate_input]
    raises [InvalidAuth], after that single request. *)
Theorem validate_input_network_down rt w data sent records msg :
  server w sent login_page_request = Failed msg ->
  fst (validate_input rt w data sent records) = Fails InvalidAuth /\
  wire (snd (validate_input rt w data sent records)) = login_page_request :: sent.
Proof.
  intros Hsrv. unfold validate_input, validate_credentials, authenticate, new_api.
  py_unfold. rewrite Hsrv. py_unfold. split; reflexivity.
Qed.

Lemma validate_input_network_down_witness :
  fst (validate_input Exact.runtime offline
         (mk_entry "user" "secret" "1234567890") [] [])
  = Fails InvalidAuth.
Proof.
  refine (proj1 (validate_input_network_down
                   Exact.runtime offline
                   (mk_entry "user" "secret" "1234567890") [] []
                   "Cannot connect to host" _)).
  reflexivity.
Defined.

(** ** The sensors *)

(** X26: a sensor is available exactly when the coordinator entity is
    and its [native_value] is not [None]. *)
Theorem sensor_available_iff s super_available coordinator_data :
  available s super_available coordinator_data = true <->
  super_available = true /\
  native_is_None (native_value s coordinator_data) = false.
Proof.
  unfold available, native_value.
  destruct super_available, coordinator_data as [data|]; cbn [negb native_is_None].
  - rewrite negb_true_iff. split; [intros H; split; [reflexivity|exact H]|intros [_ H]; exact H].
  - split; [discriminate|intros [_ H]; discriminate H].
  - split; [discriminate|intros [H _]; discriminate H].
  - split; [discriminate|intros [H _]; discriminate H].
Qed.

Lemma append_cancel (s t1 t2 : string) : s ++ t1 = s ++ t2 -> t1 = t2.
Proof.
  induction s as [|c s IH]; simpl; [auto|].
  intros [= H]. apply IH. exact H.
Qed.

Lemma NoDup_map_injective {A B} (f : A -> B) (l : list A) :
  (forall x y, f x = f y -> x = y) -> NoDup l -> NoDup (map f l).
Proof.
  intros Hf. induction 1 as [|x l Hx Hl IH]; simpl; constructor; [|exact IH].
  intros Hin. apply list_elem_of_In, in_map_iff in Hin.
  destruct Hin as (y & Hy & Hin). apply Hf in Hy. subst y.
  apply Hx, list_elem_of_In, Hin.
Qed.

(** X27: [async_setup_entry] creates the eight sensors in the order of
    [SENSOR_DESCRIPTIONS], and their unique ids are pairwise distinct for
    every account number. *)
Theorem sensor_unique_ids entry :
  NoDup (map _attr_unique_id (async_setup_entry entry)) /\
  map (fun s => key (entity_description s)) (async_setup_entry entry)
  = [ "grid_consumption"; "grid_return"; "monthly_usage"; "current_bill";
      "daily_cost"; "current_rate"; "billing_period_start"; "billing_period_end" ].
Proof.
  split; [|reflexivity].
  unfold async_setup_entry. rewrite map_map. cbn [_attr_unique_id new_sensor].
  rewrite <- (map_map key (fun k => entry_account_number entry ++ "_" ++ k)).
  apply NoDup_map_injective.
  - intros k1 k2 H. apply append_cancel in H. apply (append_cancel "_") in H. exact H.
  - apply (bool_decide_unpack _). vm_compute. exact I.
Qed.
